(** * Dotprompt tree-sitter grammar: the lexer automaton [ts_lex], the parse
      tables and the syntax builder that runs them.

    Source: [packages/treesitter/src/parser.c].  The switch of [ts_lex] and
    the arrays [ts_lex_modes], [ts_parse_table], [ts_small_parse_table],
    [ts_small_parse_table_map], [ts_parse_actions], [ts_symbol_names],
    [ts_symbol_metadata] and [ts_alias_sequences] are transcribed entry by
    entry.  Integers of the C code ([TSStateId], [TSSymbol] values, the
    [int32_t] lookahead) are [Z]; positions in the input are [nat].

    The input is the sequence of values the lexer reads through
    [lexer->lookahead], one per [advance]: code points, which for ASCII
    text are the bytes. *)

From Stdlib Require Import String Ascii ZArith List Bool Lia.
Import ListNotations.

Set Warnings "-register-all".

Local Open Scope Z_scope.

(** Character literals of the C source: a one-character string in
    [ch_scope] denotes its code as a [Z], so ['#'] is written ["#"]. *)
Definition ch_of_bytes (l : list Byte.byte) : option Z :=
  match l with
  | [b] => Some (Z.of_N (Byte.to_N b))
  | _ => None
  end.

Definition ch_to_bytes (z : Z) : option (list Byte.byte) := None.

Declare Scope ch_scope.
Delimit Scope ch_scope with ch.
String Notation Z ch_of_bytes ch_to_bytes : ch_scope.

(** Text of examples: a string as the code points the lexer reads. *)
Fixpoint codes (s : string) : list Z :=
  match s with
  | EmptyString => []
  | String a s' => Z.of_nat (nat_of_ascii a) :: codes s'
  end.

(** ** Symbols *)

(** [typedef uint16_t TSStateId] *)
Abbreviation TSStateId := Z (only parsing).

Definition LANGUAGE_VERSION : Z := 14.
Definition STATE_COUNT : Z := 87.
Definition LARGE_STATE_COUNT : Z := 2.
Definition SYMBOL_COUNT : Z := 56.
Definition ALIAS_COUNT : Z := 5.
Definition TOKEN_COUNT : Z := 33.
Definition EXTERNAL_TOKEN_COUNT : Z := 0.
Definition FIELD_COUNT : Z := 3.
Definition MAX_ALIAS_SEQUENCE_LENGTH : Z := 5.
Definition PRODUCTION_ID_COUNT : Z := 9.

Inductive TSSymbol : Set :=
  | ts_builtin_sym_end
  | sym_header_comment
  | aux_sym_frontmatter_token1
  | sym_frontmatter_delimiter
  | aux_sym__yaml_content_token1
  | aux_sym_yaml_line_token1
  | anon_sym_COLON
  | aux_sym_yaml_line_token2
  | anon_sym_LBRACE_LBRACE_POUND
  | anon_sym_RBRACE_RBRACE
  | anon_sym_LBRACE_LBRACE_SLASH
  | anon_sym_LBRACE_LBRACE
  | anon_sym_GT
  | anon_sym_else
  | anon_sym_LBRACE_LBRACE_BANG
  | aux_sym_handlebars_comment_token1
  | anon_sym_LBRACE_LBRACE_BANG_DASH_DASH
  | aux_sym_handlebars_comment_token2
  | anon_sym_DASH_DASH_RBRACE_RBRACE
  | anon_sym_EQ
  | aux_sym_variable_reference_token1
  | sym_path
  | anon_sym_DQUOTE
  | aux_sym_string_literal_token1
  | anon_sym_SQUOTE
  | aux_sym_string_literal_token2
  | sym_number
  | anon_sym_true
  | anon_sym_false
  | anon_sym_LT_LT_LTdotprompt_COLON
  | aux_sym_dotprompt_marker_token1
  | anon_sym_GT_GT_GT
  | sym_text
  | sym_document
  | sym_license_header
  | sym_frontmatter
  | sym__yaml_content
  | sym_yaml_line
  | sym_template_body
  | sym__content
  | sym_handlebars_block
  | sym_block_expression
  | sym_close_block
  | sym_handlebars_expression
  | sym_expression_content
  | sym_handlebars_comment
  | sym_argument
  | sym_hash_param
  | sym_variable_reference
  | sym_string_literal
  | sym_boolean
  | sym_dotprompt_marker
  | aux_sym_license_header_repeat1
  | aux_sym_frontmatter_repeat1
  | aux_sym_template_body_repeat1
  | aux_sym_block_expression_repeat1
  | alias_sym_block_name
  | alias_sym_helper_name
  | alias_sym_key
  | alias_sym_partial_reference
  | alias_sym_yaml_content.

(** The value each enumerator has in [enum ts_symbol_identifiers]. *)
Definition symbol_id (s : TSSymbol) : Z :=
  match s with
  | ts_builtin_sym_end => 0
  | sym_header_comment => 1
  | aux_sym_frontmatter_token1 => 2
  | sym_frontmatter_delimiter => 3
  | aux_sym__yaml_content_token1 => 4
  | aux_sym_yaml_line_token1 => 5
  | anon_sym_COLON => 6
  | aux_sym_yaml_line_token2 => 7
  | anon_sym_LBRACE_LBRACE_POUND => 8
  | anon_sym_RBRACE_RBRACE => 9
  | anon_sym_LBRACE_LBRACE_SLASH => 10
  | anon_sym_LBRACE_LBRACE => 11
  | anon_sym_GT => 12
  | anon_sym_else => 13
  | anon_sym_LBRACE_LBRACE_BANG => 14
  | aux_sym_handlebars_comment_token1 => 15
  | anon_sym_LBRACE_LBRACE_BANG_DASH_DASH => 16
  | aux_sym_handlebars_comment_token2 => 17
  | anon_sym_DASH_DASH_RBRACE_RBRACE => 18
  | anon_sym_EQ => 19
  | aux_sym_variable_reference_token1 => 20
  | sym_path => 21
  | anon_sym_DQUOTE => 22
  | aux_sym_string_literal_token1 => 23
  | anon_sym_SQUOTE => 24
  | aux_sym_string_literal_token2 => 25
  | sym_number => 26
  | anon_sym_true => 27
  | anon_sym_false => 28
  | anon_sym_LT_LT_LTdotprompt_COLON => 29
  | aux_sym_dotprompt_marker_token1 => 30
  | anon_sym_GT_GT_GT => 31
  | sym_text => 32
  | sym_document => 33
  | sym_license_header => 34
  | sym_frontmatter => 35
  | sym__yaml_content => 36
  | sym_yaml_line => 37
  | sym_template_body => 38
  | sym__content => 39
  | sym_handlebars_block => 40
  | sym_block_expression => 41
  | sym_close_block => 42
  | sym_handlebars_expression => 43
  | sym_expression_content => 44
  | sym_handlebars_comment => 45
  | sym_argument => 46
  | sym_hash_param => 47
  | sym_variable_reference => 48
  | sym_string_literal => 49
  | sym_boolean => 50
  | sym_dotprompt_marker => 51
  | aux_sym_license_header_repeat1 => 52
  | aux_sym_frontmatter_repeat1 => 53
  | aux_sym_template_body_repeat1 => 54
  | aux_sym_block_expression_repeat1 => 55
  | alias_sym_block_name => 56
  | alias_sym_helper_name => 57
  | alias_sym_key => 58
  | alias_sym_partial_reference => 59
  | alias_sym_yaml_content => 60
  end.

Definition ts_symbol_names (s : TSSymbol) : string :=
  match s with
  | ts_builtin_sym_end => "end"%string
  | sym_header_comment => "header_comment"%string
  | aux_sym_frontmatter_token1 => "frontmatter_token1"%string
  | sym_frontmatter_delimiter => "frontmatter_delimiter"%string
  | aux_sym__yaml_content_token1 => "_yaml_content_token1"%string
  | aux_sym_yaml_line_token1 => "yaml_key"%string
  | anon_sym_COLON => ":"%string
  | aux_sym_yaml_line_token2 => "yaml_value"%string
  | anon_sym_LBRACE_LBRACE_POUND => "{{#"%string
  | anon_sym_RBRACE_RBRACE => "}}"%string
  | anon_sym_LBRACE_LBRACE_SLASH => "{{/"%string
  | anon_sym_LBRACE_LBRACE => "{{"%string
  | anon_sym_GT => ">"%string
  | anon_sym_else => "else"%string
  | anon_sym_LBRACE_LBRACE_BANG => "{{!"%string
  | aux_sym_handlebars_comment_token1 => "handlebars_comment_token1"%string
  | anon_sym_LBRACE_LBRACE_BANG_DASH_DASH => "{{!--"%string
  | aux_sym_handlebars_comment_token2 => "handlebars_comment_token2"%string
  | anon_sym_DASH_DASH_RBRACE_RBRACE => "--}}"%string
  | anon_sym_EQ => "="%string
  | aux_sym_variable_reference_token1 => "variable_reference_token1"%string
  | sym_path => "path"%string
  | anon_sym_DQUOTE => String (ascii_of_nat 34) EmptyString
  | aux_sym_string_literal_token1 => "string_literal_token1"%string
  | anon_sym_SQUOTE => "'"%string
  | aux_sym_string_literal_token2 => "string_literal_token2"%string
  | sym_number => "number"%string
  | anon_sym_true => "true"%string
  | anon_sym_false => "false"%string
  | anon_sym_LT_LT_LTdotprompt_COLON => "<<<dotprompt:"%string
  | aux_sym_dotprompt_marker_token1 => "marker_content"%string
  | anon_sym_GT_GT_GT => ">>>"%string
  | sym_text => "text"%string
  | sym_document => "document"%string
  | sym_license_header => "license_header"%string
  | sym_frontmatter => "frontmatter"%string
  | sym__yaml_content => "_yaml_content"%string
  | sym_yaml_line => "yaml_line"%string
  | sym_template_body => "template_body"%string
  | sym__content => "_content"%string
  | sym_handlebars_block => "handlebars_block"%string
  | sym_block_expression => "block_expression"%string
  | sym_close_block => "close_block"%string
  | sym_handlebars_expression => "handlebars_expression"%string
  | sym_expression_content => "expression_content"%string
  | sym_handlebars_comment => "handlebars_comment"%string
  | sym_argument => "argument"%string
  | sym_hash_param => "hash_param"%string
  | sym_variable_reference => "variable_reference"%string
  | sym_string_literal => "string_literal"%string
  | sym_boolean => "boolean"%string
  | sym_dotprompt_marker => "dotprompt_marker"%string
  | aux_sym_license_header_repeat1 => "license_header_repeat1"%string
  | aux_sym_frontmatter_repeat1 => "frontmatter_repeat1"%string
  | aux_sym_template_body_repeat1 => "template_body_repeat1"%string
  | aux_sym_block_expression_repeat1 => "block_expression_repeat1"%string
  | alias_sym_block_name => "block_name"%string
  | alias_sym_helper_name => "helper_name"%string
  | alias_sym_key => "key"%string
  | alias_sym_partial_reference => "partial_reference"%string
  | alias_sym_yaml_content => "yaml_content"%string
  end.

Record TSSymbolMetadata : Set := { visible : bool; named : bool }.

Definition ts_symbol_metadata (s : TSSymbol) : TSSymbolMetadata :=
  match s with
  | ts_builtin_sym_end => {| visible := false; named := true |}
  | sym_header_comment => {| visible := true; named := true |}
  | aux_sym_frontmatter_token1 => {| visible := false; named := false |}
  | sym_frontmatter_delimiter => {| visible := true; named := true |}
  | aux_sym__yaml_content_token1 => {| visible := false; named := false |}
  | aux_sym_yaml_line_token1 => {| visible := true; named := true |}
  | anon_sym_COLON => {| visible := true; named := false |}
  | aux_sym_yaml_line_token2 => {| visible := true; named := true |}
  | anon_sym_LBRACE_LBRACE_POUND => {| visible := true; named := false |}
  | anon_sym_RBRACE_RBRACE => {| visible := true; named := false |}
  | anon_sym_LBRACE_LBRACE_SLASH => {| visible := true; named := false |}
  | anon_sym_LBRACE_LBRACE => {| visible := true; named := false |}
  | anon_sym_GT => {| visible := true; named := false |}
  | anon_sym_else => {| visible := true; named := false |}
  | anon_sym_LBRACE_LBRACE_BANG => {| visible := true; named := false |}
  | aux_sym_handlebars_comment_token1 => {| visible := false; named := false |}
  | anon_sym_LBRACE_LBRACE_BANG_DASH_DASH => {| visible := true; named := false |}
  | aux_sym_handlebars_comment_token2 => {| visible := false; named := false |}
  | anon_sym_DASH_DASH_RBRACE_RBRACE => {| visible := true; named := false |}
  | anon_sym_EQ => {| visible := true; named := false |}
  | aux_sym_variable_reference_token1 => {| visible := false; named := false |}
  | sym_path => {| visible := true; named := true |}
  | anon_sym_DQUOTE => {| visible := true; named := false |}
  | aux_sym_string_literal_token1 => {| visible := false; named := false |}
  | anon_sym_SQUOTE => {| visible := true; named := false |}
  | aux_sym_string_literal_token2 => {| visible := false; named := false |}
  | sym_number => {| visible := true; named := true |}
  | anon_sym_true => {| visible := true; named := false |}
  | anon_sym_false => {| visible := true; named := false |}
  | anon_sym_LT_LT_LTdotprompt_COLON => {| visible := true; named := false |}
  | aux_sym_dotprompt_marker_token1 => {| visible := true; named := true |}
  | anon_sym_GT_GT_GT => {| visible := true; named := false |}
  | sym_text => {| visible := true; named := true |}
  | sym_document => {| visible := true; named := true |}
  | sym_license_header => {| visible := true; named := true |}
  | sym_frontmatter => {| visible := true; named := true |}
  | sym__yaml_content => {| visible := false; named := true |}
  | sym_yaml_line => {| visible := true; named := true |}
  | sym_template_body => {| visible := true; named := true |}
  | sym__content => {| visible := false; named := true |}
  | sym_handlebars_block => {| visible := true; named := true |}
  | sym_block_expression => {| visible := true; named := true |}
  | sym_close_block => {| visible := true; named := true |}
  | sym_handlebars_expression => {| visible := true; named := true |}
  | sym_expression_content => {| visible := true; named := true |}
  | sym_handlebars_comment => {| visible := true; named := true |}
  | sym_argument => {| visible := true; named := true |}
  | sym_hash_param => {| visible := true; named := true |}
  | sym_variable_reference => {| visible := true; named := true |}
  | sym_string_literal => {| visible := true; named := true |}
  | sym_boolean => {| visible := true; named := true |}
  | sym_dotprompt_marker => {| visible := true; named := true |}
  | aux_sym_license_header_repeat1 => {| visible := false; named := false |}
  | aux_sym_frontmatter_repeat1 => {| visible := false; named := false |}
  | aux_sym_template_body_repeat1 => {| visible := false; named := false |}
  | aux_sym_block_expression_repeat1 => {| visible := false; named := false |}
  | alias_sym_block_name => {| visible := true; named := true |}
  | alias_sym_helper_name => {| visible := true; named := true |}
  | alias_sym_key => {| visible := true; named := true |}
  | alias_sym_partial_reference => {| visible := true; named := true |}
  | alias_sym_yaml_content => {| visible := true; named := true |}
  end.

(** [ts_alias_sequences]: the symbol under which the child at an index
    of a production is shown, [None] where the array holds 0. *)
Definition ts_alias_sequences (production_id : Z) (child_index : nat)
  : option TSSymbol :=
  match production_id, child_index with
  | 1, 0%nat => Some sym_variable_reference
  | 2, 1%nat => Some alias_sym_block_name
  | 3, 1%nat => Some alias_sym_partial_reference
  | 4, 0%nat => Some alias_sym_helper_name
  | 6, 2%nat => Some alias_sym_yaml_content
  | 7, 0%nat => Some alias_sym_key
  | _, _ => None
  end.

Definition symbol_eqb (a b : TSSymbol) : bool := symbol_id a =? symbol_id b.

(** ** The lexer

    [ts_lex] is a [switch] on the automaton state inside the loop that the
    macros of [tree_sitter/parser.h] build.  One pass through the switch is
    [ts_lex_state]: the token the state accepts, if it starts with
    [ACCEPT_TOKEN], and what its chain of [if]s decides for the lookahead. *)

Inductive lex_action : Set :=
  | ADVANCE (state : Z)
  | SKIP (state : Z)
  | END_STATE.

Abbreviation ACCEPT_TOKEN symbol k := (Some symbol, k) (only parsing).
Abbreviation NO_TOKEN k := (@None TSSymbol, k) (only parsing).

(** [ADVANCE_MAP(c1, s1, c2, s2, ...)]: the first pair whose character is
    the lookahead gives the state to advance to; with none, control falls
    to the statements after the macro. *)
Fixpoint ADVANCE_MAP (lookahead : Z) (map : list (Z * Z)) (k : lex_action)
  : lex_action :=
  match map with
  | [] => k
  | (c, s) :: map' =>
      if lookahead =? c then ADVANCE s else ADVANCE_MAP lookahead map' k
  end.

Local Open Scope ch_scope.

Definition ts_lex_state (state : Z) (lookahead : Z) (eof : bool)
  : option TSSymbol * lex_action :=
  match state with
  | 0 => NO_TOKEN (
      if eof then ADVANCE 40 else
      ADVANCE_MAP lookahead
        [ (34 (* double quote *), 78);
          ("#", 41);
          (39 (* single quote *), 81);
          ("-", 6);
          (":", 47);
          ("<", 13);
          ("=", 65);
          (">", 56);
          ("@", 33);
          ("e", 71);
          ("f", 67);
          ("t", 73);
          ("{", 26);
          ("}", 27) ] (
      if ((9 (* TAB *) <=? lookahead) && (lookahead <=? 13 (* CR *))) || (lookahead =? 32 (* space *)) then SKIP 0 else
      if (("0" <=? lookahead) && (lookahead <=? "9")) then ADVANCE 84 else
      if (("A" <=? lookahead) && (lookahead <=? "Z")) || (lookahead =? "_") || (("a" <=? lookahead) && (lookahead <=? "z")) then ADVANCE 77 else
      END_STATE))
  | 1 => NO_TOKEN (
      if (lookahead =? 10 (* LF *)) then ADVANCE 42 else
      if (lookahead =? 13 (* CR *)) then ADVANCE 48 else
      if ((9 (* TAB *) <=? lookahead) && (lookahead <=? 12 (* FF *))) || (lookahead =? 32 (* space *)) then ADVANCE 48 else
      if negb (lookahead =? 0) then ADVANCE 49 else
      END_STATE)
  | 2 => NO_TOKEN (
      if (lookahead =? 10 (* LF *)) then ADVANCE 43 else
      if (lookahead =? 13 (* CR *)) then ADVANCE 2 else
      if ((9 (* TAB *) <=? lookahead) && (lookahead <=? 12 (* FF *))) || (lookahead =? 32 (* space *)) then SKIP 2 else
      END_STATE)
  | 3 => NO_TOKEN (
      ADVANCE_MAP lookahead
        [ (34 (* double quote *), 78);
          (39 (* single quote *), 81);
          ("-", 31);
          ("=", 65);
          (">", 14);
          ("@", 33);
          ("f", 67);
          ("t", 73);
          ("}", 27) ] (
      if ((9 (* TAB *) <=? lookahead) && (lookahead <=? 13 (* CR *))) || (lookahead =? 32 (* space *)) then SKIP 3 else
      if (("0" <=? lookahead) && (lookahead <=? "9")) then ADVANCE 84 else
      if (("A" <=? lookahead) && (lookahead <=? "Z")) || (lookahead =? "_") || (("a" <=? lookahead) && (lookahead <=? "z")) then ADVANCE 77 else
      END_STATE))
  | 4 => NO_TOKEN (
      if (lookahead =? "#") then ADVANCE 41 else
      if (lookahead =? "-") then ADVANCE 10 else
      if ((9 (* TAB *) <=? lookahead) && (lookahead <=? 13 (* CR *))) || (lookahead =? 32 (* space *)) then ADVANCE 45 else
      if (("A" <=? lookahead) && (lookahead <=? "Z")) || (lookahead =? "_") || (("a" <=? lookahead) && (lookahead <=? "z")) then ADVANCE 46 else
      END_STATE)
  | 5 => NO_TOKEN (
      if (lookahead =? "#") then ADVANCE 92 else
      if (lookahead =? "<") then ADVANCE 99 else
      if (lookahead =? "{") then ADVANCE 100 else
      if ((9 (* TAB *) <=? lookahead) && (lookahead <=? 13 (* CR *))) || (lookahead =? 32 (* space *)) then ADVANCE 96 else
      if negb (lookahead =? 0) then ADVANCE 102 else
      END_STATE)
  | 6 => NO_TOKEN (
      if (lookahead =? "-") then ADVANCE 8 else
      if (("0" <=? lookahead) && (lookahead <=? "9")) then ADVANCE 84 else
      END_STATE)
  | 7 => NO_TOKEN (
      if (lookahead =? "-") then ADVANCE 44 else
      END_STATE)
  | 8 => NO_TOKEN (
      if (lookahead =? "-") then ADVANCE 44 else
      if (lookahead =? "}") then ADVANCE 28 else
      END_STATE)
  | 9 => NO_TOKEN (
      if (lookahead =? "-") then ADVANCE 61 else
      END_STATE)
  | 10 => NO_TOKEN (
      if (lookahead =? "-") then ADVANCE 7 else
      END_STATE)
  | 11 => NO_TOKEN (
      if (lookahead =? ":") then ADVANCE 88 else
      END_STATE)
  | 12 => NO_TOKEN (
      if (lookahead =? "<") then ADVANCE 17 else
      END_STATE)
  | 13 => NO_TOKEN (
      if (lookahead =? "<") then ADVANCE 12 else
      END_STATE)
  | 14 => NO_TOKEN (
      if (lookahead =? ">") then ADVANCE 15 else
      END_STATE)
  | 15 => NO_TOKEN (
      if (lookahead =? ">") then ADVANCE 91 else
      END_STATE)
  | 16 => NO_TOKEN (
      if (lookahead =? ">") then ADVANCE 55 else
      if (lookahead =? "@") then ADVANCE 33 else
      if (lookahead =? "e") then ADVANCE 71 else
      if ((9 (* TAB *) <=? lookahead) && (lookahead <=? 13 (* CR *))) || (lookahead =? 32 (* space *)) then SKIP 16 else
      if (("A" <=? lookahead) && (lookahead <=? "Z")) || (lookahead =? "_") || (("a" <=? lookahead) && (lookahead <=? "z")) then ADVANCE 77 else
      END_STATE)
  | 17 => NO_TOKEN (
      if (lookahead =? "d") then ADVANCE 19 else
      END_STATE)
  | 18 => NO_TOKEN (
      if (lookahead =? "m") then ADVANCE 22 else
      END_STATE)
  | 19 => NO_TOKEN (
      if (lookahead =? "o") then ADVANCE 24 else
      END_STATE)
  | 20 => NO_TOKEN (
      if (lookahead =? "o") then ADVANCE 18 else
      END_STATE)
  | 21 => NO_TOKEN (
      if (lookahead =? "p") then ADVANCE 23 else
      END_STATE)
  | 22 => NO_TOKEN (
      if (lookahead =? "p") then ADVANCE 25 else
      END_STATE)
  | 23 => NO_TOKEN (
      if (lookahead =? "r") then ADVANCE 20 else
      END_STATE)
  | 24 => NO_TOKEN (
      if (lookahead =? "t") then ADVANCE 21 else
      END_STATE)
  | 25 => NO_TOKEN (
      if (lookahead =? "t") then ADVANCE 11 else
      END_STATE)
  | 26 => NO_TOKEN (
      if (lookahead =? "{") then ADVANCE 54 else
      END_STATE)
  | 27 => NO_TOKEN (
      if (lookahead =? "}") then ADVANCE 51 else
      END_STATE)
  | 28 => NO_TOKEN (
      if (lookahead =? "}") then ADVANCE 64 else
      END_STATE)
  | 29 => NO_TOKEN (
      if ((9 (* TAB *) <=? lookahead) && (lookahead <=? 13 (* CR *))) || (lookahead =? 32 (* space *)) then SKIP 29 else
      if (("A" <=? lookahead) && (lookahead <=? "Z")) || (lookahead =? "_") || (("a" <=? lookahead) && (lookahead <=? "z")) then ADVANCE 77 else
      END_STATE)
  | 30 => NO_TOKEN (
      if ((9 (* TAB *) <=? lookahead) && (lookahead <=? 13 (* CR *))) || (lookahead =? 32 (* space *)) then ADVANCE 89 else
      if negb (lookahead =? 0) && negb (lookahead =? ">") then ADVANCE 90 else
      END_STATE)
  | 31 => NO_TOKEN (
      if (("0" <=? lookahead) && (lookahead <=? "9")) then ADVANCE 84 else
      END_STATE)
  | 32 => NO_TOKEN (
      if (("0" <=? lookahead) && (lookahead <=? "9")) then ADVANCE 85 else
      END_STATE)
  | 33 => NO_TOKEN (
      if (("A" <=? lookahead) && (lookahead <=? "Z")) || (lookahead =? "_") || (("a" <=? lookahead) && (lookahead <=? "z")) then ADVANCE 66 else
      END_STATE)
  | 34 => NO_TOKEN (
      if negb (lookahead =? 0) && negb (lookahead =? 10 (* LF *)) then ADVANCE 83 else
      END_STATE)
  | 35 => NO_TOKEN (
      if negb (lookahead =? 0) && negb (lookahead =? 10 (* LF *)) then ADVANCE 80 else
      END_STATE)
  | 36 => NO_TOKEN (
      if negb (lookahead =? 0) && negb (lookahead =? "}") then ADVANCE 60 else
      END_STATE)
  | 37 => NO_TOKEN (
      if eof then ADVANCE 40 else
      if (lookahead =? "#") then ADVANCE 41 else
      if (lookahead =? "-") then ADVANCE 98 else
      if (lookahead =? "<") then ADVANCE 99 else
      if (lookahead =? "{") then ADVANCE 101 else
      if ((9 (* TAB *) <=? lookahead) && (lookahead <=? 13 (* CR *))) || (lookahead =? 32 (* space *)) then ADVANCE 93 else
      if negb (lookahead =? 0) then ADVANCE 102 else
      END_STATE)
  | 38 => NO_TOKEN (
      if eof then ADVANCE 40 else
      if (lookahead =? "#") then ADVANCE 92 else
      if (lookahead =? "-") then ADVANCE 98 else
      if (lookahead =? "<") then ADVANCE 99 else
      if (lookahead =? "{") then ADVANCE 101 else
      if ((9 (* TAB *) <=? lookahead) && (lookahead <=? 13 (* CR *))) || (lookahead =? 32 (* space *)) then ADVANCE 94 else
      if negb (lookahead =? 0) then ADVANCE 102 else
      END_STATE)
  | 39 => NO_TOKEN (
      if eof then ADVANCE 40 else
      if (lookahead =? "#") then ADVANCE 92 else
      if (lookahead =? "<") then ADVANCE 99 else
      if (lookahead =? "{") then ADVANCE 101 else
      if ((9 (* TAB *) <=? lookahead) && (lookahead <=? 13 (* CR *))) || (lookahead =? 32 (* space *)) then ADVANCE 95 else
      if negb (lookahead =? 0) then ADVANCE 102 else
      END_STATE)
  | 40 => ACCEPT_TOKEN ts_builtin_sym_end END_STATE
  | 41 => ACCEPT_TOKEN sym_header_comment (
      if negb (lookahead =? 0) && negb (lookahead =? 10 (* LF *)) then ADVANCE 41 else
      END_STATE)
  | 42 => ACCEPT_TOKEN aux_sym_frontmatter_token1 (
      if (lookahead =? 10 (* LF *)) then ADVANCE 42 else
      if (lookahead =? 13 (* CR *)) then ADVANCE 48 else
      if ((9 (* TAB *) <=? lookahead) && (lookahead <=? 12 (* FF *))) || (lookahead =? 32 (* space *)) then ADVANCE 48 else
      END_STATE)
  | 43 => ACCEPT_TOKEN aux_sym_frontmatter_token1 (
      if (lookahead =? 10 (* LF *)) then ADVANCE 43 else
      if (lookahead =? 13 (* CR *)) then ADVANCE 2 else
      END_STATE)
  | 44 => ACCEPT_TOKEN sym_frontmatter_delimiter END_STATE
  | 45 => ACCEPT_TOKEN aux_sym__yaml_content_token1 (
      if (lookahead =? "-") then ADVANCE 10 else
      if ((9 (* TAB *) <=? lookahead) && (lookahead <=? 13 (* CR *))) || (lookahead =? 32 (* space *)) then ADVANCE 45 else
      END_STATE)
  | 46 => ACCEPT_TOKEN aux_sym_yaml_line_token1 (
      if (lookahead =? "-") || (("0" <=? lookahead) && (lookahead <=? "9")) || (("A" <=? lookahead) && (lookahead <=? "Z")) || (lookahead =? "_") || (("a" <=? lookahead) && (lookahead <=? "z")) then ADVANCE 46 else
      END_STATE)
  | 47 => ACCEPT_TOKEN anon_sym_COLON END_STATE
  | 48 => ACCEPT_TOKEN aux_sym_yaml_line_token2 (
      if (lookahead =? 10 (* LF *)) then ADVANCE 42 else
      if (lookahead =? 13 (* CR *)) then ADVANCE 48 else
      if ((9 (* TAB *) <=? lookahead) && (lookahead <=? 12 (* FF *))) || (lookahead =? 32 (* space *)) then ADVANCE 48 else
      if negb (lookahead =? 0) then ADVANCE 49 else
      END_STATE)
  | 49 => ACCEPT_TOKEN aux_sym_yaml_line_token2 (
      if negb (lookahead =? 0) && negb (lookahead =? 10 (* LF *)) then ADVANCE 49 else
      END_STATE)
  | 50 => ACCEPT_TOKEN anon_sym_LBRACE_LBRACE_POUND END_STATE
  | 51 => ACCEPT_TOKEN anon_sym_RBRACE_RBRACE END_STATE
  | 52 => ACCEPT_TOKEN anon_sym_LBRACE_LBRACE_SLASH END_STATE
  | 53 => ACCEPT_TOKEN anon_sym_LBRACE_LBRACE (
      if (lookahead =? "!") then ADVANCE 58 else
      if (lookahead =? "#") then ADVANCE 50 else
      END_STATE)
  | 54 => ACCEPT_TOKEN anon_sym_LBRACE_LBRACE (
      if (lookahead =? "!") then ADVANCE 58 else
      if (lookahead =? "#") then ADVANCE 50 else
      if (lookahead =? "/") then ADVANCE 52 else
      END_STATE)
  | 55 => ACCEPT_TOKEN anon_sym_GT END_STATE
  | 56 => ACCEPT_TOKEN anon_sym_GT (
      if (lookahead =? ">") then ADVANCE 15 else
      END_STATE)
  | 57 => ACCEPT_TOKEN anon_sym_else (
      if (lookahead =? ".") || (("0" <=? lookahead) && (lookahead <=? "9")) || (("A" <=? lookahead) && (lookahead <=? "Z")) || (lookahead =? "_") || (("a" <=? lookahead) && (lookahead <=? "z")) then ADVANCE 77 else
      END_STATE)
  | 58 => ACCEPT_TOKEN anon_sym_LBRACE_LBRACE_BANG (
      if (lookahead =? "-") then ADVANCE 9 else
      END_STATE)
  | 59 => ACCEPT_TOKEN aux_sym_handlebars_comment_token1 (
      if (lookahead =? "}") then ADVANCE 36 else
      if ((9 (* TAB *) <=? lookahead) && (lookahead <=? 13 (* CR *))) || (lookahead =? 32 (* space *)) then ADVANCE 59 else
      if negb (lookahead =? 0) then ADVANCE 60 else
      END_STATE)
  | 60 => ACCEPT_TOKEN aux_sym_handlebars_comment_token1 (
      if (lookahead =? "}") then ADVANCE 36 else
      if negb (lookahead =? 0) then ADVANCE 60 else
      END_STATE)
  | 61 => ACCEPT_TOKEN anon_sym_LBRACE_LBRACE_BANG_DASH_DASH END_STATE
  | 62 => ACCEPT_TOKEN aux_sym_handlebars_comment_token2 (
      if (lookahead =? "-") then ADVANCE 63 else
      if ((9 (* TAB *) <=? lookahead) && (lookahead <=? 13 (* CR *))) || (lookahead =? 32 (* space *)) then ADVANCE 62 else
      if negb (lookahead =? 0) then ADVANCE 63 else
      END_STATE)
  | 63 => ACCEPT_TOKEN aux_sym_handlebars_comment_token2 (
      if (lookahead =? "-") then ADVANCE 63 else
      if negb (lookahead =? 0) then ADVANCE 63 else
      END_STATE)
  | 64 => ACCEPT_TOKEN anon_sym_DASH_DASH_RBRACE_RBRACE END_STATE
  | 65 => ACCEPT_TOKEN anon_sym_EQ END_STATE
  | 66 => ACCEPT_TOKEN aux_sym_variable_reference_token1 (
      if (("0" <=? lookahead) && (lookahead <=? "9")) || (("A" <=? lookahead) && (lookahead <=? "Z")) || (lookahead =? "_") || (("a" <=? lookahead) && (lookahead <=? "z")) then ADVANCE 66 else
      END_STATE)
  | 67 => ACCEPT_TOKEN sym_path (
      if (lookahead =? "a") then ADVANCE 72 else
      if (lookahead =? ".") || (("0" <=? lookahead) && (lookahead <=? "9")) || (("A" <=? lookahead) && (lookahead <=? "Z")) || (lookahead =? "_") || (("b" <=? lookahead) && (lookahead <=? "z")) then ADVANCE 77 else
      END_STATE)
  | 68 => ACCEPT_TOKEN sym_path (
      if (lookahead =? "e") then ADVANCE 57 else
      if (lookahead =? ".") || (("0" <=? lookahead) && (lookahead <=? "9")) || (("A" <=? lookahead) && (lookahead <=? "Z")) || (lookahead =? "_") || (("a" <=? lookahead) && (lookahead <=? "z")) then ADVANCE 77 else
      END_STATE)
  | 69 => ACCEPT_TOKEN sym_path (
      if (lookahead =? "e") then ADVANCE 86 else
      if (lookahead =? ".") || (("0" <=? lookahead) && (lookahead <=? "9")) || (("A" <=? lookahead) && (lookahead <=? "Z")) || (lookahead =? "_") || (("a" <=? lookahead) && (lookahead <=? "z")) then ADVANCE 77 else
      END_STATE)
  | 70 => ACCEPT_TOKEN sym_path (
      if (lookahead =? "e") then ADVANCE 87 else
      if (lookahead =? ".") || (("0" <=? lookahead) && (lookahead <=? "9")) || (("A" <=? lookahead) && (lookahead <=? "Z")) || (lookahead =? "_") || (("a" <=? lookahead) && (lookahead <=? "z")) then ADVANCE 77 else
      END_STATE)
  | 71 => ACCEPT_TOKEN sym_path (
      if (lookahead =? "l") then ADVANCE 74 else
      if (lookahead =? ".") || (("0" <=? lookahead) && (lookahead <=? "9")) || (("A" <=? lookahead) && (lookahead <=? "Z")) || (lookahead =? "_") || (("a" <=? lookahead) && (lookahead <=? "z")) then ADVANCE 77 else
      END_STATE)
  | 72 => ACCEPT_TOKEN sym_path (
      if (lookahead =? "l") then ADVANCE 75 else
      if (lookahead =? ".") || (("0" <=? lookahead) && (lookahead <=? "9")) || (("A" <=? lookahead) && (lookahead <=? "Z")) || (lookahead =? "_") || (("a" <=? lookahead) && (lookahead <=? "z")) then ADVANCE 77 else
      END_STATE)
  | 73 => ACCEPT_TOKEN sym_path (
      if (lookahead =? "r") then ADVANCE 76 else
      if (lookahead =? ".") || (("0" <=? lookahead) && (lookahead <=? "9")) || (("A" <=? lookahead) && (lookahead <=? "Z")) || (lookahead =? "_") || (("a" <=? lookahead) && (lookahead <=? "z")) then ADVANCE 77 else
      END_STATE)
  | 74 => ACCEPT_TOKEN sym_path (
      if (lookahead =? "s") then ADVANCE 68 else
      if (lookahead =? ".") || (("0" <=? lookahead) && (lookahead <=? "9")) || (("A" <=? lookahead) && (lookahead <=? "Z")) || (lookahead =? "_") || (("a" <=? lookahead) && (lookahead <=? "z")) then ADVANCE 77 else
      END_STATE)
  | 75 => ACCEPT_TOKEN sym_path (
      if (lookahead =? "s") then ADVANCE 70 else
      if (lookahead =? ".") || (("0" <=? lookahead) && (lookahead <=? "9")) || (("A" <=? lookahead) && (lookahead <=? "Z")) || (lookahead =? "_") || (("a" <=? lookahead) && (lookahead <=? "z")) then ADVANCE 77 else
      END_STATE)
  | 76 => ACCEPT_TOKEN sym_path (
      if (lookahead =? "u") then ADVANCE 69 else
      if (lookahead =? ".") || (("0" <=? lookahead) && (lookahead <=? "9")) || (("A" <=? lookahead) && (lookahead <=? "Z")) || (lookahead =? "_") || (("a" <=? lookahead) && (lookahead <=? "z")) then ADVANCE 77 else
      END_STATE)
  | 77 => ACCEPT_TOKEN sym_path (
      if (lookahead =? ".") || (("0" <=? lookahead) && (lookahead <=? "9")) || (("A" <=? lookahead) && (lookahead <=? "Z")) || (lookahead =? "_") || (("a" <=? lookahead) && (lookahead <=? "z")) then ADVANCE 77 else
      END_STATE)
  | 78 => ACCEPT_TOKEN anon_sym_DQUOTE END_STATE
  | 79 => ACCEPT_TOKEN aux_sym_string_literal_token1 (
      if (lookahead =? 92 (* backslash *)) then ADVANCE 35 else
      if ((9 (* TAB *) <=? lookahead) && (lookahead <=? 13 (* CR *))) || (lookahead =? 32 (* space *)) then ADVANCE 79 else
      if negb (lookahead =? 0) && negb (lookahead =? 34 (* double quote *)) then ADVANCE 80 else
      END_STATE)
  | 80 => ACCEPT_TOKEN aux_sym_string_literal_token1 (
      if (lookahead =? 92 (* backslash *)) then ADVANCE 35 else
      if negb (lookahead =? 0) && negb (lookahead =? 34 (* double quote *)) then ADVANCE 80 else
      END_STATE)
  | 81 => ACCEPT_TOKEN anon_sym_SQUOTE END_STATE
  | 82 => ACCEPT_TOKEN aux_sym_string_literal_token2 (
      if (lookahead =? 92 (* backslash *)) then ADVANCE 34 else
      if ((9 (* TAB *) <=? lookahead) && (lookahead <=? 13 (* CR *))) || (lookahead =? 32 (* space *)) then ADVANCE 82 else
      if negb (lookahead =? 0) && negb (lookahead =? 39 (* single quote *)) then ADVANCE 83 else
      END_STATE)
  | 83 => ACCEPT_TOKEN aux_sym_string_literal_token2 (
      if (lookahead =? 92 (* backslash *)) then ADVANCE 34 else
      if negb (lookahead =? 0) && negb (lookahead =? 39 (* single quote *)) then ADVANCE 83 else
      END_STATE)
  | 84 => ACCEPT_TOKEN sym_number (
      if (lookahead =? ".") then ADVANCE 32 else
      if (("0" <=? lookahead) && (lookahead <=? "9")) then ADVANCE 84 else
      END_STATE)
  | 85 => ACCEPT_TOKEN sym_number (
      if (("0" <=? lookahead) && (lookahead <=? "9")) then ADVANCE 85 else
      END_STATE)
  | 86 => ACCEPT_TOKEN anon_sym_true (
      if (lookahead =? ".") || (("0" <=? lookahead) && (lookahead <=? "9")) || (("A" <=? lookahead) && (lookahead <=? "Z")) || (lookahead =? "_") || (("a" <=? lookahead) && (lookahead <=? "z")) then ADVANCE 77 else
      END_STATE)
  | 87 => ACCEPT_TOKEN anon_sym_false (
      if (lookahead =? ".") || (("0" <=? lookahead) && (lookahead <=? "9")) || (("A" <=? lookahead) && (lookahead <=? "Z")) || (lookahead =? "_") || (("a" <=? lookahead) && (lookahead <=? "z")) then ADVANCE 77 else
      END_STATE)
  | 88 => ACCEPT_TOKEN anon_sym_LT_LT_LTdotprompt_COLON END_STATE
  | 89 => ACCEPT_TOKEN aux_sym_dotprompt_marker_token1 (
      if ((9 (* TAB *) <=? lookahead) && (lookahead <=? 13 (* CR *))) || (lookahead =? 32 (* space *)) then ADVANCE 89 else
      if negb (lookahead =? 0) && negb (lookahead =? ">") then ADVANCE 90 else
      END_STATE)
  | 90 => ACCEPT_TOKEN aux_sym_dotprompt_marker_token1 (
      if negb (lookahead =? 0) && negb (lookahead =? ">") then ADVANCE 90 else
      END_STATE)
  | 91 => ACCEPT_TOKEN anon_sym_GT_GT_GT END_STATE
  | 92 => ACCEPT_TOKEN sym_text END_STATE
  | 93 => ACCEPT_TOKEN sym_text (
      if (lookahead =? "#") then ADVANCE 41 else
      if (lookahead =? "-") then ADVANCE 98 else
      if (lookahead =? "<") then ADVANCE 99 else
      if (lookahead =? "{") then ADVANCE 101 else
      if ((9 (* TAB *) <=? lookahead) && (lookahead <=? 13 (* CR *))) || (lookahead =? 32 (* space *)) then ADVANCE 93 else
      if negb (lookahead =? 0) then ADVANCE 102 else
      END_STATE)
  | 94 => ACCEPT_TOKEN sym_text (
      if (lookahead =? "#") then ADVANCE 92 else
      if (lookahead =? "-") then ADVANCE 98 else
      if (lookahead =? "<") then ADVANCE 99 else
      if (lookahead =? "{") then ADVANCE 101 else
      if ((9 (* TAB *) <=? lookahead) && (lookahead <=? 13 (* CR *))) || (lookahead =? 32 (* space *)) then ADVANCE 94 else
      if negb (lookahead =? 0) then ADVANCE 102 else
      END_STATE)
  | 95 => ACCEPT_TOKEN sym_text (
      if (lookahead =? "#") then ADVANCE 92 else
      if (lookahead =? "<") then ADVANCE 99 else
      if (lookahead =? "{") then ADVANCE 101 else
      if ((9 (* TAB *) <=? lookahead) && (lookahead <=? 13 (* CR *))) || (lookahead =? 32 (* space *)) then ADVANCE 95 else
      if negb (lookahead =? 0) then ADVANCE 102 else
      END_STATE)
  | 96 => ACCEPT_TOKEN sym_text (
      if (lookahead =? "#") then ADVANCE 92 else
      if (lookahead =? "<") then ADVANCE 99 else
      if (lookahead =? "{") then ADVANCE 100 else
      if ((9 (* TAB *) <=? lookahead) && (lookahead <=? 13 (* CR *))) || (lookahead =? 32 (* space *)) then ADVANCE 96 else
      if negb (lookahead =? 0) then ADVANCE 102 else
      END_STATE)
  | 97 => ACCEPT_TOKEN sym_text (
      if (lookahead =? "-") then ADVANCE 44 else
      if negb (lookahead =? 0) && negb (lookahead =? "#") && negb (lookahead =? "<") && negb (lookahead =? "{") then ADVANCE 102 else
      END_STATE)
  | 98 => ACCEPT_TOKEN sym_text (
      if (lookahead =? "-") then ADVANCE 97 else
      if negb (lookahead =? 0) && negb (lookahead =? "#") && negb (lookahead =? "<") && negb (lookahead =? "{") then ADVANCE 102 else
      END_STATE)
  | 99 => ACCEPT_TOKEN sym_text (
      if (lookahead =? "<") then ADVANCE 12 else
      END_STATE)
  | 100 => ACCEPT_TOKEN sym_text (
      if (lookahead =? "{") then ADVANCE 54 else
      END_STATE)
  | 101 => ACCEPT_TOKEN sym_text (
      if (lookahead =? "{") then ADVANCE 53 else
      END_STATE)
  | 102 => ACCEPT_TOKEN sym_text (
      if negb (lookahead =? 0) && negb (lookahead =? "#") && negb (lookahead =? "<") && negb (lookahead =? "{") then ADVANCE 102 else
      END_STATE)
  | _ => NO_TOKEN END_STATE
  end.

Definition ts_lex_modes (state : TSStateId) : Z :=
  match state with
  | 0 => 0
  | 1 => 37
  | 2 => 38
  | 3 => 39
  | 4 => 5
  | 5 => 5
  | 6 => 5
  | 7 => 39
  | 8 => 5
  | 9 => 5
  | 10 => 39
  | 11 => 39
  | 12 => 3
  | 13 => 3
  | 14 => 3
  | 15 => 3
  | 16 => 3
  | 17 => 3
  | 18 => 37
  | 19 => 37
  | 20 => 3
  | 21 => 3
  | 22 => 3
  | 23 => 3
  | 24 => 3
  | 25 => 3
  | 26 => 5
  | 27 => 39
  | 28 => 39
  | 29 => 39
  | 30 => 5
  | 31 => 5
  | 32 => 5
  | 33 => 4
  | 34 => 4
  | 35 => 4
  | 36 => 5
  | 37 => 39
  | 38 => 39
  | 39 => 39
  | 40 => 5
  | 41 => 5
  | 42 => 5
  | 43 => 39
  | 44 => 39
  | 45 => 16
  | 46 => 16
  | 47 => 4
  | 48 => 4
  | 49 => 4
  | 50 => 1
  | 51 => 0
  | 52 => 0
  | 53 => 2
  | 54 => 82
  | 55 => 2
  | 56 => 79
  | 57 => 0
  | 58 => 0
  | 59 => 0
  | 60 => 2
  | 61 => 29
  | 62 => 0
  | 63 => 2
  | 64 => 3
  | 65 => 0
  | 66 => 0
  | 67 => 0
  | 68 => 0
  | 69 => 3
  | 70 => 0
  | 71 => 29
  | 72 => 0
  | 73 => 0
  | 74 => 30
  | 75 => 62
  | 76 => 0
  | 77 => 0
  | 78 => 0
  | 79 => 0
  | 80 => 59
  | 81 => 0
  | 82 => 29
  | 83 => 59
  | 84 => 62
  | 85 => 30
  | 86 => 29
  | _ => 0
  end.

Local Close Scope ch_scope.

(** What a call of [ts_lex] leaves in the lexer: [result] true with
    [result_symbol] and the marked end, or [result] false. *)
Inductive lex_result : Set :=
  | Token (symbol : TSSymbol) (start_byte end_byte : nat) (rest : list Z)
  | NoToken.

(** [lexer->eof(lexer)] *)
Definition at_eof (chars : list Z) : bool :=
  match chars with
  | [] => true
  | _ :: _ => false
  end.

(** [lexer->advance]: one code point forward; at the end of the input the
    cursor stays. *)
Definition advance (pos : nat) (chars : list Z) : nat * list Z :=
  match chars with
  | [] => (pos, [])
  | _ :: chars' => (S pos, chars')
  end.

(** The token start is where the last [SKIP] left it, and never after the
    marked end. *)
Definition finish (token_start : nat)
    (marked : option (TSSymbol * nat * list Z)) : lex_result :=
  match marked with
  | Some (symbol, token_end, rest) =>
      Token symbol (Nat.min token_start token_end) token_end rest
  | None => NoToken
  end.

(** [ACCEPT_TOKEN]: [result_symbol] and [mark_end] at the cursor. *)
Definition mark (accept : option TSSymbol) (pos : nat) (chars : list Z)
    (marked : option (TSSymbol * nat * list Z))
  : option (TSSymbol * nat * list Z) :=
  match accept with
  | Some symbol => Some (symbol, pos, chars)
  | None => marked
  end.

(** Modelled from the spec: the loop of the macros [START_LEXER],
    [ADVANCE], [SKIP], [ACCEPT_TOKEN] and [END_STATE] of
    [tree_sitter/parser.h], a header that is not part of the sources at
    hand.  The tokenizer is a finite-state scanner over a cursor that
    produces the next token and advances the cursor: the lookahead is the
    code point under the cursor (0 at the end of the input),
    [ACCEPT_TOKEN] records the symbol and marks the current position as
    the token end, [ADVANCE] consumes the lookahead, [SKIP] consumes it and
    moves the token start after it, [END_STATE] returns.  [fuel] bounds
    the passes through the switch. *)
Fixpoint lex_loop (fuel : nat) (state : Z) (pos : nat) (chars : list Z)
    (token_start : nat) (marked : option (TSSymbol * nat * list Z))
  : option lex_result :=
  match fuel with
  | O => None
  | S fuel' =>
      let lookahead := hd 0 chars in
      let eof := at_eof chars in
      let (accept, next) := ts_lex_state state lookahead eof in
      let marked' := mark accept pos chars marked in
      match next with
      | ADVANCE s =>
          let (pos', chars') := advance pos chars in
          lex_loop fuel' s pos' chars' token_start marked'
      | SKIP s =>
          let (pos', chars') := advance pos chars in
          lex_loop fuel' s pos' chars' pos' marked'
      | END_STATE => Some (finish token_start marked')
      end
  end.

(** [ts_lex(lexer, state)] with the cursor at [pos], [chars] still unread.
    Two passes more than there are code points left always suffice
    ([ts_lex_total] below), so the result is never [None]. *)
Definition ts_lex (state : Z) (pos : nat) (chars : list Z)
  : option lex_result :=
  lex_loop (S (S (length chars))) state pos chars pos None.

(** ** Parse tables *)

Inductive TSParseAction : Set :=
  | SHIFT (state : TSStateId)
  | SHIFT_REPEAT (state : TSStateId)
  | REDUCE (symbol : TSSymbol) (child_count : nat)
      (dynamic_precedence : Z) (production_id : Z)
  | RECOVER
  | ACCEPT_INPUT.

Record TSParseActionEntry : Set := entry {
  count : nat;
  reusable : bool;
  actions : list TSParseAction
}.

(** [ACTIONS(id)] and [STATE(id)] are the identity in [parser.h]. *)
Abbreviation ACTIONS id := (id : Z) (only parsing).
Abbreviation STATE id := (id : Z) (only parsing).

Definition ts_parse_table (state : TSStateId) (symbol : TSSymbol) : Z :=
  match state with
  | 0 =>
      match symbol with
      | ts_builtin_sym_end => ACTIONS 1
      | sym_header_comment => ACTIONS 1
      | sym_frontmatter_delimiter => ACTIONS 1
      | anon_sym_COLON => ACTIONS 1
      | anon_sym_LBRACE_LBRACE_POUND => ACTIONS 1
      | anon_sym_RBRACE_RBRACE => ACTIONS 1
      | anon_sym_LBRACE_LBRACE_SLASH => ACTIONS 1
      | anon_sym_LBRACE_LBRACE => ACTIONS 1
      | anon_sym_GT => ACTIONS 1
      | anon_sym_else => ACTIONS 1
      | anon_sym_LBRACE_LBRACE_BANG => ACTIONS 1
      | anon_sym_LBRACE_LBRACE_BANG_DASH_DASH => ACTIONS 1
      | anon_sym_DASH_DASH_RBRACE_RBRACE => ACTIONS 1
      | anon_sym_EQ => ACTIONS 1
      | aux_sym_variable_reference_token1 => ACTIONS 1
      | sym_path => ACTIONS 1
      | anon_sym_DQUOTE => ACTIONS 1
      | anon_sym_SQUOTE => ACTIONS 1
      | sym_number => ACTIONS 1
      | anon_sym_true => ACTIONS 1
      | anon_sym_false => ACTIONS 1
      | anon_sym_LT_LT_LTdotprompt_COLON => ACTIONS 1
      | anon_sym_GT_GT_GT => ACTIONS 1
      | _ => 0
      end
  | 1 =>
      match symbol with
      | sym_document => STATE 73
      | sym_license_header => STATE 2
      | sym_frontmatter => STATE 7
      | sym_template_body => STATE 72
      | sym__content => STATE 10
      | sym_handlebars_block => STATE 10
      | sym_block_expression => STATE 8
      | sym_handlebars_expression => STATE 10
      | sym_handlebars_comment => STATE 10
      | sym_dotprompt_marker => STATE 10
      | aux_sym_license_header_repeat1 => STATE 18
      | aux_sym_template_body_repeat1 => STATE 10
      | ts_builtin_sym_end => ACTIONS 3
      | sym_header_comment => ACTIONS 5
      | sym_frontmatter_delimiter => ACTIONS 7
      | anon_sym_LBRACE_LBRACE_POUND => ACTIONS 9
      | anon_sym_LBRACE_LBRACE => ACTIONS 11
      | anon_sym_LBRACE_LBRACE_BANG => ACTIONS 13
      | anon_sym_LBRACE_LBRACE_BANG_DASH_DASH => ACTIONS 15
      | anon_sym_LT_LT_LTdotprompt_COLON => ACTIONS 17
      | sym_text => ACTIONS 19
      | _ => 0
      end
  | _ => 0
  end.

(** [ts_small_parse_table], read at the offsets [ts_small_parse_table_map]
    gives: the groups stored there, each a value and the symbols that
    select it. *)
Definition ts_small_parse_table (index : Z) : list (Z * list TSSymbol) :=
  match index with
  | 0 =>
      [ (ACTIONS 7, [sym_frontmatter_delimiter]);
        (ACTIONS 9, [anon_sym_LBRACE_LBRACE_POUND]);
        (ACTIONS 11, [anon_sym_LBRACE_LBRACE]);
        (ACTIONS 13, [anon_sym_LBRACE_LBRACE_BANG]);
        (ACTIONS 15, [anon_sym_LBRACE_LBRACE_BANG_DASH_DASH]);
        (ACTIONS 17, [anon_sym_LT_LT_LTdotprompt_COLON]);
        (ACTIONS 19, [sym_text]);
        (ACTIONS 21, [ts_builtin_sym_end]);
        (STATE 3, [sym_frontmatter]);
        (STATE 8, [sym_block_expression]);
        (STATE 62, [sym_template_body]);
        (STATE 10, [sym__content; sym_handlebars_block; sym_handlebars_expression; sym_handlebars_comment; sym_dotprompt_marker; aux_sym_template_body_repeat1]) ]
  | 42 =>
      [ (ACTIONS 9, [anon_sym_LBRACE_LBRACE_POUND]);
        (ACTIONS 11, [anon_sym_LBRACE_LBRACE]);
        (ACTIONS 13, [anon_sym_LBRACE_LBRACE_BANG]);
        (ACTIONS 15, [anon_sym_LBRACE_LBRACE_BANG_DASH_DASH]);
        (ACTIONS 17, [anon_sym_LT_LT_LTdotprompt_COLON]);
        (ACTIONS 19, [sym_text]);
        (ACTIONS 23, [ts_builtin_sym_end]);
        (STATE 8, [sym_block_expression]);
        (STATE 68, [sym_template_body]);
        (STATE 10, [sym__content; sym_handlebars_block; sym_handlebars_expression; sym_handlebars_comment; sym_dotprompt_marker; aux_sym_template_body_repeat1]) ]
  | 78 =>
      [ (ACTIONS 9, [anon_sym_LBRACE_LBRACE_POUND]);
        (ACTIONS 25, [anon_sym_LBRACE_LBRACE_SLASH]);
        (ACTIONS 27, [anon_sym_LBRACE_LBRACE]);
        (ACTIONS 29, [anon_sym_LBRACE_LBRACE_BANG]);
        (ACTIONS 31, [anon_sym_LBRACE_LBRACE_BANG_DASH_DASH]);
        (ACTIONS 33, [anon_sym_LT_LT_LTdotprompt_COLON]);
        (ACTIONS 35, [sym_text]);
        (STATE 5, [sym_block_expression]);
        (STATE 41, [sym_close_block]);
        (STATE 9, [sym__content; sym_handlebars_block; sym_handlebars_expression; sym_handlebars_comment; sym_dotprompt_marker; aux_sym_template_body_repeat1]) ]
  | 114 =>
      [ (ACTIONS 9, [anon_sym_LBRACE_LBRACE_POUND]);
        (ACTIONS 25, [anon_sym_LBRACE_LBRACE_SLASH]);
        (ACTIONS 27, [anon_sym_LBRACE_LBRACE]);
        (ACTIONS 29, [anon_sym_LBRACE_LBRACE_BANG]);
        (ACTIONS 31, [anon_sym_LBRACE_LBRACE_BANG_DASH_DASH]);
        (ACTIONS 33, [anon_sym_LT_LT_LTdotprompt_COLON]);
        (ACTIONS 37, [sym_text]);
        (STATE 5, [sym_block_expression]);
        (STATE 30, [sym_close_block]);
        (STATE 4, [sym__content; sym_handlebars_block; sym_handlebars_expression; sym_handlebars_comment; sym_dotprompt_marker; aux_sym_template_body_repeat1]) ]
  | 150 =>
      [ (ACTIONS 9, [anon_sym_LBRACE_LBRACE_POUND]);
        (ACTIONS 27, [anon_sym_LBRACE_LBRACE]);
        (ACTIONS 29, [anon_sym_LBRACE_LBRACE_BANG]);
        (ACTIONS 31, [anon_sym_LBRACE_LBRACE_BANG_DASH_DASH]);
        (ACTIONS 33, [anon_sym_LT_LT_LTdotprompt_COLON]);
        (ACTIONS 35, [sym_text]);
        (ACTIONS 39, [anon_sym_LBRACE_LBRACE_SLASH]);
        (STATE 5, [sym_block_expression]);
        (STATE 39, [sym_close_block]);
        (STATE 9, [sym__content; sym_handlebars_block; sym_handlebars_expression; sym_handlebars_comment; sym_dotprompt_marker; aux_sym_template_body_repeat1]) ]
  | 186 =>
      [ (ACTIONS 9, [anon_sym_LBRACE_LBRACE_POUND]);
        (ACTIONS 11, [anon_sym_LBRACE_LBRACE]);
        (ACTIONS 13, [anon_sym_LBRACE_LBRACE_BANG]);
        (ACTIONS 15, [anon_sym_LBRACE_LBRACE_BANG_DASH_DASH]);
        (ACTIONS 17, [anon_sym_LT_LT_LTdotprompt_COLON]);
        (ACTIONS 19, [sym_text]);
        (ACTIONS 21, [ts_builtin_sym_end]);
        (STATE 8, [sym_block_expression]);
        (STATE 62, [sym_template_body]);
        (STATE 10, [sym__content; sym_handlebars_block; sym_handlebars_expression; sym_handlebars_comment; sym_dotprompt_marker; aux_sym_template_body_repeat1]) ]
  | 222 =>
      [ (ACTIONS 9, [anon_sym_LBRACE_LBRACE_POUND]);
        (ACTIONS 27, [anon_sym_LBRACE_LBRACE]);
        (ACTIONS 29, [anon_sym_LBRACE_LBRACE_BANG]);
        (ACTIONS 31, [anon_sym_LBRACE_LBRACE_BANG_DASH_DASH]);
        (ACTIONS 33, [anon_sym_LT_LT_LTdotprompt_COLON]);
        (ACTIONS 39, [anon_sym_LBRACE_LBRACE_SLASH]);
        (ACTIONS 41, [sym_text]);
        (STATE 5, [sym_block_expression]);
        (STATE 29, [sym_close_block]);
        (STATE 6, [sym__content; sym_handlebars_block; sym_handlebars_expression; sym_handlebars_comment; sym_dotprompt_marker; aux_sym_template_body_repeat1]) ]
  | 258 =>
      [ (ACTIONS 43, [anon_sym_LBRACE_LBRACE_POUND]);
        (ACTIONS 46, [anon_sym_LBRACE_LBRACE_SLASH]);
        (ACTIONS 48, [anon_sym_LBRACE_LBRACE]);
        (ACTIONS 51, [anon_sym_LBRACE_LBRACE_BANG]);
        (ACTIONS 54, [anon_sym_LBRACE_LBRACE_BANG_DASH_DASH]);
        (ACTIONS 57, [anon_sym_LT_LT_LTdotprompt_COLON]);
        (ACTIONS 60, [sym_text]);
        (STATE 5, [sym_block_expression]);
        (STATE 9, [sym__content; sym_handlebars_block; sym_handlebars_expression; sym_handlebars_comment; sym_dotprompt_marker; aux_sym_template_body_repeat1]) ]
  | 291 =>
      [ (ACTIONS 9, [anon_sym_LBRACE_LBRACE_POUND]);
        (ACTIONS 11, [anon_sym_LBRACE_LBRACE]);
        (ACTIONS 13, [anon_sym_LBRACE_LBRACE_BANG]);
        (ACTIONS 15, [anon_sym_LBRACE_LBRACE_BANG_DASH_DASH]);
        (ACTIONS 17, [anon_sym_LT_LT_LTdotprompt_COLON]);
        (ACTIONS 63, [ts_builtin_sym_end]);
        (ACTIONS 65, [sym_text]);
        (STATE 8, [sym_block_expression]);
        (STATE 11, [sym__content; sym_handlebars_block; sym_handlebars_expression; sym_handlebars_comment; sym_dotprompt_marker; aux_sym_template_body_repeat1]) ]
  | 324 =>
      [ (ACTIONS 43, [anon_sym_LBRACE_LBRACE_POUND]);
        (ACTIONS 67, [ts_builtin_sym_end]);
        (ACTIONS 69, [anon_sym_LBRACE_LBRACE]);
        (ACTIONS 72, [anon_sym_LBRACE_LBRACE_BANG]);
        (ACTIONS 75, [anon_sym_LBRACE_LBRACE_BANG_DASH_DASH]);
        (ACTIONS 78, [anon_sym_LT_LT_LTdotprompt_COLON]);
        (ACTIONS 81, [sym_text]);
        (STATE 8, [sym_block_expression]);
        (STATE 11, [sym__content; sym_handlebars_block; sym_handlebars_expression; sym_handlebars_comment; sym_dotprompt_marker; aux_sym_template_body_repeat1]) ]
  | 357 =>
      [ (ACTIONS 84, [anon_sym_RBRACE_RBRACE]);
        (ACTIONS 86, [aux_sym_variable_reference_token1]);
        (ACTIONS 88, [sym_path]);
        (ACTIONS 90, [anon_sym_DQUOTE]);
        (ACTIONS 92, [anon_sym_SQUOTE]);
        (ACTIONS 94, [sym_number]);
        (ACTIONS 96, [anon_sym_true; anon_sym_false]);
        (STATE 16, [sym_argument; aux_sym_block_expression_repeat1]);
        (STATE 21, [sym_hash_param; sym_variable_reference; sym_string_literal; sym_boolean]) ]
  | 390 =>
      [ (ACTIONS 98, [anon_sym_RBRACE_RBRACE]);
        (ACTIONS 100, [aux_sym_variable_reference_token1]);
        (ACTIONS 103, [sym_path]);
        (ACTIONS 106, [anon_sym_DQUOTE]);
        (ACTIONS 109, [anon_sym_SQUOTE]);
        (ACTIONS 112, [sym_number]);
        (ACTIONS 115, [anon_sym_true; anon_sym_false]);
        (STATE 13, [sym_argument; aux_sym_block_expression_repeat1]);
        (STATE 21, [sym_hash_param; sym_variable_reference; sym_string_literal; sym_boolean]) ]
  | 423 =>
      [ (ACTIONS 86, [aux_sym_variable_reference_token1]);
        (ACTIONS 88, [sym_path]);
        (ACTIONS 90, [anon_sym_DQUOTE]);
        (ACTIONS 92, [anon_sym_SQUOTE]);
        (ACTIONS 94, [sym_number]);
        (ACTIONS 118, [anon_sym_RBRACE_RBRACE]);
        (ACTIONS 96, [anon_sym_true; anon_sym_false]);
        (STATE 15, [sym_argument; aux_sym_block_expression_repeat1]);
        (STATE 21, [sym_hash_param; sym_variable_reference; sym_string_literal; sym_boolean]) ]
  | 456 =>
      [ (ACTIONS 86, [aux_sym_variable_reference_token1]);
        (ACTIONS 88, [sym_path]);
        (ACTIONS 90, [anon_sym_DQUOTE]);
        (ACTIONS 92, [anon_sym_SQUOTE]);
        (ACTIONS 94, [sym_number]);
        (ACTIONS 120, [anon_sym_RBRACE_RBRACE]);
        (ACTIONS 96, [anon_sym_true; anon_sym_false]);
        (STATE 13, [sym_argument; aux_sym_block_expression_repeat1]);
        (STATE 21, [sym_hash_param; sym_variable_reference; sym_string_literal; sym_boolean]) ]
  | 489 =>
      [ (ACTIONS 86, [aux_sym_variable_reference_token1]);
        (ACTIONS 88, [sym_path]);
        (ACTIONS 90, [anon_sym_DQUOTE]);
        (ACTIONS 92, [anon_sym_SQUOTE]);
        (ACTIONS 94, [sym_number]);
        (ACTIONS 122, [anon_sym_RBRACE_RBRACE]);
        (ACTIONS 96, [anon_sym_true; anon_sym_false]);
        (STATE 13, [sym_argument; aux_sym_block_expression_repeat1]);
        (STATE 21, [sym_hash_param; sym_variable_reference; sym_string_literal; sym_boolean]) ]
  | 522 =>
      [ (ACTIONS 86, [aux_sym_variable_reference_token1]);
        (ACTIONS 90, [anon_sym_DQUOTE]);
        (ACTIONS 92, [anon_sym_SQUOTE]);
        (ACTIONS 124, [sym_path]);
        (ACTIONS 126, [sym_number]);
        (ACTIONS 96, [anon_sym_true; anon_sym_false]);
        (STATE 24, [sym_variable_reference; sym_string_literal; sym_boolean]) ]
  | 547 =>
      [ (ACTIONS 128, [ts_builtin_sym_end]);
        (ACTIONS 130, [sym_header_comment]);
        (STATE 19, [aux_sym_license_header_repeat1]);
        (ACTIONS 132, [sym_frontmatter_delimiter; anon_sym_LBRACE_LBRACE_POUND; anon_sym_LBRACE_LBRACE; anon_sym_LBRACE_LBRACE_BANG; anon_sym_LBRACE_LBRACE_BANG_DASH_DASH; anon_sym_LT_LT_LTdotprompt_COLON; sym_text]) ]
  | 566 =>
      [ (ACTIONS 134, [ts_builtin_sym_end]);
        (ACTIONS 136, [sym_header_comment]);
        (STATE 19, [aux_sym_license_header_repeat1]);
        (ACTIONS 139, [sym_frontmatter_delimiter; anon_sym_LBRACE_LBRACE_POUND; anon_sym_LBRACE_LBRACE; anon_sym_LBRACE_LBRACE_BANG; anon_sym_LBRACE_LBRACE_BANG_DASH_DASH; anon_sym_LT_LT_LTdotprompt_COLON; sym_text]) ]
  | 585 =>
      [ (ACTIONS 141, [anon_sym_EQ]);
        (ACTIONS 143, [sym_path; anon_sym_true; anon_sym_false]);
        (ACTIONS 118, [anon_sym_RBRACE_RBRACE; aux_sym_variable_reference_token1; anon_sym_DQUOTE; anon_sym_SQUOTE; sym_number]) ]
  | 601 =>
      [ (ACTIONS 147, [sym_path; anon_sym_true; anon_sym_false]);
        (ACTIONS 145, [anon_sym_RBRACE_RBRACE; aux_sym_variable_reference_token1; anon_sym_DQUOTE; anon_sym_SQUOTE; sym_number]) ]
  | 614 =>
      [ (ACTIONS 143, [sym_path; anon_sym_true; anon_sym_false]);
        (ACTIONS 118, [anon_sym_RBRACE_RBRACE; aux_sym_variable_reference_token1; anon_sym_DQUOTE; anon_sym_SQUOTE; sym_number]) ]
  | 627 =>
      [ (ACTIONS 151, [sym_path; anon_sym_true; anon_sym_false]);
        (ACTIONS 149, [anon_sym_RBRACE_RBRACE; aux_sym_variable_reference_token1; anon_sym_DQUOTE; anon_sym_SQUOTE; sym_number]) ]
  | 640 =>
      [ (ACTIONS 155, [sym_path; anon_sym_true; anon_sym_false]);
        (ACTIONS 153, [anon_sym_RBRACE_RBRACE; aux_sym_variable_reference_token1; anon_sym_DQUOTE; anon_sym_SQUOTE; sym_number]) ]
  | 653 =>
      [ (ACTIONS 159, [sym_path; anon_sym_true; anon_sym_false]);
        (ACTIONS 157, [anon_sym_RBRACE_RBRACE; aux_sym_variable_reference_token1; anon_sym_DQUOTE; anon_sym_SQUOTE; sym_number]) ]
  | 666 =>
      [ (ACTIONS 161, [anon_sym_LBRACE_LBRACE_POUND; anon_sym_LBRACE_LBRACE_SLASH; anon_sym_LBRACE_LBRACE; anon_sym_LBRACE_LBRACE_BANG; anon_sym_LBRACE_LBRACE_BANG_DASH_DASH; anon_sym_LT_LT_LTdotprompt_COLON; sym_text]) ]
  | 676 =>
      [ (ACTIONS 163, [ts_builtin_sym_end]);
        (ACTIONS 165, [anon_sym_LBRACE_LBRACE_POUND; anon_sym_LBRACE_LBRACE; anon_sym_LBRACE_LBRACE_BANG; anon_sym_LBRACE_LBRACE_BANG_DASH_DASH; anon_sym_LT_LT_LTdotprompt_COLON; sym_text]) ]
  | 688 =>
      [ (ACTIONS 167, [ts_builtin_sym_end]);
        (ACTIONS 169, [anon_sym_LBRACE_LBRACE_POUND; anon_sym_LBRACE_LBRACE; anon_sym_LBRACE_LBRACE_BANG; anon_sym_LBRACE_LBRACE_BANG_DASH_DASH; anon_sym_LT_LT_LTdotprompt_COLON; sym_text]) ]
  | 700 =>
      [ (ACTIONS 171, [ts_builtin_sym_end]);
        (ACTIONS 173, [anon_sym_LBRACE_LBRACE_POUND; anon_sym_LBRACE_LBRACE; anon_sym_LBRACE_LBRACE_BANG; anon_sym_LBRACE_LBRACE_BANG_DASH_DASH; anon_sym_LT_LT_LTdotprompt_COLON; sym_text]) ]
  | 712 =>
      [ (ACTIONS 173, [anon_sym_LBRACE_LBRACE_POUND; anon_sym_LBRACE_LBRACE_SLASH; anon_sym_LBRACE_LBRACE; anon_sym_LBRACE_LBRACE_BANG; anon_sym_LBRACE_LBRACE_BANG_DASH_DASH; anon_sym_LT_LT_LTdotprompt_COLON; sym_text]) ]
  | 722 =>
      [ (ACTIONS 175, [anon_sym_LBRACE_LBRACE_POUND; anon_sym_LBRACE_LBRACE_SLASH; anon_sym_LBRACE_LBRACE; anon_sym_LBRACE_LBRACE_BANG; anon_sym_LBRACE_LBRACE_BANG_DASH_DASH; anon_sym_LT_LT_LTdotprompt_COLON; sym_text]) ]
  | 732 =>
      [ (ACTIONS 177, [anon_sym_LBRACE_LBRACE_POUND; anon_sym_LBRACE_LBRACE_SLASH; anon_sym_LBRACE_LBRACE; anon_sym_LBRACE_LBRACE_BANG; anon_sym_LBRACE_LBRACE_BANG_DASH_DASH; anon_sym_LT_LT_LTdotprompt_COLON; sym_text]) ]
  | 742 =>
      [ (ACTIONS 181, [sym_frontmatter_delimiter]);
        (ACTIONS 183, [aux_sym_yaml_line_token1]);
        (STATE 35, [aux_sym_frontmatter_repeat1]);
        (ACTIONS 179, [sym_header_comment; aux_sym__yaml_content_token1]);
        (STATE 49, [sym__yaml_content; sym_yaml_line]) ]
  | 760 =>
      [ (ACTIONS 188, [sym_frontmatter_delimiter]);
        (ACTIONS 190, [aux_sym_yaml_line_token1]);
        (STATE 34, [aux_sym_frontmatter_repeat1]);
        (ACTIONS 185, [sym_header_comment; aux_sym__yaml_content_token1]);
        (STATE 49, [sym__yaml_content; sym_yaml_line]) ]
  | 778 =>
      [ (ACTIONS 183, [aux_sym_yaml_line_token1]);
        (ACTIONS 193, [sym_frontmatter_delimiter]);
        (STATE 34, [aux_sym_frontmatter_repeat1]);
        (ACTIONS 179, [sym_header_comment; aux_sym__yaml_content_token1]);
        (STATE 49, [sym__yaml_content; sym_yaml_line]) ]
  | 796 =>
      [ (ACTIONS 195, [anon_sym_LBRACE_LBRACE_POUND; anon_sym_LBRACE_LBRACE_SLASH; anon_sym_LBRACE_LBRACE; anon_sym_LBRACE_LBRACE_BANG; anon_sym_LBRACE_LBRACE_BANG_DASH_DASH; anon_sym_LT_LT_LTdotprompt_COLON; sym_text]) ]
  | 806 =>
      [ (ACTIONS 197, [ts_builtin_sym_end]);
        (ACTIONS 199, [anon_sym_LBRACE_LBRACE_POUND; anon_sym_LBRACE_LBRACE; anon_sym_LBRACE_LBRACE_BANG; anon_sym_LBRACE_LBRACE_BANG_DASH_DASH; anon_sym_LT_LT_LTdotprompt_COLON; sym_text]) ]
  | 818 =>
      [ (ACTIONS 201, [ts_builtin_sym_end]);
        (ACTIONS 203, [anon_sym_LBRACE_LBRACE_POUND; anon_sym_LBRACE_LBRACE; anon_sym_LBRACE_LBRACE_BANG; anon_sym_LBRACE_LBRACE_BANG_DASH_DASH; anon_sym_LT_LT_LTdotprompt_COLON; sym_text]) ]
  | 830 =>
      [ (ACTIONS 205, [ts_builtin_sym_end]);
        (ACTIONS 207, [anon_sym_LBRACE_LBRACE_POUND; anon_sym_LBRACE_LBRACE; anon_sym_LBRACE_LBRACE_BANG; anon_sym_LBRACE_LBRACE_BANG_DASH_DASH; anon_sym_LT_LT_LTdotprompt_COLON; sym_text]) ]
  | 842 =>
      [ (ACTIONS 199, [anon_sym_LBRACE_LBRACE_POUND; anon_sym_LBRACE_LBRACE_SLASH; anon_sym_LBRACE_LBRACE; anon_sym_LBRACE_LBRACE_BANG; anon_sym_LBRACE_LBRACE_BANG_DASH_DASH; anon_sym_LT_LT_LTdotprompt_COLON; sym_text]) ]
  | 852 =>
      [ (ACTIONS 207, [anon_sym_LBRACE_LBRACE_POUND; anon_sym_LBRACE_LBRACE_SLASH; anon_sym_LBRACE_LBRACE; anon_sym_LBRACE_LBRACE_BANG; anon_sym_LBRACE_LBRACE_BANG_DASH_DASH; anon_sym_LT_LT_LTdotprompt_COLON; sym_text]) ]
  | 862 =>
      [ (ACTIONS 165, [anon_sym_LBRACE_LBRACE_POUND; anon_sym_LBRACE_LBRACE_SLASH; anon_sym_LBRACE_LBRACE; anon_sym_LBRACE_LBRACE_BANG; anon_sym_LBRACE_LBRACE_BANG_DASH_DASH; anon_sym_LT_LT_LTdotprompt_COLON; sym_text]) ]
  | 872 =>
      [ (ACTIONS 209, [ts_builtin_sym_end]);
        (ACTIONS 175, [anon_sym_LBRACE_LBRACE_POUND; anon_sym_LBRACE_LBRACE; anon_sym_LBRACE_LBRACE_BANG; anon_sym_LBRACE_LBRACE_BANG_DASH_DASH; anon_sym_LT_LT_LTdotprompt_COLON; sym_text]) ]
  | 884 =>
      [ (ACTIONS 211, [ts_builtin_sym_end]);
        (ACTIONS 161, [anon_sym_LBRACE_LBRACE_POUND; anon_sym_LBRACE_LBRACE; anon_sym_LBRACE_LBRACE_BANG; anon_sym_LBRACE_LBRACE_BANG_DASH_DASH; anon_sym_LT_LT_LTdotprompt_COLON; sym_text]) ]
  | 896 =>
      [ (ACTIONS 86, [aux_sym_variable_reference_token1]);
        (ACTIONS 213, [anon_sym_GT]);
        (ACTIONS 215, [anon_sym_else]);
        (ACTIONS 217, [sym_path]);
        (STATE 67, [sym_variable_reference]);
        (STATE 76, [sym_expression_content]) ]
  | 915 =>
      [ (ACTIONS 86, [aux_sym_variable_reference_token1]);
        (ACTIONS 213, [anon_sym_GT]);
        (ACTIONS 215, [anon_sym_else]);
        (ACTIONS 217, [sym_path]);
        (STATE 67, [sym_variable_reference]);
        (STATE 79, [sym_expression_content]) ]
  | 934 =>
      [ (ACTIONS 219, [sym_header_comment; sym_frontmatter_delimiter; aux_sym__yaml_content_token1; aux_sym_yaml_line_token1]) ]
  | 941 =>
      [ (ACTIONS 221, [sym_header_comment; sym_frontmatter_delimiter; aux_sym__yaml_content_token1; aux_sym_yaml_line_token1]) ]
  | 948 =>
      [ (ACTIONS 223, [sym_header_comment; sym_frontmatter_delimiter; aux_sym__yaml_content_token1; aux_sym_yaml_line_token1]) ]
  | 955 =>
      [ (ACTIONS 225, [aux_sym_frontmatter_token1]);
        (ACTIONS 227, [aux_sym_yaml_line_token2]) ]
  | 962 =>
      [ (ACTIONS 229, [anon_sym_RBRACE_RBRACE]) ]
  | 966 =>
      [ (ACTIONS 231, [anon_sym_RBRACE_RBRACE]) ]
  | 970 =>
      [ (ACTIONS 233, [aux_sym_frontmatter_token1]) ]
  | 974 =>
      [ (ACTIONS 235, [aux_sym_string_literal_token2]) ]
  | 978 =>
      [ (ACTIONS 237, [aux_sym_frontmatter_token1]) ]
  | 982 =>
      [ (ACTIONS 239, [aux_sym_string_literal_token1]) ]
  | 986 =>
      [ (ACTIONS 241, [anon_sym_DQUOTE]) ]
  | 990 =>
      [ (ACTIONS 241, [anon_sym_SQUOTE]) ]
  | 994 =>
      [ (ACTIONS 243, [anon_sym_COLON]) ]
  | 998 =>
      [ (ACTIONS 245, [aux_sym_frontmatter_token1]) ]
  | 1002 =>
      [ (ACTIONS 247, [sym_path]) ]
  | 1006 =>
      [ (ACTIONS 23, [ts_builtin_sym_end]) ]
  | 1010 =>
      [ (ACTIONS 249, [aux_sym_frontmatter_token1]) ]
  | 1014 =>
      [ (ACTIONS 251, [anon_sym_GT_GT_GT]) ]
  | 1018 =>
      [ (ACTIONS 229, [anon_sym_DASH_DASH_RBRACE_RBRACE]) ]
  | 1022 =>
      [ (ACTIONS 253, [anon_sym_RBRACE_RBRACE]) ]
  | 1026 =>
      [ (ACTIONS 255, [anon_sym_RBRACE_RBRACE]) ]
  | 1030 =>
      [ (ACTIONS 257, [ts_builtin_sym_end]) ]
  | 1034 =>
      [ (ACTIONS 259, [anon_sym_GT_GT_GT]) ]
  | 1038 =>
      [ (ACTIONS 261, [anon_sym_RBRACE_RBRACE]) ]
  | 1042 =>
      [ (ACTIONS 263, [sym_path]) ]
  | 1046 =>
      [ (ACTIONS 21, [ts_builtin_sym_end]) ]
  | 1050 =>
      [ (ACTIONS 265, [ts_builtin_sym_end]) ]
  | 1054 =>
      [ (ACTIONS 267, [aux_sym_dotprompt_marker_token1]) ]
  | 1058 =>
      [ (ACTIONS 269, [aux_sym_handlebars_comment_token2]) ]
  | 1062 =>
      [ (ACTIONS 271, [anon_sym_RBRACE_RBRACE]) ]
  | 1066 =>
      [ (ACTIONS 273, [anon_sym_RBRACE_RBRACE]) ]
  | 1070 =>
      [ (ACTIONS 273, [anon_sym_DASH_DASH_RBRACE_RBRACE]) ]
  | 1074 =>
      [ (ACTIONS 275, [anon_sym_RBRACE_RBRACE]) ]
  | 1078 =>
      [ (ACTIONS 277, [aux_sym_handlebars_comment_token1]) ]
  | 1082 =>
      [ (ACTIONS 279, [anon_sym_RBRACE_RBRACE]) ]
  | 1086 =>
      [ (ACTIONS 281, [sym_path]) ]
  | 1090 =>
      [ (ACTIONS 283, [aux_sym_handlebars_comment_token1]) ]
  | 1094 =>
      [ (ACTIONS 285, [aux_sym_handlebars_comment_token2]) ]
  | 1098 =>
      [ (ACTIONS 287, [aux_sym_dotprompt_marker_token1]) ]
  | 1102 =>
      [ (ACTIONS 289, [sym_path]) ]
  | _ => []
  end.

Definition ts_small_parse_table_map (small_state : Z) : Z :=
  match small_state with
  | 0 (* SMALL_STATE(2) *) => 0
  | 1 (* SMALL_STATE(3) *) => 42
  | 2 (* SMALL_STATE(4) *) => 78
  | 3 (* SMALL_STATE(5) *) => 114
  | 4 (* SMALL_STATE(6) *) => 150
  | 5 (* SMALL_STATE(7) *) => 186
  | 6 (* SMALL_STATE(8) *) => 222
  | 7 (* SMALL_STATE(9) *) => 258
  | 8 (* SMALL_STATE(10) *) => 291
  | 9 (* SMALL_STATE(11) *) => 324
  | 10 (* SMALL_STATE(12) *) => 357
  | 11 (* SMALL_STATE(13) *) => 390
  | 12 (* SMALL_STATE(14) *) => 423
  | 13 (* SMALL_STATE(15) *) => 456
  | 14 (* SMALL_STATE(16) *) => 489
  | 15 (* SMALL_STATE(17) *) => 522
  | 16 (* SMALL_STATE(18) *) => 547
  | 17 (* SMALL_STATE(19) *) => 566
  | 18 (* SMALL_STATE(20) *) => 585
  | 19 (* SMALL_STATE(21) *) => 601
  | 20 (* SMALL_STATE(22) *) => 614
  | 21 (* SMALL_STATE(23) *) => 627
  | 22 (* SMALL_STATE(24) *) => 640
  | 23 (* SMALL_STATE(25) *) => 653
  | 24 (* SMALL_STATE(26) *) => 666
  | 25 (* SMALL_STATE(27) *) => 676
  | 26 (* SMALL_STATE(28) *) => 688
  | 27 (* SMALL_STATE(29) *) => 700
  | 28 (* SMALL_STATE(30) *) => 712
  | 29 (* SMALL_STATE(31) *) => 722
  | 30 (* SMALL_STATE(32) *) => 732
  | 31 (* SMALL_STATE(33) *) => 742
  | 32 (* SMALL_STATE(34) *) => 760
  | 33 (* SMALL_STATE(35) *) => 778
  | 34 (* SMALL_STATE(36) *) => 796
  | 35 (* SMALL_STATE(37) *) => 806
  | 36 (* SMALL_STATE(38) *) => 818
  | 37 (* SMALL_STATE(39) *) => 830
  | 38 (* SMALL_STATE(40) *) => 842
  | 39 (* SMALL_STATE(41) *) => 852
  | 40 (* SMALL_STATE(42) *) => 862
  | 41 (* SMALL_STATE(43) *) => 872
  | 42 (* SMALL_STATE(44) *) => 884
  | 43 (* SMALL_STATE(45) *) => 896
  | 44 (* SMALL_STATE(46) *) => 915
  | 45 (* SMALL_STATE(47) *) => 934
  | 46 (* SMALL_STATE(48) *) => 941
  | 47 (* SMALL_STATE(49) *) => 948
  | 48 (* SMALL_STATE(50) *) => 955
  | 49 (* SMALL_STATE(51) *) => 962
  | 50 (* SMALL_STATE(52) *) => 966
  | 51 (* SMALL_STATE(53) *) => 970
  | 52 (* SMALL_STATE(54) *) => 974
  | 53 (* SMALL_STATE(55) *) => 978
  | 54 (* SMALL_STATE(56) *) => 982
  | 55 (* SMALL_STATE(57) *) => 986
  | 56 (* SMALL_STATE(58) *) => 990
  | 57 (* SMALL_STATE(59) *) => 994
  | 58 (* SMALL_STATE(60) *) => 998
  | 59 (* SMALL_STATE(61) *) => 1002
  | 60 (* SMALL_STATE(62) *) => 1006
  | 61 (* SMALL_STATE(63) *) => 1010
  | 62 (* SMALL_STATE(64) *) => 1014
  | 63 (* SMALL_STATE(65) *) => 1018
  | 64 (* SMALL_STATE(66) *) => 1022
  | 65 (* SMALL_STATE(67) *) => 1026
  | 66 (* SMALL_STATE(68) *) => 1030
  | 67 (* SMALL_STATE(69) *) => 1034
  | 68 (* SMALL_STATE(70) *) => 1038
  | 69 (* SMALL_STATE(71) *) => 1042
  | 70 (* SMALL_STATE(72) *) => 1046
  | 71 (* SMALL_STATE(73) *) => 1050
  | 72 (* SMALL_STATE(74) *) => 1054
  | 73 (* SMALL_STATE(75) *) => 1058
  | 74 (* SMALL_STATE(76) *) => 1062
  | 75 (* SMALL_STATE(77) *) => 1066
  | 76 (* SMALL_STATE(78) *) => 1070
  | 77 (* SMALL_STATE(79) *) => 1074
  | 78 (* SMALL_STATE(80) *) => 1078
  | 79 (* SMALL_STATE(81) *) => 1082
  | 80 (* SMALL_STATE(82) *) => 1086
  | 81 (* SMALL_STATE(83) *) => 1090
  | 82 (* SMALL_STATE(84) *) => 1094
  | 83 (* SMALL_STATE(85) *) => 1098
  | 84 (* SMALL_STATE(86) *) => 1102
  | _ => -1 (* outside the array: no table *)
  end.

Definition ts_parse_actions (index : Z) : TSParseActionEntry :=
  match index with
  | 0 => entry 0 false []
  | 1 => entry 1 false [RECOVER]
  | 3 => entry 1 true [REDUCE sym_document 0 0 0]
  | 5 => entry 1 false [SHIFT 18]
  | 7 => entry 1 false [SHIFT 53]
  | 9 => entry 1 false [SHIFT 82]
  | 11 => entry 1 false [SHIFT 46]
  | 13 => entry 1 false [SHIFT 80]
  | 15 => entry 1 false [SHIFT 75]
  | 17 => entry 1 false [SHIFT 74]
  | 19 => entry 1 false [SHIFT 10]
  | 21 => entry 1 true [REDUCE sym_document 1 0 0]
  | 23 => entry 1 true [REDUCE sym_document 2 0 0]
  | 25 => entry 1 false [SHIFT 86]
  | 27 => entry 1 false [SHIFT 45]
  | 29 => entry 1 false [SHIFT 83]
  | 31 => entry 1 false [SHIFT 84]
  | 33 => entry 1 false [SHIFT 85]
  | 35 => entry 1 false [SHIFT 9]
  | 37 => entry 1 false [SHIFT 4]
  | 39 => entry 1 false [SHIFT 61]
  | 41 => entry 1 false [SHIFT 6]
  | 43 => entry 2 false [REDUCE aux_sym_template_body_repeat1 2 0 0; SHIFT_REPEAT 82]
  | 46 => entry 1 false [REDUCE aux_sym_template_body_repeat1 2 0 0]
  | 48 => entry 2 false [REDUCE aux_sym_template_body_repeat1 2 0 0; SHIFT_REPEAT 45]
  | 51 => entry 2 false [REDUCE aux_sym_template_body_repeat1 2 0 0; SHIFT_REPEAT 83]
  | 54 => entry 2 false [REDUCE aux_sym_template_body_repeat1 2 0 0; SHIFT_REPEAT 84]
  | 57 => entry 2 false [REDUCE aux_sym_template_body_repeat1 2 0 0; SHIFT_REPEAT 85]
  | 60 => entry 2 false [REDUCE aux_sym_template_body_repeat1 2 0 0; SHIFT_REPEAT 9]
  | 63 => entry 1 true [REDUCE sym_template_body 1 0 0]
  | 65 => entry 1 false [SHIFT 11]
  | 67 => entry 1 true [REDUCE aux_sym_template_body_repeat1 2 0 0]
  | 69 => entry 2 false [REDUCE aux_sym_template_body_repeat1 2 0 0; SHIFT_REPEAT 46]
  | 72 => entry 2 false [REDUCE aux_sym_template_body_repeat1 2 0 0; SHIFT_REPEAT 80]
  | 75 => entry 2 false [REDUCE aux_sym_template_body_repeat1 2 0 0; SHIFT_REPEAT 75]
  | 78 => entry 2 false [REDUCE aux_sym_template_body_repeat1 2 0 0; SHIFT_REPEAT 74]
  | 81 => entry 2 false [REDUCE aux_sym_template_body_repeat1 2 0 0; SHIFT_REPEAT 11]
  | 84 => entry 1 true [SHIFT 36]
  | 86 => entry 1 true [SHIFT 22]
  | 88 => entry 1 false [SHIFT 20]
  | 90 => entry 1 true [SHIFT 56]
  | 92 => entry 1 true [SHIFT 54]
  | 94 => entry 1 true [SHIFT 21]
  | 96 => entry 1 false [SHIFT 25]
  | 98 => entry 1 true [REDUCE aux_sym_block_expression_repeat1 2 0 0]
  | 100 => entry 2 true [REDUCE aux_sym_block_expression_repeat1 2 0 0; SHIFT_REPEAT 22]
  | 103 => entry 2 false [REDUCE aux_sym_block_expression_repeat1 2 0 0; SHIFT_REPEAT 20]
  | 106 => entry 2 true [REDUCE aux_sym_block_expression_repeat1 2 0 0; SHIFT_REPEAT 56]
  | 109 => entry 2 true [REDUCE aux_sym_block_expression_repeat1 2 0 0; SHIFT_REPEAT 54]
  | 112 => entry 2 true [REDUCE aux_sym_block_expression_repeat1 2 0 0; SHIFT_REPEAT 21]
  | 115 => entry 2 false [REDUCE aux_sym_block_expression_repeat1 2 0 0; SHIFT_REPEAT 25]
  | 118 => entry 1 true [REDUCE sym_variable_reference 1 0 0]
  | 120 => entry 1 true [REDUCE sym_expression_content 2 0 4]
  | 122 => entry 1 true [SHIFT 32]
  | 124 => entry 1 false [SHIFT 22]
  | 126 => entry 1 true [SHIFT 24]
  | 128 => entry 1 true [REDUCE sym_license_header 1 0 0]
  | 130 => entry 1 false [SHIFT 19]
  | 132 => entry 1 false [REDUCE sym_license_header 1 0 0]
  | 134 => entry 1 true [REDUCE aux_sym_license_header_repeat1 2 0 0]
  | 136 => entry 2 false [REDUCE aux_sym_license_header_repeat1 2 0 0; SHIFT_REPEAT 19]
  | 139 => entry 1 false [REDUCE aux_sym_license_header_repeat1 2 0 0]
  | 141 => entry 1 true [SHIFT 17]
  | 143 => entry 1 false [REDUCE sym_variable_reference 1 0 0]
  | 145 => entry 1 true [REDUCE sym_argument 1 0 0]
  | 147 => entry 1 false [REDUCE sym_argument 1 0 0]
  | 149 => entry 1 true [REDUCE sym_string_literal 3 0 0]
  | 151 => entry 1 false [REDUCE sym_string_literal 3 0 0]
  | 153 => entry 1 true [REDUCE sym_hash_param 3 0 7]
  | 155 => entry 1 false [REDUCE sym_hash_param 3 0 7]
  | 157 => entry 1 true [REDUCE sym_boolean 1 0 0]
  | 159 => entry 1 false [REDUCE sym_boolean 1 0 0]
  | 161 => entry 1 false [REDUCE sym_handlebars_comment 3 0 0]
  | 163 => entry 1 true [REDUCE sym_close_block 3 0 2]
  | 165 => entry 1 false [REDUCE sym_close_block 3 0 2]
  | 167 => entry 1 true [REDUCE sym_frontmatter 5 0 6]
  | 169 => entry 1 false [REDUCE sym_frontmatter 5 0 6]
  | 171 => entry 1 true [REDUCE sym_handlebars_block 2 0 0]
  | 173 => entry 1 false [REDUCE sym_handlebars_block 2 0 0]
  | 175 => entry 1 false [REDUCE sym_handlebars_expression 3 0 0]
  | 177 => entry 1 false [REDUCE sym_block_expression 4 0 2]
  | 179 => entry 1 false [SHIFT 49]
  | 181 => entry 1 false [SHIFT 60]
  | 183 => entry 1 false [SHIFT 59]
  | 185 => entry 2 false [REDUCE aux_sym_frontmatter_repeat1 2 0 0; SHIFT_REPEAT 49]
  | 188 => entry 1 false [REDUCE aux_sym_frontmatter_repeat1 2 0 0]
  | 190 => entry 2 false [REDUCE aux_sym_frontmatter_repeat1 2 0 0; SHIFT_REPEAT 59]
  | 193 => entry 1 false [SHIFT 55]
  | 195 => entry 1 false [REDUCE sym_block_expression 3 0 2]
  | 197 => entry 1 true [REDUCE sym_dotprompt_marker 3 0 0]
  | 199 => entry 1 false [REDUCE sym_dotprompt_marker 3 0 0]
  | 201 => entry 1 true [REDUCE sym_frontmatter 4 0 0]
  | 203 => entry 1 false [REDUCE sym_frontmatter 4 0 0]
  | 205 => entry 1 true [REDUCE sym_handlebars_block 3 0 0]
  | 207 => entry 1 false [REDUCE sym_handlebars_block 3 0 0]
  | 209 => entry 1 true [REDUCE sym_handlebars_expression 3 0 0]
  | 211 => entry 1 true [REDUCE sym_handlebars_comment 3 0 0]
  | 213 => entry 1 true [SHIFT 71]
  | 215 => entry 1 false [SHIFT 70]
  | 217 => entry 1 false [SHIFT 14]
  | 219 => entry 1 false [REDUCE sym_yaml_line 3 0 5]
  | 221 => entry 1 false [REDUCE sym_yaml_line 4 0 8]
  | 223 => entry 1 false [REDUCE aux_sym_frontmatter_repeat1 1 0 0]
  | 225 => entry 1 false [SHIFT 47]
  | 227 => entry 1 false [SHIFT 63]
  | 229 => entry 1 true [SHIFT 44]
  | 231 => entry 1 true [SHIFT 27]
  | 233 => entry 1 true [SHIFT 33]
  | 235 => entry 1 true [SHIFT 58]
  | 237 => entry 1 true [SHIFT 28]
  | 239 => entry 1 true [SHIFT 57]
  | 241 => entry 1 true [SHIFT 23]
  | 243 => entry 1 true [SHIFT 50]
  | 245 => entry 1 true [SHIFT 38]
  | 247 => entry 1 true [SHIFT 52]
  | 249 => entry 1 true [SHIFT 48]
  | 251 => entry 1 true [SHIFT 37]
  | 253 => entry 1 true [REDUCE sym_expression_content 2 0 3]
  | 255 => entry 1 true [REDUCE sym_expression_content 1 0 1]
  | 257 => entry 1 true [REDUCE sym_document 3 0 0]
  | 259 => entry 1 true [SHIFT 40]
  | 261 => entry 1 true [REDUCE sym_expression_content 1 0 0]
  | 263 => entry 1 true [SHIFT 66]
  | 265 => entry 1 true [ACCEPT_INPUT]
  | 267 => entry 1 true [SHIFT 64]
  | 269 => entry 1 true [SHIFT 65]
  | 271 => entry 1 true [SHIFT 31]
  | 273 => entry 1 true [SHIFT 26]
  | 275 => entry 1 true [SHIFT 43]
  | 277 => entry 1 true [SHIFT 51]
  | 279 => entry 1 true [SHIFT 42]
  | 281 => entry 1 true [SHIFT 12]
  | 283 => entry 1 true [SHIFT 77]
  | 285 => entry 1 true [SHIFT 78]
  | 287 => entry 1 true [SHIFT 69]
  | 289 => entry 1 true [SHIFT 81]
  | _ => entry 0 false []
  end.

(** ** The syntax builder *)

(** A leaf is a token: the code points skipped before it ([padding]) and
    its span.  An inner node is a reduction: the symbol, the production and
    the children in source order. *)
Inductive Tree : Set :=
  | Leaf (symbol : TSSymbol) (padding start_byte end_byte : nat)
  | Node (symbol : TSSymbol) (production_id : Z) (children : list Tree).

Inductive parse_result : Set :=
  | Accepted (root : Tree)
  | SyntaxError (state : TSStateId) (pos : nat) (lookahead : option TSSymbol)
  | OutOfFuel.

(** Modelled from the spec: the table look-up of the syntax builder (the
    parser runtime is not part of the sources at hand).  The first
    [LARGE_STATE_COUNT] states index [ts_parse_table] by symbol; the others
    search the groups that [ts_small_parse_table] holds at the offset
    [ts_small_parse_table_map] gives.  0 stands for no entry. *)
Fixpoint lookup_groups (groups : list (Z * list TSSymbol)) (symbol : TSSymbol)
  : Z :=
  match groups with
  | [] => 0
  | (value, symbols) :: groups' =>
      if existsb (symbol_eqb symbol) symbols then value
      else lookup_groups groups' symbol
  end.

Definition ts_language_lookup (state : TSStateId) (symbol : TSSymbol) : Z :=
  if LARGE_STATE_COUNT <=? state then
    lookup_groups
      (ts_small_parse_table
         (ts_small_parse_table_map (state - LARGE_STATE_COUNT)))
      symbol
  else ts_parse_table state symbol.

Definition ts_language_actions (state : TSStateId) (symbol : TSSymbol)
  : list TSParseAction :=
  actions (ts_parse_actions (ts_language_lookup state symbol)).

Definition is_shift (a : TSParseAction) : bool :=
  match a with
  | SHIFT _ | SHIFT_REPEAT _ => true
  | _ => false
  end.

(** Modelled from the spec: "Reduction order favors shift (extend the
    current construct) over reduce (close it) whenever both are
    grammatically valid".  An entry that holds a reduction and a shift
    gives the shift; otherwise its first action. *)
Definition select_action (l : list TSParseAction) : option TSParseAction :=
  match find is_shift l with
  | Some a => Some a
  | None => hd_error l
  end.

Definition top_state (stack : list (TSStateId * Tree)) : TSStateId :=
  match stack with
  | [] => 1
  | (state, _) :: _ => state
  end.

(** The [n] topmost trees of the stack, oldest first, and the stack below
    them; [None] when the stack is shorter. *)
Fixpoint pop (n : nat) (stack : list (TSStateId * Tree)) (acc : list Tree)
  : option (list Tree * list (TSStateId * Tree)) :=
  match n with
  | O => Some (acc, stack)
  | S n' =>
      match stack with
      | [] => None
      | (_, t) :: stack' => pop n' stack' (t :: acc)
      end
  end.

(** The end-of-input token closes the root: it becomes its last child. *)
Definition close_root (root eof : Tree) : Tree :=
  match root with
  | Node symbol production_id children =>
      Node symbol production_id (children ++ [eof])
  | Leaf _ _ _ _ => Node sym_document 0 [root; eof]
  end.

(** Modelled from the spec: the syntax builder, "a table-driven
    shift/reduce engine that consumes the token stream and assembles a
    concrete syntax tree" (the parser runtime is not part of the sources at
    hand).  The builder starts in state 1 with an empty stack.  Each round
    takes the lookahead token, lexing it in the lexical mode
    [ts_lex_modes] gives for the current state when none is pending, and
    runs the action the tables give for it: a shift pushes the token as a
    leaf and moves the cursor to its end, a reduction replaces the topmost
    [child_count] trees by one node and enters the state the tables give
    for its symbol, keeping the lookahead, and [ACCEPT_INPUT], on the
    end-of-input token with the root alone on the stack, returns the root.  A token without action, or no token at all, is a
    syntax error: [SyntaxError] reports where the builder stood;
    [ts_parser_recover] is the builder with the recovery that follows. *)
Fixpoint ts_parser_loop (fuel : nat) (stack : list (TSStateId * Tree))
    (pos : nat) (chars : list Z) (lookahead : option lex_result)
  : parse_result :=
  match fuel with
  | O => OutOfFuel
  | S fuel' =>
      let state := top_state stack in
      let token :=
        match lookahead with
        | Some t => Some t
        | None => ts_lex (ts_lex_modes state) pos chars
        end in
      match token with
      | None => OutOfFuel
      | Some NoToken => SyntaxError state pos None
      | Some (Token symbol start_byte end_byte rest) =>
          let leaf := Leaf symbol (start_byte - pos) start_byte end_byte in
          match select_action (ts_language_actions state symbol) with
          | Some (SHIFT next) | Some (SHIFT_REPEAT next) =>
              ts_parser_loop fuel' ((next, leaf) :: stack) end_byte rest None
          | Some (REDUCE lhs child_count _ production_id) =>
              match pop child_count stack [] with
              | Some (children, stack') =>
                  let next := ts_language_lookup (top_state stack') lhs in
                  ts_parser_loop fuel'
                    ((next, Node lhs production_id children) :: stack')
                    pos chars token
              | None => SyntaxError state pos (Some symbol)
              end
          | Some ACCEPT_INPUT =>
              match stack with
              | [(_, root)] =>
                  if symbol_eqb symbol ts_builtin_sym_end
                  then Accepted (close_root root leaf)
                  else SyntaxError state pos (Some symbol)
              | _ => SyntaxError state pos (Some symbol)
              end
          | Some RECOVER | None => SyntaxError state pos (Some symbol)
          end
      end
  end.

(** [parse(source_text)]. *)
Definition parse_fuel (input : list Z) : nat := 64 + 16 * length input.

Definition parse (input : list Z) : parse_result :=
  ts_parser_loop (parse_fuel input) [] 0 input None.

(** *** The tree as the public interface shows it

    Symbols that are not [visible] in [ts_symbol_metadata] are internal:
    such a leaf is not shown and such a node is replaced by its children.
    A child named by [ts_alias_sequences] is shown under that name. *)
Inductive PublicNode : Set :=
  | PLeaf (symbol : TSSymbol) (start_byte end_byte : nat)
  | PNode (symbol : TSSymbol) (children : list PublicNode).

Fixpoint public_nodes (alias : option TSSymbol) (t : Tree)
  : list PublicNode :=
  match t with
  | Leaf symbol _ start_byte end_byte =>
      match alias with
      | Some a => [PLeaf a start_byte end_byte]
      | None =>
          if visible (ts_symbol_metadata symbol)
          then [PLeaf symbol start_byte end_byte] else []
      end
  | Node symbol production_id children =>
      let shown :=
        (fix each (i : nat) (l : list Tree) : list PublicNode :=
           match l with
           | [] => []
           | c :: l' =>
               public_nodes (ts_alias_sequences production_id i) c
                 ++ each (S i) l'
           end) O children in
      match alias with
      | Some a => [PNode a shown]
      | None =>
          if visible (ts_symbol_metadata symbol)
          then [PNode symbol shown] else shown
      end
  end.

Definition public_tree (t : Tree) : list PublicNode := public_nodes None t.

(** The leaves of a tree in source order. *)
Fixpoint leaves (t : Tree) : list (TSSymbol * nat * nat * nat) :=
  match t with
  | Leaf symbol padding start_byte end_byte =>
      [(symbol, padding, start_byte, end_byte)]
  | Node _ _ children => flat_map leaves children
  end.

(** The code points of [input] from [start_byte] up to [end_byte]. *)
Definition span_text (input : list Z) (start_byte end_byte : nat) : list Z :=
  firstn (end_byte - start_byte) (skipn start_byte input).

(** ** Character classes the automaton tests *)

(** [('\t' <= lookahead && lookahead <= '\r') || lookahead == ' '] *)
Definition is_space (c : Z) : bool :=
  ((9 <=? c) && (c <=? 13)) || (c =? 32).

(** The characters that continue a [sym_path] token (state 77). *)
Definition is_path_char (c : Z) : bool :=
  (c =? 46) || ((48 <=? c) && (c <=? 57)) || ((65 <=? c) && (c <=? 90))
  || (c =? 95) || ((97 <=? c) && (c <=? 122)).

(** The characters that start an identifier (states 16 and 29). *)
Definition is_ident_start (c : Z) : bool :=
  ((65 <=? c) && (c <=? 90)) || (c =? 95) || ((97 <=? c) && (c <=? 122)).

Ltac each_state s :=
  destruct s as [|s|s];
  [ | do 7 (try destruct s as [s|s|]) | ].

Ltac open_state := cbv beta iota delta [ts_lex_state ADVANCE_MAP].

Ltac split_ifs :=
  repeat match goal with
         | |- context [if ?c then _ else _] => destruct c eqn:?
         end.

Ltac to_prop :=
  repeat match goal with
         | H : _ && _ = true |- _ => apply andb_true_iff in H; destruct H
         | H : _ || _ = true |- _ => apply orb_true_iff in H; destruct H
         | H : _ && _ = false |- _ => apply andb_false_iff in H; destruct H
         | H : _ || _ = false |- _ => apply orb_false_iff in H; destruct H
         | H : negb _ = true |- _ => apply negb_true_iff in H
         | H : negb _ = false |- _ => apply negb_false_iff in H
         | H : (_ =? _) = true |- _ => apply Z.eqb_eq in H
         | H : (_ =? _) = false |- _ => apply Z.eqb_neq in H
         | H : (_ <=? _) = true |- _ => apply Z.leb_le in H
         | H : (_ <=? _) = false |- _ => apply Z.leb_gt in H
         end.

Ltac decide_chars :=
  to_prop;
  repeat match goal with
         | |- context [?a <=? ?b] => destruct (Z.leb_spec a b)
         | |- context [?a =? ?b] => destruct (Z.eqb_spec a b)
         end;
  simpl; try reflexivity; try discriminate; try lia.

(** Positions only shift with the cursor. *)
Definition shift_mark (p : nat) (mk : option (TSSymbol * nat * list Z))
  : option (TSSymbol * nat * list Z) :=
  match mk with
  | Some (sym, e, r) => Some (sym, (p + e)%nat, r)
  | None => None
  end.

Definition shift_result (p : nat) (r : lex_result) : lex_result :=
  match r with
  | Token sym a b rest => Token sym (p + a) (p + b) rest
  | NoToken => NoToken
  end.

(** Scanning a known prefix: the automaton run over [pre] alone.  The
    marks remember what of [pre] was still unread. *)
Fixpoint scan (s : Z) (pre : list Z) (pos st : nat)
    (mk : option (TSSymbol * nat * list Z))
  : option (Z * nat * nat * option (TSSymbol * nat * list Z)) :=
  match pre with
  | [] => Some (s, pos, st, mk)
  | c :: pre' =>
      let (acc, act) := ts_lex_state s c false in
      let mk' := mark acc pos pre mk in
      match act with
      | ADVANCE s' => scan s' pre' (S pos) st mk'
      | SKIP s' => scan s' pre' (S pos) (S pos) mk'
      | END_STATE => None
      end
  end.

Definition extend (chars : list Z) (mk : option (TSSymbol * nat * list Z))
  : option (TSSymbol * nat * list Z) :=
  match mk with
  | Some (sym, e, r) => Some (sym, e, r ++ chars)
  | None => None
  end.

(** *** The scan seen from the text it started on

    [chars0] is the text under the cursor when [ts_lex] is called, [k]
    the number of code points consumed since. *)
Definition look (chars0 : list Z) (k : nat) : Z := nth k chars0 0.

Definition ended (chars0 : list Z) (k : nat) : bool :=
  (length chars0 <=? k)%nat.

Definition next_pos (chars0 : list Z) (k : nat) : nat :=
  if ended chars0 k then k else S k.

Definition mark_at (acc : option TSSymbol) (k : nat)
    (mk : option (TSSymbol * nat)) : option (TSSymbol * nat) :=
  match acc with
  | Some sym => Some (sym, k)
  | None => mk
  end.

Definition abs_mark (chars0 : list Z) (mk : option (TSSymbol * nat))
  : option (TSSymbol * nat * list Z) :=
  match mk with
  | Some (sym, e) => Some (sym, e, skipn e chars0)
  | None => None
  end.

(** What holds of every scan: the token start is behind the cursor and
    only whitespace lies before it, marks are behind the cursor, and the
    end-of-input token is marked at the end of the input only. *)
Definition skipping_state (s : Z) : bool :=
  (s =? 0) || (s =? 2) || (s =? 3) || (s =? 16) || (s =? 29) || (s =? 43).

Definition scan_wf (chars0 : list Z) (s : Z) (k st : nat)
    (mk : option (TSSymbol * nat)) : Prop :=
  (st <= k)%nat
  /\ (forall i, (i < st)%nat -> is_space (look chars0 i) = true)
  /\ (skipping_state s = true ->
      forall i, (i < k)%nat -> is_space (look chars0 i) = true)
  /\ (s = 40 -> ended chars0 k = true)
  /\ (forall sym e, mk = Some (sym, e) ->
        (e <= k)%nat
        /\ (sym = ts_builtin_sym_end -> ended chars0 e = true)).

(** *** Coverage of the input by the leaves

    A leaf is given with its label, its padding and its span. *)

(** [tiles from l to]: the leaves [l] follow one another from [from] to
    [to]; each starts after its padding where the one before ended. *)
Fixpoint tiles {A : Type} (from : nat) (l : list (A * nat * nat * nat))
    (to : nat) : Prop :=
  match l with
  | [] => from = to
  | (_, padding, start_byte, end_byte) :: l' =>
      start_byte = (from + padding)%nat
      /\ (start_byte <= end_byte)%nat
      /\ tiles end_byte l' to
  end.

(** The padding of every leaf is whitespace. *)
Definition padding_is_space {A : Type} (input : list Z)
    (l : list (A * nat * nat * nat)) : Prop :=
  Forall (fun '(_, padding, start_byte, _) =>
            forall i, (start_byte - padding <= i < start_byte)%nat ->
                      is_space (nth i input 0) = true) l.

(** The text of the leaf spans, one after the other. *)
Definition span_concat (input : list Z)
    (l : list (TSSymbol * nat * nat * nat)) : list Z :=
  flat_map (fun '(_, _, start_byte, end_byte) =>
              span_text input start_byte end_byte) l.

(** The same with the padding before each span. *)
Definition padded_concat {A : Type} (input : list Z)
    (l : list (A * nat * nat * nat)) : list Z :=
  flat_map (fun '(_, padding, start_byte, end_byte) =>
              span_text input (start_byte - padding) end_byte) l.

(** A run of tokens over [input] from a cursor, whatever the builder
    that asks for them: "next_token(mode, cursor) -> (Token,
    new_cursor)", the mode being "supplied by the Syntax Builder before
    each call".  Each token is one [ts_lex] returns at the cursor in some
    lex state, with what it skipped as its padding, and the next one
    starts where it ends; an error token spans code points no token
    matched; the run ends at the end of the input. *)
Inductive token_run {A : Type} (input : list Z)
  : nat -> list (A * nat * nat * nat) -> Prop :=
  | run_end : token_run input (length input) []
  | run_token (pos : nat) (s : Z) (sym : TSSymbol) (a b : nat)
      (rest : list Z) (label : A) (l : list (A * nat * nat * nat)) :
      ts_lex s pos (skipn pos input) = Some (Token sym a b rest) ->
      token_run input b l ->
      token_run input pos ((label, (a - pos)%nat, a, b) :: l)
  | run_error (pos k : nat) (label : A) (l : list (A * nat * nat * nat)) :
      (pos + k <= length input)%nat ->
      token_run input (pos + k)%nat l ->
      token_run input pos ((label, 0%nat, pos, (pos + k)%nat) :: l).

(** The keyword tokens of expressions. *)
Definition is_keyword (sym : TSSymbol) : bool :=
  match sym with
  | anon_sym_true | anon_sym_false | anon_sym_else => true
  | _ => false
  end.

(** The characters of marker content (states 30, 89, 90):
    [lookahead != 0 && lookahead != '>']. *)
Definition is_marker_char (c : Z) : bool :=
  negb (c =? 0) && negb (c =? 62).

(** *** Text tokens and ['#']

    The states a text token passes through: those that have read only
    whitespace, state 92 right after a ['#'], and those that have read
    text without ['#']. *)
Inductive text_class : Set := TextSpace | TextHash | TextPlain | TextOther.

Definition text_class_of (s : Z) : text_class :=
  match s with
  | 5 | 37 | 38 | 39 | 93 | 94 | 95 | 96 => TextSpace
  | 92 => TextHash
  | 97 | 98 | 99 | 100 | 101 | 102 => TextPlain
  | _ => TextOther
  end.

Definition text_step_ok (from to : text_class) (c : Z) : bool :=
  match to with
  | TextSpace =>
      match from with TextSpace => is_space c | _ => false end
  | TextHash =>
      match from with TextSpace => c =? 35 | _ => false end
  | TextPlain =>
      match from with
      | TextSpace | TextPlain => negb (c =? 35)
      | _ => false
      end
  | TextOther => true
  end.

(** A text token marked at [e] with its start at [st]: no ['#'] before
    its last code point, and only whitespace before a final ['#']. *)
Definition hash_last (chars0 : list Z) (st e : nat) : Prop :=
  (forall i, (st <= i)%nat -> (i + 1 < e)%nat -> look chars0 i <> 35)
  /\ (look chars0 (e - 1) = 35 ->
      forall i, (st <= i)%nat -> (i + 1 < e)%nat ->
                is_space (look chars0 i) = true).

Definition text_inv (chars0 : list Z) (s : Z) (k st : nat)
    (mk : option (TSSymbol * nat)) : Prop :=
  (text_class_of s = TextSpace ->
   forall i, (st <= i < k)%nat -> is_space (look chars0 i) = true)
  /\ (text_class_of s = TextHash ->
      forall i, (st <= i)%nat -> (i + 1 < k)%nat ->
                is_space (look chars0 i) = true)
  /\ (text_class_of s = TextPlain ->
      forall i, (st <= i < k)%nat -> look chars0 i <> 35)
  /\ (forall e, mk = Some (sym_text, e) ->
        (e <= k)%nat /\ hash_last chars0 st e).

(** *** Braces in template text

    The states a scan started in a template-text mode (5, 37, 38, 39)
    passes through, by what it has read since the cursor. *)
Inductive brace_class : Set :=
  | BStart      (* nothing read: 5, 38, 39 *)
  | BStart37    (* nothing read, start of the document: 37 *)
  | BSpace      (* whitespace: 94, 95, 96 *)
  | BSpace37    (* whitespace, start of the document: 93 *)
  | BOne        (* whitespace and one brace: 100, 101 *)
  | BTwo        (* whitespace and two braces: 53, 54 *)
  | BOpen       (* two braces and the rest of an opener: 50, 52, 58, 9, 61 *)
  | BPlain      (* no brace at all *)
  | BHeader     (* a header comment: 41 *)
  | BEnd        (* the end of the input: 40 *)
  | BOther.

Definition brace_class_of (s : Z) : brace_class :=
  match s with
  | 5 | 38 | 39 => BStart
  | 37 => BStart37
  | 94 | 95 | 96 => BSpace
  | 93 => BSpace37
  | 100 | 101 => BOne
  | 53 | 54 => BTwo
  | 50 | 52 | 58 | 9 | 61 => BOpen
  | 92 | 97 | 98 | 99 | 102 => BPlain
  | 12 | 17 | 19 | 24 | 21 | 23 | 20 | 18 | 22 | 25 | 11 | 88 => BPlain
  | 44 => BPlain
  | 41 => BHeader
  | 40 => BEnd
  | _ => BOther
  end.

Definition brace_step_ok (from to : brace_class) (c : Z) : bool :=
  match to with
  | BSpace =>
      match from with BStart | BSpace => is_space c | _ => false end
  | BSpace37 =>
      match from with BStart37 | BSpace37 => is_space c | _ => false end
  | BOne =>
      match from with
      | BStart | BStart37 | BSpace | BSpace37 => c =? 123
      | _ => false
      end
  | BTwo => match from with BOne => c =? 123 | _ => false end
  | BOpen =>
      match from with
      | BTwo | BOpen => negb (c =? 123) && negb (c =? 0)
      | _ => false
      end
  | BPlain =>
      match from with
      | BStart | BStart37 | BSpace | BSpace37 | BPlain =>
          negb (c =? 123) && negb (c =? 0)
      | _ => false
      end
  | BHeader =>
      match from with
      | BStart37 | BSpace37 | BHeader => negb (c =? 0)
      | _ => false
      end
  | BEnd => match from with BStart | BStart37 => true | _ => false end
  | BStart | BStart37 | BOther => false
  end.

Definition is_opener (sym : TSSymbol) : bool :=
  match sym with
  | anon_sym_LBRACE_LBRACE | anon_sym_LBRACE_LBRACE_POUND
  | anon_sym_LBRACE_LBRACE_SLASH | anon_sym_LBRACE_LBRACE_BANG
  | anon_sym_LBRACE_LBRACE_BANG_DASH_DASH => true
  | _ => false
  end.

Definition is_text (sym : TSSymbol) : bool :=
  match sym with sym_text => true | _ => false end.

Definition is_header (sym : TSSymbol) : bool :=
  match sym with sym_header_comment => true | _ => false end.

Definition brace_accept_ok (cls : brace_class) (sym : TSSymbol) : bool :=
  match cls with
  | BSpace | BSpace37 | BOne => is_text sym
  | BTwo | BOpen => is_opener sym
  | BPlain | BEnd => negb (is_opener sym)
  | BHeader => is_header sym
  | BStart | BStart37 | BOther => false
  end.

(** A brace with no brace next to it. *)
Definition lone_brace (chars0 : list Z) (i : nat) : Prop :=
  look chars0 i = 123
  /\ look chars0 (i + 1) <> 123
  /\ (i = 0%nat \/ look chars0 (i - 1) <> 123).

Definition brace_prop (chars0 : list Z) (cls : brace_class) (k : nat)
  : Prop :=
  match cls with
  | BStart | BStart37 | BEnd => k = 0%nat
  | BSpace | BSpace37 =>
      forall i, (i < k)%nat -> is_space (look chars0 i) = true
  | BOne =>
      (1 <= k)%nat /\ look chars0 (k - 1) = 123
      /\ forall i, (i + 1 < k)%nat -> is_space (look chars0 i) = true
  | BTwo =>
      (2 <= k)%nat /\ look chars0 (k - 1) = 123 /\ look chars0 (k - 2) = 123
      /\ forall i, (i + 2 < k)%nat -> is_space (look chars0 i) = true
  | BOpen =>
      exists j, (j + 2 <= k)%nat
                /\ look chars0 j = 123 /\ look chars0 (j + 1) = 123
                /\ (forall i, (i < j)%nat -> is_space (look chars0 i) = true)
                /\ (forall i, (j + 2 <= i < k)%nat -> look chars0 i <> 123)
  | BPlain => forall i, (i < k)%nat -> look chars0 i <> 123
  | BHeader | BOther => True
  end.

Definition from_37 (cls : brace_class) : bool :=
  match cls with
  | BStart37 | BSpace37 | BHeader => true
  | _ => false
  end.

Definition brace_mark_ok (chars0 : list Z) (s0 : Z) (sym : TSSymbol)
    (e : nat) : Prop :=
  (forall i, (i < e)%nat -> lone_brace chars0 i ->
             is_text sym = true \/ (s0 = 37 /\ is_header sym = true))
  /\ (is_opener sym = true ->
      exists j, (j + 1 < e)%nat
                /\ look chars0 j = 123 /\ look chars0 (j + 1) = 123).

Definition brace_inv (chars0 : list Z) (s0 s : Z) (k st : nat)
    (mk : option (TSSymbol * nat)) : Prop :=
  brace_class_of s <> BOther
  /\ st = 0%nat
  /\ (from_37 (brace_class_of s) = true -> s0 = 37)
  /\ brace_prop chars0 (brace_class_of s) k
  /\ (forall sym e, mk = Some (sym, e) ->
        (e <= k)%nat /\ brace_mark_ok chars0 s0 sym e).

(** The public tree of an accepted parse; nothing for a syntax error. *)
Definition public_tree_of (r : parse_result) : list PublicNode :=
  match r with
  | Accepted root => public_tree root
  | _ => []
  end.

(** ** Lexical modes

    [ts_lex] is entered in the state [ts_lex_modes] gives for the parse
    state; these are the states it is entered in. *)
Definition lex_modes : list Z :=
  [0; 1; 2; 3; 4; 5; 16; 29; 30; 37; 38; 39; 59; 62; 79; 82].

Definition mem (s : Z) (l : list Z) : bool := existsb (Z.eqb s) l.

(** The states with [if (eof) ADVANCE(40)]. *)
Definition eof_start (s : Z) : bool :=
  (s =? 0) || (s =? 37) || (s =? 38) || (s =? 39).

(** No code point consumed so far is NUL, and no mark lies ahead of the
    cursor. *)
Definition nul_free (chars0 : list Z) (s : Z) (k st : nat)
    (mk : option (TSSymbol * nat)) : Prop :=
  (forall i, (i < k)%nat -> look chars0 i <> 0)
  /\ (forall sym e, mk = Some (sym, e) -> (e <= k)%nat).

(** In a state that looks for the end of the input, and in state 40,
    the token start is at the cursor; and no mark is for the end-of-input
    token, which ends the scan at once. *)
Definition end_inv (chars0 : list Z) (s : Z) (k st : nat)
    (mk : option (TSSymbol * nat)) : Prop :=
  (eof_start s = true \/ s = 40 -> st = k)
  /\ (forall sym e, mk = Some (sym, e) -> sym <> ts_builtin_sym_end).

(** The states a scan entered in the mode [m] passes through. *)
Definition mode_states (m : Z) : list Z :=
  match m with
  | 0 =>
      [0; 6; 8; 9; 11; 12; 13; 15; 17; 18; 19; 20; 21; 22; 23; 24; 25; 26;
       27; 28; 32; 33; 40; 41; 44; 47; 50; 51; 52; 54; 56; 57; 58; 61; 64;
       65; 66; 67; 68; 69; 70; 71; 72; 73; 74; 75; 76; 77; 78; 81; 84; 85;
       86; 87; 88; 91]
  | 1 => [1; 42; 48; 49]
  | 2 => [2; 43]
  | 3 =>
      [3; 14; 15; 27; 31; 32; 33; 51; 65; 66; 67; 69; 70; 72; 73; 75; 76;
       77; 78; 81; 84; 85; 86; 87; 91]
  | 4 => [4; 7; 10; 41; 44; 45; 46]
  | 5 =>
      [5; 9; 11; 12; 17; 18; 19; 20; 21; 22; 23; 24; 25; 50; 52; 54; 58;
       61; 88; 92; 96; 99; 100; 102]
  | 16 => [16; 33; 55; 57; 66; 68; 71; 74; 77]
  | 29 => [29; 77]
  | 30 => [30; 89; 90]
  | 37 =>
      [9; 11; 12; 17; 18; 19; 20; 21; 22; 23; 24; 25; 37; 40; 41; 44; 50;
       53; 58; 61; 88; 93; 97; 98; 99; 101; 102]
  | 38 =>
      [9; 11; 12; 17; 18; 19; 20; 21; 22; 23; 24; 25; 38; 40; 44; 50; 53;
       58; 61; 88; 92; 94; 97; 98; 99; 101; 102]
  | 39 =>
      [9; 11; 12; 17; 18; 19; 20; 21; 22; 23; 24; 25; 39; 40; 50; 53; 58;
       61; 88; 92; 95; 99; 101; 102]
  | 59 => [36; 59; 60]
  | 62 => [62; 63]
  | 79 => [35; 79; 80]
  | 82 => [34; 82; 83]
  | _ => []
  end.

(** The tokens a scan entered in the mode [m] can end with: those the
    states of [mode_states m] accept. *)
Definition mode_tokens (m : Z) : list TSSymbol :=
  match m with
  | 0 =>
      [ts_builtin_sym_end; sym_header_comment; sym_frontmatter_delimiter;
       anon_sym_COLON; anon_sym_LBRACE_LBRACE_POUND; anon_sym_RBRACE_RBRACE;
       anon_sym_LBRACE_LBRACE_SLASH; anon_sym_LBRACE_LBRACE; anon_sym_GT;
       anon_sym_else; anon_sym_LBRACE_LBRACE_BANG;
       anon_sym_LBRACE_LBRACE_BANG_DASH_DASH;
       anon_sym_DASH_DASH_RBRACE_RBRACE; anon_sym_EQ;
       aux_sym_variable_reference_token1; sym_path; anon_sym_DQUOTE;
       anon_sym_SQUOTE; sym_number; anon_sym_true; anon_sym_false;
       anon_sym_LT_LT_LTdotprompt_COLON; anon_sym_GT_GT_GT]
  | 1 => [aux_sym_frontmatter_token1; aux_sym_yaml_line_token2]
  | 2 => [aux_sym_frontmatter_token1]
  | 3 =>
      [anon_sym_RBRACE_RBRACE; anon_sym_EQ;
       aux_sym_variable_reference_token1; sym_path; anon_sym_DQUOTE;
       anon_sym_SQUOTE; sym_number; anon_sym_true; anon_sym_false;
       anon_sym_GT_GT_GT]
  | 4 =>
      [sym_header_comment; sym_frontmatter_delimiter;
       aux_sym__yaml_content_token1; aux_sym_yaml_line_token1]
  | 5 =>
      [anon_sym_LBRACE_LBRACE_POUND; anon_sym_LBRACE_LBRACE_SLASH;
       anon_sym_LBRACE_LBRACE; anon_sym_LBRACE_LBRACE_BANG;
       anon_sym_LBRACE_LBRACE_BANG_DASH_DASH;
       anon_sym_LT_LT_LTdotprompt_COLON; sym_text]
  | 16 =>
      [anon_sym_GT; anon_sym_else; aux_sym_variable_reference_token1;
       sym_path]
  | 29 => [sym_path]
  | 30 => [aux_sym_dotprompt_marker_token1]
  | 37 =>
      [ts_builtin_sym_end; sym_header_comment; sym_frontmatter_delimiter;
       anon_sym_LBRACE_LBRACE_POUND; anon_sym_LBRACE_LBRACE;
       anon_sym_LBRACE_LBRACE_BANG; anon_sym_LBRACE_LBRACE_BANG_DASH_DASH;
       anon_sym_LT_LT_LTdotprompt_COLON; sym_text]
  | 38 =>
      [ts_builtin_sym_end; sym_frontmatter_delimiter;
       anon_sym_LBRACE_LBRACE_POUND; anon_sym_LBRACE_LBRACE;
       anon_sym_LBRACE_LBRACE_BANG; anon_sym_LBRACE_LBRACE_BANG_DASH_DASH;
       anon_sym_LT_LT_LTdotprompt_COLON; sym_text]
  | 39 =>
      [ts_builtin_sym_end; anon_sym_LBRACE_LBRACE_POUND;
       anon_sym_LBRACE_LBRACE; anon_sym_LBRACE_LBRACE_BANG;
       anon_sym_LBRACE_LBRACE_BANG_DASH_DASH;
       anon_sym_LT_LT_LTdotprompt_COLON; sym_text]
  | 59 => [aux_sym_handlebars_comment_token1]
  | 62 => [aux_sym_handlebars_comment_token2]
  | 79 => [aux_sym_string_literal_token1]
  | 82 => [aux_sym_string_literal_token2]
  | _ => []
  end.

(** A text that spells the token [sym]. *)
Definition sample (sym : TSSymbol) : list Z :=
  match sym with
  | sym_header_comment => codes "#"
  | aux_sym_frontmatter_token1 => [10]
  | sym_frontmatter_delimiter => codes "---"
  | aux_sym__yaml_content_token1 => codes " "
  | aux_sym_yaml_line_token1 => codes "k"
  | anon_sym_COLON => codes ":"
  | aux_sym_yaml_line_token2 => codes "v"
  | anon_sym_LBRACE_LBRACE_POUND => codes "{{#"
  | anon_sym_RBRACE_RBRACE => codes "}}"
  | anon_sym_LBRACE_LBRACE_SLASH => codes "{{/"
  | anon_sym_LBRACE_LBRACE => codes "{{"
  | anon_sym_GT => codes ">"
  | anon_sym_else => codes "else"
  | anon_sym_LBRACE_LBRACE_BANG => codes "{{!"
  | aux_sym_handlebars_comment_token1 => codes "a"
  | anon_sym_LBRACE_LBRACE_BANG_DASH_DASH => codes "{{!--"
  | aux_sym_handlebars_comment_token2 => codes "a"
  | anon_sym_DASH_DASH_RBRACE_RBRACE => codes "--}}"
  | anon_sym_EQ => codes "="
  | aux_sym_variable_reference_token1 => codes "@x"
  | sym_path => codes "x"
  | anon_sym_DQUOTE => [34]
  | aux_sym_string_literal_token1 => codes "a"
  | anon_sym_SQUOTE => [39]
  | aux_sym_string_literal_token2 => codes "a"
  | sym_number => codes "1"
  | anon_sym_true => codes "true"
  | anon_sym_false => codes "false"
  | anon_sym_LT_LT_LTdotprompt_COLON => codes "<<<dotprompt:"
  | aux_sym_dotprompt_marker_token1 => codes "a"
  | anon_sym_GT_GT_GT => codes ">>>"
  | sym_text => codes "a"
  | _ => []
  end.

(** The tokens a scan can end with are those of its mode. *)
Definition mode_inv (m : Z) (chars0 : list Z) (s : Z) (k st : nat)
    (mk : option (TSSymbol * nat)) : Prop :=
  mem s (mode_states m) = true
  /\ (forall sym e, mk = Some (sym, e) -> In sym (mode_tokens m)).

(** The parse states, [0 .. STATE_COUNT - 1]. *)
Definition parse_states : list TSStateId :=
  map Z.of_nat (seq 0 (Z.to_nat STATE_COUNT)).

(** The terminal symbols, in the order of their ids. *)
Definition terminals : list TSSymbol :=
  [ts_builtin_sym_end; sym_header_comment; aux_sym_frontmatter_token1;
   sym_frontmatter_delimiter; aux_sym__yaml_content_token1;
   aux_sym_yaml_line_token1; anon_sym_COLON; aux_sym_yaml_line_token2;
   anon_sym_LBRACE_LBRACE_POUND; anon_sym_RBRACE_RBRACE;
   anon_sym_LBRACE_LBRACE_SLASH; anon_sym_LBRACE_LBRACE; anon_sym_GT;
   anon_sym_else; anon_sym_LBRACE_LBRACE_BANG;
   aux_sym_handlebars_comment_token1; anon_sym_LBRACE_LBRACE_BANG_DASH_DASH;
   aux_sym_handlebars_comment_token2; anon_sym_DASH_DASH_RBRACE_RBRACE;
   anon_sym_EQ; aux_sym_variable_reference_token1; sym_path; anon_sym_DQUOTE;
   aux_sym_string_literal_token1; anon_sym_SQUOTE;
   aux_sym_string_literal_token2; sym_number; anon_sym_true; anon_sym_false;
   anon_sym_LT_LT_LTdotprompt_COLON; aux_sym_dotprompt_marker_token1;
   anon_sym_GT_GT_GT; sym_text].

Definition symbol_mem (sym : TSSymbol) (l : list TSSymbol) : bool :=
  existsb (symbol_eqb sym) l.

(** What the state [s] accepts when it is entered: the symbol of its
    [ACCEPT_TOKEN], which comes before any test of the lookahead. *)
Definition accepted (s : Z) : option TSSymbol := fst (ts_lex_state s 0 false).

(** The modes of template text. *)
Definition text_modes : list Z := [5; 37; 38; 39].

(** A scan of template text skips nothing, and once it has consumed a
    code point it holds a mark behind it or is in a state that sets
    one. *)
Definition text_scan_inv (m : Z) (chars0 : list Z) (s : Z) (k st : nat)
    (mk : option (TSSymbol * nat)) : Prop :=
  st = 0%nat
  /\ mem s (mode_states m) = true
  /\ (k = 0%nat -> s = m)
  /\ ((0 < k)%nat ->
      accepted s <> None
      \/ exists sym e, mk = Some (sym, e) /\ (0 < e)%nat).

(** ** Character classes of the tokens *)

(** [lookahead != 0 && lookahead != '\n']: the characters of a line. *)
Definition is_line_char (c : Z) : bool := negb (c =? 0) && negb (c =? 10).

(** The characters that continue a frontmatter key (state 46). *)
Definition is_key_char (c : Z) : bool :=
  (c =? 45) || ((48 <=? c) && (c <=? 57)) || ((65 <=? c) && (c <=? 90))
  || (c =? 95) || ((97 <=? c) && (c <=? 122)).

(** The characters that continue an [@] variable (state 66). *)
Definition is_word_char (c : Z) : bool :=
  ((48 <=? c) && (c <=? 57)) || ((65 <=? c) && (c <=? 90))
  || (c =? 95) || ((97 <=? c) && (c <=? 122)).

(** ['0' <= lookahead && lookahead <= '9'] *)
Definition is_digit (c : Z) : bool := (48 <=? c) && (c <=? 57).

Definition not_nul (c : Z) : bool := negb (c =? 0).

(** The state of the value scan (lex state 1) after whitespace: 42 after
    a line feed, 48 after any other. *)
Definition after_blank (c : Z) : Z := if c =? 10 then 42 else 48.

(** A text run in which the character [lead] takes the next character
    with it: each [lead] is followed by a character of [in_follow], every
    other character is one of [in_plain]. *)
Fixpoint escaped_ok (in_plain : Z -> bool) (lead : Z) (in_follow : Z -> bool)
    (body : list Z) : bool :=
  match body with
  | [] => true
  | c :: t =>
      if c =? lead then
        match t with
        | [] => false
        | c' :: t' => in_follow c' && escaped_ok in_plain lead in_follow t'
        end
      else in_plain c && escaped_ok in_plain lead in_follow t
  end.

(** The content of a string literal closed by [quote]: no NUL, no
    [quote] but after a backslash, and after a backslash any character
    but NUL and line feed. *)
Definition string_body_ok (quote : Z) (body : list Z) : bool :=
  escaped_ok (fun c => negb (c =? 0) && negb (c =? quote)) 92 is_line_char
    body.

(** The body of a comment opened with ["{{!"]: no NUL, and after a ['}']
    a character that is neither ['}'] nor NUL. *)
Definition comment_body_ok (body : list Z) : bool :=
  escaped_ok (fun c => negb (c =? 0)) 125
    (fun c => negb (c =? 0) && negb (c =? 125)) body.

(** The lexical mode and the content token of a string literal, by its
    quote: 34 is the double quote, 39 the single one. *)
Definition string_mode (quote : Z) : Z := if quote =? 34 then 79 else 82.

Definition string_token (quote : Z) : TSSymbol :=
  if quote =? 34 then aux_sym_string_literal_token1
  else aux_sym_string_literal_token2.

(** The sign of a number. *)
Definition sign (negative : bool) : list Z := if negative then [45] else [].

(** ** The parse tables as data *)

(** The non-terminal symbols, in the order of their ids. *)
Definition nonterminals : list TSSymbol :=
  [sym_document; sym_license_header; sym_frontmatter; sym__yaml_content;
   sym_yaml_line; sym_template_body; sym__content; sym_handlebars_block;
   sym_block_expression; sym_close_block; sym_handlebars_expression;
   sym_expression_content; sym_handlebars_comment; sym_argument;
   sym_hash_param; sym_variable_reference; sym_string_literal; sym_boolean;
   sym_dotprompt_marker; aux_sym_license_header_repeat1;
   aux_sym_frontmatter_repeat1; aux_sym_template_body_repeat1;
   aux_sym_block_expression_repeat1].

(** The entries the tables hold for a parse state, each with the symbol
    that selects it: the entries other than 0 of its row of
    [ts_parse_table] for the first [LARGE_STATE_COUNT] states, and for the
    others the groups [ts_small_parse_table] holds at the offset of the
    state.  The entry of a terminal is an index into [ts_parse_actions],
    the entry of a non-terminal a parse state. *)
Definition table_row (state : TSStateId) : list (TSSymbol * Z) :=
  if state <? LARGE_STATE_COUNT then
    filter (fun p => negb (snd p =? 0))
      (map (fun sym => (sym, ts_parse_table state sym))
         (terminals ++ nonterminals))
  else
    flat_map (fun g => map (fun sym => (sym, fst g)) (snd g))
      (ts_small_parse_table
         (ts_small_parse_table_map (state - LARGE_STATE_COUNT))).

(** [enum ts_field_identifiers] *)
Inductive TSFieldId : Set := field_key | field_name | field_value.

Definition field_id (f : TSFieldId) : Z :=
  match f with
  | field_key => 1
  | field_name => 2
  | field_value => 3
  end.

Definition ts_field_names (f : TSFieldId) : string :=
  match f with
  | field_key => "key"
  | field_name => "name"
  | field_value => "value"
  end.

(** [ts_field_map_slices]: for a production, the index and the length of
    its slice of [ts_field_map_entries]. *)
Definition ts_field_map_slices (production_id : Z) : nat * nat :=
  match production_id with
  | 2 => (0, 1)%nat
  | 5 => (1, 1)%nat
  | 7 => (2, 2)%nat
  | 8 => (2, 2)%nat
  | _ => (0, 0)%nat
  end.

(** [ts_field_map_entries]: a field and the index of the child that
    bears it. *)
Definition ts_field_map_entries : list (TSFieldId * nat) :=
  [ (field_name, 1); (field_key, 0); (field_key, 0); (field_value, 2) ]%nat.

(** The fields of the children of a production. *)
Definition production_fields (production_id : Z) : list (TSFieldId * nat) :=
  let (index, len) := ts_field_map_slices production_id in
  firstn len (skipn index ts_field_map_entries).

(** An action that stays inside the tables: a shift leads to a parse
    state other than the error state 0, a reduction names a non-terminal,
    no more children than [MAX_ALIAS_SEQUENCE_LENGTH], and a production
    below [PRODUCTION_ID_COUNT]. *)
Definition action_in_range (a : TSParseAction) : bool :=
  match a with
  | SHIFT state | SHIFT_REPEAT state => (0 <? state) && (state <? STATE_COUNT)
  | REDUCE symbol child_count _ production_id =>
      (TOKEN_COUNT <=? symbol_id symbol) && (symbol_id symbol <? SYMBOL_COUNT)
      && (Z.of_nat child_count <=? MAX_ALIAS_SEQUENCE_LENGTH)
      && (0 <=? production_id) && (production_id <? PRODUCTION_ID_COUNT)
  | RECOVER | ACCEPT_INPUT => true
  end.

(** An entry of the tables that stays inside them: for a terminal an
    action entry that holds as many actions as its [count] says, at least
    one, each in range; for a non-terminal a parse state other than 0. *)
Definition entry_in_range (sym : TSSymbol) (value : Z) : bool :=
  if symbol_id sym <? TOKEN_COUNT then
    let e := ts_parse_actions value in
    (0 <? count e)%nat && (count e =? length (actions e))%nat
    && forallb action_in_range (actions e)
  else (0 <? value) && (value <? STATE_COUNT).

(** The symbols that stand for a repetition. *)
Definition is_repeat (sym : TSSymbol) : bool :=
  match sym with
  | aux_sym_license_header_repeat1 | aux_sym_frontmatter_repeat1
  | aux_sym_template_body_repeat1 | aux_sym_block_expression_repeat1 => true
  | _ => false
  end.

(** An action entry that leaves no choice: one action, or the two of a
    repetition, which is reduced and goes on. *)
Definition no_choice (l : list TSParseAction) : bool :=
  match l with
  | [] | [_] => true
  | [REDUCE symbol 2 _ _; SHIFT_REPEAT _] => is_repeat symbol
  | _ => false
  end.

(** What the children of a production are called stays inside the
    production: an alias or a field names a child it has. *)
Definition production_in_range (a : TSParseAction) : bool :=
  match a with
  | REDUCE _ child_count _ production_id =>
      forallb (fun i =>
                 match ts_alias_sequences production_id i with
                 | Some _ => (i <? child_count)%nat
                 | None => true
                 end)
        (seq 0 (Z.to_nat MAX_ALIAS_SEQUENCE_LENGTH))
      && forallb (fun f => (snd f <? child_count)%nat)
           (production_fields production_id)
  | _ => true
  end.

(** The indices of [ts_parse_actions]. *)
Definition action_indices : list Z := map Z.of_nat (seq 0 291).

(** The modes that skip whitespace before a token: those of
    expressions and names. *)
Definition skipping_modes : list Z := [0; 3; 16; 29].

(** The characters state 102 goes on over:
    [lookahead != 0 && lookahead != '#' && lookahead != '<' &&
     lookahead != '{']. *)
Definition is_text_char (c : Z) : bool :=
  negb (c =? 0) && negb (c =? 35) && negb (c =? 60) && negb (c =? 123).

(** The state of a text mode after whitespace. *)
Definition after_space (m : Z) : Z :=
  match m with
  | 5 => 96
  | 37 => 93
  | 38 => 94
  | _ => 95
  end.

(** Blanks: the whitespace that ends no line,
    [('\t' <= lookahead && lookahead <= '\f') || lookahead == ' ']
    without the line feed. *)
Definition is_blank (c : Z) : bool :=
  (c =? 9) || (c =? 11) || (c =? 12) || (c =? 32).

(** A line end: a line feed, after a carriage return or not. *)
Definition line_end (cr : bool) : list Z := if cr then [13; 10] else [10].

(** The states that have read the start of an identifier: those that
    accept a path or a keyword. *)
Definition word_state (s : Z) : bool :=
  (s =? 57) || ((67 <=? s) && (s <=? 77)) || (s =? 86) || (s =? 87).

(** From [st] to [e] the text is an identifier: a letter or ['_'], then
    path characters. *)
Definition is_word (chars0 : list Z) (st e : nat) : Prop :=
  (st < e)%nat
  /\ is_ident_start (look chars0 st) = true
  /\ (forall i, (st < i < e)%nat -> is_path_char (look chars0 i) = true).

(** What a scan keeps true of identifiers: in a state that has read the
    start of one the text since the token start is one; in a mode that
    skips, the token start is at the cursor; a path is marked after an
    identifier only; and nothing is marked as a path while whitespace is
    skipped. *)
Definition word_inv (chars0 : list Z) (s : Z) (k st : nat)
    (mk : option (TSSymbol * nat)) : Prop :=
  (word_state s = true -> is_word chars0 st k)
  /\ (mem s skipping_modes = true -> st = k)
  /\ (forall e, mk = Some (sym_path, e) -> is_word chars0 st e)
  /\ (skipping_state s = true -> forall e, mk <> Some (sym_path, e)).

(** ** The syntax builder with its recovery *)

(** The trees [parse] returns for any input: the nodes of the grammar and
    the error nodes, "standing in for malformed or missing input, keeping
    the tree total".  An error leaf spans code points no token matched, or
    a token no rule could take; a missing node stands, empty, where a
    construct was expected; an error root holds what was built when the
    builder could not go on. *)
Inductive SyntaxTree : Set :=
  | SLeaf (symbol : TSSymbol) (padding start_byte end_byte : nat)
  | SNode (symbol : TSSymbol) (production_id : Z)
      (children : list SyntaxTree)
  | SErrorLeaf (padding start_byte end_byte : nat)
  | SMissing (symbol : TSSymbol) (at_byte : nat)
  | SError (children : list SyntaxTree).

(** A tree without error nodes, as a syntax tree. *)
Fixpoint syntax_tree (t : Tree) : SyntaxTree :=
  match t with
  | Leaf symbol padding start_byte end_byte =>
      SLeaf symbol padding start_byte end_byte
  | Node symbol production_id children =>
      SNode symbol production_id (map syntax_tree children)
  end.

(** The leaves of a syntax tree in source order, each with the symbol of
    its token, [None] for an error leaf. *)
Fixpoint syntax_leaves (t : SyntaxTree)
  : list (option TSSymbol * nat * nat * nat) :=
  match t with
  | SLeaf symbol padding start_byte end_byte =>
      [(Some symbol, padding, start_byte, end_byte)]
  | SErrorLeaf padding start_byte end_byte =>
      [(None, padding, start_byte, end_byte)]
  | SMissing _ _ => []
  | SNode _ _ children | SError children => flat_map syntax_leaves children
  end.

(** The lexical modes of frontmatter: lex state 4 at the start of a
    line, 1 after the colon of a key, 2 where a line must end. *)
Definition frontmatter_modes : list Z := [1; 2; 4].

(** Modelled from the spec: where scanning resumes after code points no
    token matched, "next line for frontmatter, next trigger character for
    template text", the trigger characters being ['#'], ['<'] and ['{'];
    in the other modes, the next code point. *)
Definition resumes_at (mode c : Z) : bool :=
  if mem mode frontmatter_modes then c =? 10
  else if mem mode text_modes then (c =? 35) || (c =? 60) || (c =? 123)
  else true.

(** The code points up to the next one scanning resumes at. *)
Fixpoint unmatched_run (mode : Z) (chars : list Z) : nat :=
  match chars with
  | [] => O
  | c :: chars' =>
      if resumes_at mode c then O else S (unmatched_run mode chars')
  end.

(** The length of the error token at the head of [chars]: the code point
    under the cursor and those that follow it up to the next one scanning
    resumes at. *)
Definition unmatched_length (mode : Z) (chars : list Z) : nat :=
  match chars with
  | [] => O
  | _ :: chars' => S (unmatched_run mode chars')
  end.

(** A token advances a rule in a state when the tables hold an action
    other than [RECOVER] for it. *)
Definition advances (state : TSStateId) (symbol : TSSymbol) : bool :=
  match select_action (ts_language_actions state symbol) with
  | Some RECOVER | None => false
  | Some _ => true
  end.

Definition is_terminal (symbol : TSSymbol) : bool :=
  symbol_id symbol <? TOKEN_COUNT.

(** The states of the stack once [symbol] is taken as if it were there:
    a non-terminal enters the state the tables give for it; a terminal
    runs the reductions the tables call for with it as the lookahead, and
    is shifted. *)
Fixpoint take_missing (fuel : nat) (states : list TSStateId)
    (symbol : TSSymbol) : option (list TSStateId) :=
  match fuel with
  | O => None
  | S fuel' =>
      let state := hd 1 states in
      if is_terminal symbol then
        match select_action (ts_language_actions state symbol) with
        | Some (SHIFT next) | Some (SHIFT_REPEAT next) =>
            Some (next :: states)
        | Some (REDUCE lhs child_count _ _) =>
            if (child_count <? length states)%nat then
              let states' := skipn child_count states in
              take_missing fuel'
                (ts_language_lookup (hd 1 states') lhs :: states') symbol
            else None
        | _ => None
        end
      else
        match ts_language_lookup state symbol with
        | 0 => None
        | next => Some (next :: states)
        end
  end.

(** The symbols that may be missing in a state: those of its row, the
    end of the input apart. *)
Definition candidates (state : TSStateId) : list TSSymbol :=
  filter (fun x => negb (symbol_eqb x ts_builtin_sym_end))
    (map fst (table_row state)).

(** The reductions a missing terminal may call for before its shift. *)
Definition take_limit : nat := 16.

(** The token [symbol] advances a rule once [x] is taken as if it were
    there. *)
Definition advances_after (states : list TSStateId) (symbol x : TSSymbol)
  : bool :=
  match take_missing take_limit states x with
  | Some states' => advances (hd 1 states') symbol
  | None => false
  end.

(** Modelled from the spec: the missing construct before a token
    without action.  It is the first symbol of the row of the state after
    which the token advances a rule, so that parsing continues "as if the
    construct had ended"; failing that, the first after which a second
    missing symbol lets the token advance (the closing delimiter of
    frontmatter is two tokens, the dashes and the line end). *)
Definition missing_construct (states : list TSStateId) (symbol : TSSymbol)
  : option TSSymbol :=
  match find (advances_after states symbol) (candidates (hd 1 states)) with
  | Some x => Some x
  | None =>
      find
        (fun x =>
           match take_missing take_limit states x with
           | Some states' =>
               existsb (advances_after states' symbol)
                 (candidates (hd 1 states'))
           | None => false
           end)
        (candidates (hd 1 states))
  end.

(** The stack of the builder: each entry holds the state entered, the
    tree that led to it and the error leaves dropped after that tree, in
    source order; the bottom entry holds the start state 1 and the error
    leaves dropped before any tree. *)
Definition top_entry (stack : list (TSStateId * list SyntaxTree))
  : TSStateId :=
  match stack with
  | [] => 1
  | (state, _) :: _ => state
  end.

(** An error leaf is dropped on the topmost entry. *)
Definition drop_error (leaf : SyntaxTree)
    (stack : list (TSStateId * list SyntaxTree))
  : list (TSStateId * list SyntaxTree) :=
  match stack with
  | [] => [(1, [leaf])]
  | (state, trees) :: stack' => (state, trees ++ [leaf]) :: stack'
  end.

(** The trees of the [n] topmost entries, oldest first, and the stack
    below them; the bottom entry is never taken. *)
Fixpoint pop_entries (n : nat) (stack : list (TSStateId * list SyntaxTree))
    (acc : list SyntaxTree)
  : option (list SyntaxTree * list (TSStateId * list SyntaxTree)) :=
  match n with
  | O => Some (acc, stack)
  | S n' =>
      match stack with
      | [] | [_] => None
      | (_, trees) :: stack' => pop_entries n' stack' (trees ++ acc)
      end
  end.

(** All the trees of the stack, oldest first. *)
Definition stack_trees (stack : list (TSStateId * list SyntaxTree))
  : list SyntaxTree :=
  flat_map snd (rev stack).

(** The root when the input is accepted: the error leaves dropped before
    and after the root and the end-of-input leaf are its outermost
    children. *)
Definition close_tree (before : list SyntaxTree) (root : SyntaxTree)
    (after : list SyntaxTree) (eof : SyntaxTree) : SyntaxTree :=
  match root with
  | SNode symbol production_id children =>
      SNode symbol production_id (before ++ children ++ after ++ [eof])
  | _ => SNode sym_document 0 (before ++ [root] ++ after ++ [eof])
  end.

(** What the builder returns when it cannot go on: an error root over
    what was built and an error leaf over what is left of the text. *)
Definition error_root (stack : list (TSStateId * list SyntaxTree))
    (pos : nat) (chars : list Z) : SyntaxTree :=
  SError (stack_trees stack ++ [SErrorLeaf 0 pos (pos + length chars)]).

(** The lookahead token: the pending one, or the token [ts_lex] finds in
    the lexical mode of the state; when it finds none, the end-of-input
    token if the mode of the error state 0 finds it: "End-of-input always
    yields a distinguished end token". *)
Definition next_token (state : TSStateId) (pos : nat) (chars : list Z)
    (lookahead : option lex_result) : lex_result :=
  match lookahead with
  | Some t => t
  | None =>
      match ts_lex (ts_lex_modes state) pos chars with
      | Some (Token symbol start_byte end_byte rest) =>
          Token symbol start_byte end_byte rest
      | _ =>
          match ts_lex (ts_lex_modes 0) pos chars with
          | Some (Token ts_builtin_sym_end start_byte end_byte rest) =>
              Token ts_builtin_sym_end start_byte end_byte rest
          | _ => NoToken
          end
      end
  end.

(** Modelled from the spec: the syntax builder with the recovery of
    section 7 (the parser runtime is not part of the sources at hand); it
    is [ts_parser_loop] where that one meets no error.  [parse] is a
    "total function; never fails to return a tree, but the tree may
    contain designated error nodes".

    - A missing symbol is pending ([missing]): the reductions the tables
      give for it as the lookahead run, and its shift pushes an empty
      missing node; the token stays the lookahead.
    - Lexical error, no token in the mode of the state: "emit an error
      token spanning the unmatched bytes and resume scanning at the next
      plausible boundary".
    - Structural error, a token without action: "the builder inserts an
      error node in place of the missing/mismatched construct, keeps
      already-built children, and continues parsing the remainder as if
      the construct had ended"; a missing non-terminal is pushed at once,
      a missing terminal becomes pending.  When no construct is missing,
      "any lookahead token that cannot advance any rule is reduced into
      an error leaf rather than looping".
    - When nothing of this applies, at the end of the input, or when
      [fuel] runs out, what was built and what is left of the text become
      the children of an error root: "the worst outcome is a tree
      dominated by error nodes". *)
Fixpoint ts_parser_recover (fuel : nat)
    (stack : list (TSStateId * list SyntaxTree))
    (pos : nat) (chars : list Z) (lookahead : option lex_result)
    (missing : option TSSymbol) : SyntaxTree :=
  match fuel with
  | O => error_root stack pos chars
  | S fuel' =>
      let state := top_entry stack in
      match missing, next_token state pos chars lookahead with
      | Some x, _ =>
          match select_action (ts_language_actions state x) with
          | Some (SHIFT next) | Some (SHIFT_REPEAT next) =>
              ts_parser_recover fuel' ((next, [SMissing x pos]) :: stack)
                pos chars lookahead None
          | Some (REDUCE lhs child_count _ production_id) =>
              match pop_entries child_count stack [] with
              | Some (children, stack') =>
                  let next := ts_language_lookup (top_entry stack') lhs in
                  ts_parser_recover fuel'
                    ((next, [SNode lhs production_id children]) :: stack')
                    pos chars lookahead (Some x)
              | None => error_root stack pos chars
              end
          | _ => ts_parser_recover fuel' stack pos chars lookahead None
          end
      | None, NoToken =>
          match unmatched_length (ts_lex_modes state) chars with
          | O => error_root stack pos chars
          | S n =>
              ts_parser_recover fuel'
                (drop_error (SErrorLeaf 0 pos (pos + S n)) stack)
                (pos + S n) (skipn (S n) chars) None None
          end
      | None, Token symbol start_byte end_byte rest =>
          let padding := (start_byte - pos)%nat in
          let leaf := SLeaf symbol padding start_byte end_byte in
          let token := Some (Token symbol start_byte end_byte rest) in
          match select_action (ts_language_actions state symbol) with
          | Some (SHIFT next) | Some (SHIFT_REPEAT next) =>
              ts_parser_recover fuel' ((next, [leaf]) :: stack)
                end_byte rest None None
          | Some (REDUCE lhs child_count _ production_id) =>
              match pop_entries child_count stack [] with
              | Some (children, stack') =>
                  let next := ts_language_lookup (top_entry stack') lhs in
                  ts_parser_recover fuel'
                    ((next, [SNode lhs production_id children]) :: stack')
                    pos chars token None
              | None => error_root stack pos chars
              end
          | Some ACCEPT_INPUT =>
              match stack with
              | [(_, root :: after); (_, before)] =>
                  if symbol_eqb symbol ts_builtin_sym_end
                  then close_tree before root after leaf
                  else error_root stack pos chars
              | _ => error_root stack pos chars
              end
          | Some RECOVER | None =>
              match missing_construct (map fst stack) symbol with
              | Some x =>
                  if is_terminal x then
                    ts_parser_recover fuel' stack pos chars token (Some x)
                  else
                    ts_parser_recover fuel'
                      ((ts_language_lookup state x, [SMissing x pos])
                         :: stack)
                      pos chars token None
              | None =>
                  if symbol_eqb symbol ts_builtin_sym_end
                  then SError (stack_trees stack ++ [leaf])
                  else
                    ts_parser_recover fuel'
                      (drop_error (SErrorLeaf padding start_byte end_byte)
                         stack)
                      end_byte rest None None
              end
          end
      end
  end.

(** [parse(source_text)], total. *)
Definition parse_tree (input : list Z) : SyntaxTree :=
  ts_parser_recover (parse_fuel input) [(1, [])] 0 input None None.

(** The stack of [ts_parser_loop] as a stack of [ts_parser_recover]: one
    tree in each entry, over the bottom entry. *)
Definition syntax_stack (stack : list (TSStateId * Tree))
  : list (TSStateId * list SyntaxTree) :=
  map (fun entry => (fst entry, [syntax_tree (snd entry)])) stack
  ++ [(1, [])].

(** *** Coverage of the input by the leaves *)

(** The leaves the stack holds, in source order. *)
Definition stack_leaves (stack : list (TSStateId * list SyntaxTree))
  : list (option TSSymbol * nat * nat * nat) :=
  flat_map syntax_leaves (stack_trees stack).

(** What the builder keeps true of its configuration on [input]: the
    leaves of the stack are the start of a run of tokens that goes on at
    the cursor. *)
Definition builder_ok (input : list Z)
    (stack : list (TSStateId * list SyntaxTree))
    (pos : nat) (chars : list Z) (lookahead : option lex_result) : Prop :=
  (forall l, token_run input pos l ->
             token_run input 0 (stack_leaves stack ++ l))
  /\ (pos <= length input)%nat
  /\ chars = skipn pos input
  /\ (forall t, lookahead = Some t ->
        exists s, s <> 40 /\ ts_lex s pos chars = Some t).

(** * Proofs *)

(** ** Facts about the automaton, state by state *)

(** At the end of the input a state ends the scan or goes to state 40,
    which ends it. *)
Lemma eof_next (s : Z) :
  snd (ts_lex_state s 0 true) = END_STATE
  \/ snd (ts_lex_state s 0 true) = ADVANCE 40.
Proof.
  each_state s; vm_compute; auto.
Qed.

Lemma state_40 (c : Z) (eof : bool) :
  ts_lex_state 40 c eof = (Some ts_builtin_sym_end, END_STATE).
Proof. reflexivity. Qed.

(** Only whitespace is skipped. *)
Lemma skip_is_space (s c : Z) (eof : bool) (s' : Z) :
  snd (ts_lex_state s c eof) = SKIP s' -> is_space c = true.
Proof.
  unfold is_space.
  each_state s; open_state; cbv [snd]; split_ifs; try discriminate; auto;
    intros _; decide_chars.
Qed.

(** ** The scanning loop *)

Lemma lex_loop_total (chars : list Z) :
  forall fuel s pos st mk,
    (S (S (length chars)) <= fuel)%nat ->
    exists r, lex_loop fuel s pos chars st mk = Some r.
Proof.
  induction chars as [|c chars IH]; intros fuel s pos st mk Hf;
    (destruct fuel as [|fuel]; [simpl in Hf; lia|]); simpl in Hf; simpl lex_loop.
  - destruct (eof_next s) as [E|E];
      destruct (ts_lex_state s 0 true) as [acc act]; simpl in E; subst act.
    + eauto.
    + simpl. destruct fuel as [|fuel]; [lia|]. simpl. eauto.
  - destruct (ts_lex_state s c false) as [acc [s'|s'|]]; simpl;
      try (apply IH; lia); eauto.
Qed.

Lemma lex_loop_shift (p : nat) :
  forall fuel s pos chars st mk,
    lex_loop fuel s (p + pos) chars (p + st) (shift_mark p mk)
    = option_map (shift_result p) (lex_loop fuel s pos chars st mk).
Proof.
  induction fuel as [|fuel IH]; intros s pos chars st mk; [reflexivity|].
  simpl lex_loop.
  destruct (ts_lex_state s (hd 0 chars) (at_eof chars)) as [acc act].
  assert (Hm : mark acc (p + pos) chars (shift_mark p mk)
               = shift_mark p (mark acc pos chars mk))
    by (destruct acc; reflexivity).
  rewrite Hm.
  assert (Ha : advance (p + pos) chars
               = (p + fst (advance pos chars), snd (advance pos chars))%nat).
  { destruct chars; simpl; [reflexivity|]. f_equal. lia. }
  rewrite Ha. destruct (advance pos chars) as [pos' chars']. simpl fst; simpl snd.
  destruct act as [s'|s'|].
  - apply IH.
  - apply IH.
  - simpl. f_equal.
    destruct (mark acc pos chars mk) as [[[sym e] r]|]; simpl; [|reflexivity].
    now rewrite Nat.add_min_distr_l.
Qed.

Lemma ts_lex_shift (s : Z) (p : nat) (chars : list Z) :
  ts_lex s p chars = option_map (shift_result p) (ts_lex s 0 chars).
Proof.
  unfold ts_lex.
  rewrite <- (lex_loop_shift p _ s 0%nat chars 0%nat None).
  simpl shift_mark. now rewrite Nat.add_0_r.
Qed.

Lemma lex_loop_scan (chars : list Z) :
  forall pre s pos st mk s' pos' st' mk' fuel,
    scan s pre pos st mk = Some (s', pos', st', mk') ->
    lex_loop (length pre + fuel) s pos (pre ++ chars) st (extend chars mk)
    = lex_loop fuel s' pos' chars st' (extend chars mk').
Proof.
  induction pre as [|c pre IH]; intros s pos st mk s' pos' st' mk' fuel H.
  - simpl in H. injection H as -> -> -> ->. reflexivity.
  - simpl in H. simpl.
    destruct (ts_lex_state s c false) as [acc act].
    assert (Hm : mark acc pos (c :: pre ++ chars) (extend chars mk)
                 = extend chars (mark acc pos (c :: pre) mk))
      by (destruct acc; reflexivity).
    rewrite Hm.
    destruct act as [s1|s1|]; [| |discriminate]; now apply IH.
Qed.

(** A token spelled by a fixed text [lit] whose last state accepts and
    has no way out is found whatever follows. *)
Lemma ts_lex_literal (s : Z) (lit : list Z) (s' : Z) (st' : nat)
    (mk' : option (TSSymbol * nat * list Z)) (sym : TSSymbol) :
  scan s lit 0 0 None = Some (s', length lit, st', mk') ->
  (forall c eof, ts_lex_state s' c eof = (Some sym, END_STATE)) ->
  forall p chars,
    ts_lex s p (lit ++ chars)
    = Some (Token sym (p + Nat.min st' (length lit)) (p + length lit) chars).
Proof.
  intros Hscan Hend p chars.
  rewrite ts_lex_shift. unfold ts_lex.
  rewrite length_app.
  change (S (S (length lit + length chars)))
    with (S (S (length lit + length chars))).
  replace (S (S (length lit + length chars)))
    with (length lit + S (S (length chars)))%nat by lia.
  rewrite (lex_loop_scan chars lit s 0%nat 0%nat None _ _ _ _ _ Hscan).
  simpl lex_loop. rewrite Hend. reflexivity.
Qed.

(** *** Invariants of a scan *)

Lemma hd_skipn (l : list Z) (k : nat) : hd 0 (skipn k l) = nth k l 0.
Proof.
  revert k; induction l as [|a l IH]; intros [|k]; simpl; auto.
Qed.

Lemma at_eof_skipn (l : list Z) (k : nat) :
  at_eof (skipn k l) = (length l <=? k)%nat.
Proof.
  revert k; induction l as [|a l IH]; intros [|k]; simpl; auto.
Qed.

Lemma skipn_S_tl (l : list Z) (k : nat) : skipn (S k) l = tl (skipn k l).
Proof.
  revert k; induction l as [|a l IH]; intros [|k]; simpl; auto.
  now rewrite <- IH.
Qed.

Lemma advance_skipn (l : list Z) (k : nat) :
  advance k (skipn k l) = (next_pos l k, skipn (next_pos l k) l).
Proof.
  unfold next_pos, ended. rewrite <- at_eof_skipn.
  destruct (skipn k l) as [|a r] eqn:E; cbn [advance at_eof].
  - now rewrite E.
  - now rewrite skipn_S_tl, E.
Qed.

Lemma next_pos_le (l : list Z) (k : nat) :
  (k <= length l)%nat -> (next_pos l k <= length l)%nat.
Proof.
  unfold next_pos, ended. destruct (Nat.leb_spec (length l) k); lia.
Qed.

Section Invariant.

Variable chars0 : list Z.
Variable P : Z -> nat -> nat -> option (TSSymbol * nat) -> Prop.

Hypothesis P_advance :
  forall s k st mk acc s',
    (k <= length chars0)%nat -> P s k st mk ->
    ts_lex_state s (look chars0 k) (ended chars0 k) = (acc, ADVANCE s') ->
    P s' (next_pos chars0 k) st (mark_at acc k mk).

Hypothesis P_skip :
  forall s k st mk acc s',
    (k <= length chars0)%nat -> P s k st mk ->
    ts_lex_state s (look chars0 k) (ended chars0 k) = (acc, SKIP s') ->
    P s' (next_pos chars0 k) (next_pos chars0 k) (mark_at acc k mk).

(** The scan ends in a configuration the invariant holds of. *)
Lemma lex_loop_invariant :
  forall fuel s k st mk r,
    (k <= length chars0)%nat -> P s k st mk ->
    lex_loop fuel s k (skipn k chars0) st (abs_mark chars0 mk) = Some r ->
    exists s' k' st' mk' acc,
      (k' <= length chars0)%nat /\ P s' k' st' mk'
      /\ ts_lex_state s' (look chars0 k') (ended chars0 k')
         = (acc, END_STATE)
      /\ r = finish st' (abs_mark chars0 (mark_at acc k' mk')).
Proof.
  induction fuel as [|fuel IH]; intros s k st mk r Hk HP H; [discriminate|].
  simpl lex_loop in H.
  rewrite hd_skipn, at_eof_skipn in H.
  change (nth k chars0 0) with (look chars0 k) in H.
  change (length chars0 <=? k)%nat with (ended chars0 k) in H.
  destruct (ts_lex_state s (look chars0 k) (ended chars0 k))
    as [acc act] eqn:E.
  assert (Hm : mark acc k (skipn k chars0) (abs_mark chars0 mk)
               = abs_mark chars0 (mark_at acc k mk))
    by (destruct acc; reflexivity).
  rewrite Hm, advance_skipn in H.
  destruct act as [s'|s'|].
  - eapply IH; [| |exact H]; [now apply next_pos_le|].
    eapply P_advance; eauto.
  - eapply IH; [| |exact H]; [now apply next_pos_le|].
    eapply P_skip; eauto.
  - injection H as <-. exists s, k, st, mk, acc. auto.
Qed.

End Invariant.

(** Facts the well-formedness of a scan rests on. *)
Lemma into_skipping_state (s c : Z) (eof : bool) (s' : Z) :
  snd (ts_lex_state s c eof) = ADVANCE s'
  \/ snd (ts_lex_state s c eof) = SKIP s' ->
  skipping_state s' = true ->
  skipping_state s = true /\ is_space c = true.
Proof.
  unfold is_space.
  each_state s; open_state; cbv [snd]; split_ifs;
    (intros [H|H]; try discriminate H; injection H as <-);
    try discriminate; intros _; split; try reflexivity; decide_chars.
Qed.

Lemma into_state_40 (s c : Z) (eof : bool) :
  snd (ts_lex_state s c eof) = ADVANCE 40
  \/ snd (ts_lex_state s c eof) = SKIP 40 -> eof = true.
Proof.
  each_state s; open_state; cbv [snd]; split_ifs;
    (intros [H|H]; try discriminate H); reflexivity.
Qed.

Lemma accepts_end (s c : Z) (eof : bool) :
  fst (ts_lex_state s c eof) = Some ts_builtin_sym_end -> s = 40.
Proof.
  each_state s; open_state; cbv [fst]; intros H; try discriminate H;
    reflexivity.
Qed.

Lemma skip_target (s c : Z) (eof : bool) (s' : Z) :
  snd (ts_lex_state s c eof) = SKIP s' -> skipping_state s' = true.
Proof.
  each_state s; open_state; cbv [snd]; split_ifs; intros H;
    try discriminate H; injection H as <-; reflexivity.
Qed.

Lemma next_pos_ge (l : list Z) (k : nat) : (k <= next_pos l k)%nat.
Proof. unfold next_pos. destruct (ended l k); lia. Qed.

Lemma next_pos_cases (l : list Z) (k : nat) :
  (ended l k = true /\ next_pos l k = k)
  \/ (ended l k = false /\ next_pos l k = S k).
Proof. unfold next_pos. destruct (ended l k); auto. Qed.

Lemma scan_wf_step (chars0 : list Z) (s : Z) (k st : nat)
    (mk : option (TSSymbol * nat)) (acc : option TSSymbol)
    (act : lex_action) (s' : Z) :
  scan_wf chars0 s k st mk ->
  ts_lex_state s (look chars0 k) (ended chars0 k) = (acc, act) ->
  (act = ADVANCE s' ->
   scan_wf chars0 s' (next_pos chars0 k) st (mark_at acc k mk))
  /\ (act = SKIP s' ->
      scan_wf chars0 s' (next_pos chars0 k) (next_pos chars0 k)
        (mark_at acc k mk)).
Proof.
  intros (H1 & H2 & H3 & H4 & H5) E.
  pose proof (next_pos_ge chars0 k) as Hge.
  assert (Hmk : forall sym e, mark_at acc k mk = Some (sym, e) ->
            (e <= next_pos chars0 k)%nat
            /\ (sym = ts_builtin_sym_end -> ended chars0 e = true)).
  { intros sym e Hm. destruct acc as [a|]; simpl in Hm.
    - injection Hm as -> ->. split; [lia|]. intros ->.
      apply H4. eapply accepts_end. rewrite E. reflexivity.
    - destruct (H5 _ _ Hm). split; [lia|assumption]. }
  assert (Hsk : (act = ADVANCE s' \/ act = SKIP s') ->
            skipping_state s' = true ->
            forall i, (i < next_pos chars0 k)%nat ->
                      is_space (look chars0 i) = true).
  { intros Ha Hs i Hi.
    destruct (into_skipping_state s (look chars0 k) (ended chars0 k) s')
      as [Hs0 Hc]; [rewrite E; simpl; destruct Ha; subst; auto|assumption|].
    destruct (next_pos_cases chars0 k) as [[_ Hn]|[_ Hn]]; rewrite Hn in Hi.
    - now apply H3.
    - destruct (Nat.eq_dec i k) as [->|]; [assumption|apply H3; auto; lia]. }
  assert (H40 : (act = ADVANCE s' \/ act = SKIP s') -> s' = 40 ->
            ended chars0 (next_pos chars0 k) = true).
  { intros Ha ->.
    assert (He : ended chars0 k = true).
    { eapply into_state_40. rewrite E. simpl. destruct Ha; subst; eauto. }
    unfold next_pos. now rewrite He. }
  split; intros ->.
  - refine (conj _ (conj H2 (conj _ (conj _ Hmk)))); auto; lia.
  - assert (Hs : skipping_state s' = true)
      by (eapply skip_target; rewrite E; reflexivity).
    refine (conj _ (conj _ (conj _ (conj _ Hmk)))); auto.
Qed.

Lemma ts_lex_wf_from (s : Z) (pos : nat) (chars : list Z)
    (sym : TSSymbol) (a b : nat) (rest : list Z) :
  s <> 40 ->
  ts_lex s pos chars = Some (Token sym a b rest) ->
  (pos <= a)%nat /\ (a <= b)%nat /\ (b <= pos + length chars)%nat
  /\ rest = skipn (b - pos) chars
  /\ (forall i, (i < a - pos)%nat -> is_space (nth i chars 0) = true)
  /\ (sym = ts_builtin_sym_end -> b = (pos + length chars)%nat).
Proof.
  intros Hs40.
  rewrite ts_lex_shift. unfold ts_lex.
  destruct (lex_loop (S (S (length chars))) s 0 chars 0 None) as [r|] eqn:E;
    [|discriminate].
  change chars with (skipn 0 chars) in E at 2.
  change (@None (TSSymbol * nat * list Z)) with (abs_mark chars None) in E.
  assert (Hadv : forall s0 k st mk acc0 s1,
             (k <= length chars)%nat -> scan_wf chars s0 k st mk ->
             ts_lex_state s0 (look chars k) (ended chars k)
             = (acc0, ADVANCE s1) ->
             scan_wf chars s1 (next_pos chars k) st (mark_at acc0 k mk)).
  { intros s0 k st mk acc0 s1 _ HP E0.
    now apply (scan_wf_step chars s0 k st mk acc0 (ADVANCE s1) s1 HP E0). }
  assert (Hskip : forall s0 k st mk acc0 s1,
             (k <= length chars)%nat -> scan_wf chars s0 k st mk ->
             ts_lex_state s0 (look chars k) (ended chars k)
             = (acc0, SKIP s1) ->
             scan_wf chars s1 (next_pos chars k) (next_pos chars k)
               (mark_at acc0 k mk)).
  { intros s0 k st mk acc0 s1 _ HP E0.
    now apply (scan_wf_step chars s0 k st mk acc0 (SKIP s1) s1 HP E0). }
  assert (H0 : scan_wf chars s 0 0 None).
  { refine (conj _ (conj _ (conj _ (conj _ _))));
      intros; try lia; try discriminate; contradiction. }
  destruct (lex_loop_invariant chars (scan_wf chars) Hadv Hskip
              _ _ _ _ _ _ (Nat.le_0_l _) H0 E)
    as (s' & k' & st' & mk' & acc & Hk & HP & Hend & ->).
  destruct HP as (H1 & H2 & H3 & H4 & H5).
  assert (Hmk : forall sy e, mark_at acc k' mk' = Some (sy, e) ->
            (e <= k')%nat
            /\ (sy = ts_builtin_sym_end -> ended chars e = true)).
  { intros sy e Hm. destruct acc as [x|]; simpl in Hm.
    - injection Hm as -> ->. split; [lia|]. intros ->.
      apply H4. eapply accepts_end. rewrite Hend. reflexivity.
    - now apply H5. }
  destruct (mark_at acc k' mk') as [[sy e]|]; simpl; [|discriminate].
  destruct (Hmk sy e eq_refl) as [He Heof].
  intros H. injection H as <- <- <- <-.
  refine (conj _ (conj _ (conj _ (conj _ (conj _ _))))); try lia.
  - f_equal. lia.
  - intros i Hi. apply H2. lia.
  - intros Hs. apply Heof in Hs. unfold ended in Hs.
    apply Nat.leb_le in Hs. lia.
Qed.

(** Every token [ts_lex] returns lies ahead of the cursor, inside the
    text; what lies between the cursor and its start is whitespace; and
    the cursor it leaves is the text after its end. *)
Lemma ts_lex_wf (s : Z) (pos : nat) (chars : list Z)
    (sym : TSSymbol) (a b : nat) (rest : list Z) :
  ts_lex s pos chars = Some (Token sym a b rest) ->
  (pos <= a)%nat /\ (a <= b)%nat /\ (b <= pos + length chars)%nat
  /\ rest = skipn (b - pos) chars
  /\ (forall i, (i < a - pos)%nat -> is_space (nth i chars 0) = true).
Proof.
  destruct (Z.eq_dec s 40) as [->|Hs].
  - rewrite ts_lex_shift. unfold ts_lex. simpl.
    intros H. injection H as <- <- <- <-.
    rewrite !Nat.add_0_r, Nat.sub_diag. simpl.
    refine (conj _ (conj _ (conj _ (conj _ _)))); intros; try lia; auto.
  - intros H. destruct (ts_lex_wf_from _ _ _ _ _ _ _ Hs H)
      as (H1 & H2 & H3 & H4 & H5 & _). auto.
Qed.

(** [ts_lex] always returns. *)
Lemma ts_lex_total (s : Z) (pos : nat) (chars : list Z) :
  exists r, ts_lex s pos chars = Some r.
Proof. apply lex_loop_total. lia. Qed.

(** ** The syntax builder *)

Lemma ts_lex_modes_not_40 (state : TSStateId) : ts_lex_modes state <> 40.
Proof.
  each_state state; cbv [ts_lex_modes]; discriminate.
Qed.

Lemma symbol_eqb_end (sym : TSSymbol) :
  symbol_eqb sym ts_builtin_sym_end = true -> sym = ts_builtin_sym_end.
Proof. destruct sym; intros H; try discriminate H; reflexivity. Qed.

Lemma tiles_app {A : Type} (l1 l2 : list (A * nat * nat * nat)) :
  forall from mid to,
    tiles from l1 mid -> tiles mid l2 to -> tiles from (l1 ++ l2) to.
Proof.
  induction l1 as [|[[[sym pad] a] b] l1 IH]; intros from mid to H1 H2;
    simpl in *.
  - now subst.
  - destruct H1 as (Ha & Hb & H1). eauto.
Qed.

Lemma firstn_plus (l : list Z) (n m : nat) :
  firstn (n + m) l = firstn n l ++ firstn m (skipn n l).
Proof.
  revert l; induction n as [|n IH]; intros [|a l]; simpl; auto.
  - now rewrite firstn_nil.
  - now rewrite IH.
Qed.

Lemma span_text_app (input : list Z) (a b c : nat) :
  (a <= b)%nat -> (b <= c)%nat ->
  span_text input a b ++ span_text input b c = span_text input a c.
Proof.
  intros Hab Hbc. unfold span_text.
  replace (c - a)%nat with ((b - a) + (c - b))%nat by lia.
  rewrite firstn_plus. f_equal.
  rewrite skipn_skipn. do 2 f_equal. lia.
Qed.

Lemma tiles_le {A : Type} (l : list (A * nat * nat * nat)) :
  forall from to, tiles from l to -> (from <= to)%nat.
Proof.
  induction l as [|[[[sym pad] a] b] l IH]; intros from to H; simpl in H.
  - lia.
  - destruct H as (Ha & Hb & H). apply IH in H. lia.
Qed.

Lemma tiles_padded_concat {A : Type} (input : list Z)
    (l : list (A * nat * nat * nat)) :
  forall from to,
    tiles from l to ->
    padded_concat input l = span_text input from to.
Proof.
  induction l as [|[[[sym pad] a] b] l IH]; intros from to H; simpl in H.
  - subst. unfold span_text. now rewrite Nat.sub_diag.
  - destruct H as (Ha & Hb & H). unfold padded_concat in *. simpl.
    rewrite (IH _ _ H).
    replace (a - pad)%nat with from by lia.
    apply span_text_app; [lia|]. now apply tiles_le in H.
Qed.

Lemma span_text_all (input : list Z) :
  span_text input 0 (length input) = input.
Proof.
  unfold span_text. simpl. rewrite Nat.sub_0_r. apply firstn_all.
Qed.

Lemma parse_unfold (input : list Z) :
  parse input = ts_parser_loop (parse_fuel input) [] 0 input None.
Proof. reflexivity. Qed.

(** ** Tokens that run over a class of characters *)

Lemma lex_loop_advance (fuel : nat) (s c : Z) (pos : nat) (chars : list Z)
    (st : nat) (mk : option (TSSymbol * nat * list Z))
    (acc : option TSSymbol) (s' : Z) :
  ts_lex_state s c false = (acc, ADVANCE s') ->
  lex_loop (S fuel) s pos (c :: chars) st mk
  = lex_loop fuel s' (S pos) chars st (mark acc pos (c :: chars) mk).
Proof. intros H. simpl. now rewrite H. Qed.

Lemma lex_loop_end (fuel : nat) (s : Z) (pos : nat) (chars : list Z)
    (st : nat) (mk : option (TSSymbol * nat * list Z))
    (acc : option TSSymbol) :
  ts_lex_state s (hd 0 chars) (at_eof chars) = (acc, END_STATE) ->
  lex_loop (S fuel) s pos chars st mk
  = Some (finish st (mark acc pos chars mk)).
Proof. intros H. simpl. now rewrite H. Qed.

(** What [ts_lex] does after a known prefix. *)
Lemma ts_lex_prefix (s : Z) (pre : list Z) (s1 : Z) (st1 : nat)
    (mk1 : option (TSSymbol * nat * list Z)) (p : nat) (chars : list Z) :
  scan s pre 0 0 None = Some (s1, length pre, st1, mk1) ->
  ts_lex s p (pre ++ chars)
  = option_map (shift_result p)
      (lex_loop (S (S (length chars))) s1 (length pre) chars st1
         (extend chars mk1)).
Proof.
  intros Hscan. rewrite ts_lex_shift. unfold ts_lex. f_equal.
  rewrite length_app.
  replace (S (S (length pre + length chars)))
    with (length pre + S (S (length chars)))%nat by lia.
  exact (lex_loop_scan chars pre s 0%nat 0%nat None _ _ _ _ _ Hscan).
Qed.

Lemma state_77 (c : Z) (eof : bool) :
  ts_lex_state 77 c eof
  = (Some sym_path, if is_path_char c then ADVANCE 77 else END_STATE).
Proof. reflexivity. Qed.

(** State 77 runs over the characters of a path and stops at the first
    that is none. *)
Lemma path_run (body : list Z) :
  forall chars fuel pos st mk,
    Forall (fun c => is_path_char c = true) body ->
    is_path_char (hd 0 chars) = false ->
    (length body < fuel)%nat ->
    lex_loop fuel 77 pos (body ++ chars) st mk
    = Some (finish st (Some (sym_path, (pos + length body)%nat, chars))).
Proof.
  induction body as [|c body IH]; intros chars fuel pos st mk Hb Hc Hf;
    (destruct fuel as [|fuel]; [simpl in Hf; lia|]).
  - simpl app. erewrite lex_loop_end; [|rewrite state_77, Hc; reflexivity].
    simpl. now rewrite Nat.add_0_r.
  - inversion Hb as [|? ? Hc0 Hb']; subst.
    simpl app. erewrite lex_loop_advance; [|rewrite state_77, Hc0; reflexivity].
    rewrite IH; auto; [|simpl in Hf; lia].
    simpl length. now rewrite Nat.add_succ_comm.
Qed.

(** The same from a state that has just spelled a keyword or the start of
    one: one more path character makes the token a path. *)
Lemma path_run_from (s : Z) (acc : option TSSymbol) (body : list Z) :
  (forall c, is_path_char c = true ->
             ts_lex_state s c false = (acc, ADVANCE 77)) ->
  forall chars fuel pos st mk,
    body <> [] ->
    Forall (fun c => is_path_char c = true) body ->
    is_path_char (hd 0 chars) = false ->
    (length body < fuel)%nat ->
    lex_loop fuel s pos (body ++ chars) st mk
    = Some (finish st (Some (sym_path, (pos + length body)%nat, chars))).
Proof.
  intros Hs chars fuel pos st mk Hne Hb Hc Hf.
  destruct body as [|c body]; [congruence|].
  destruct fuel as [|fuel]; [simpl in Hf; lia|].
  inversion Hb as [|? ? Hc0 Hb']; subst.
  simpl app. erewrite lex_loop_advance; [|apply Hs, Hc0].
  rewrite path_run; auto; [|simpl in Hf; lia].
  simpl length. now rewrite Nat.add_succ_comm.
Qed.

(** ** Keywords and paths *)

(** A state that accepts a keyword goes on to state 77 on a path
    character and ends the scan on any other. *)
Lemma keyword_accept (s c : Z) (eof : bool) (sym : TSSymbol) :
  fst (ts_lex_state s c eof) = Some sym ->
  is_keyword sym = true ->
  snd (ts_lex_state s c eof)
  = if is_path_char c then ADVANCE 77 else END_STATE.
Proof.
  each_state s; open_state; cbv [fst snd]; intros H; try discriminate H;
    injection H as <-; intros K; try discriminate K; reflexivity.
Qed.

Lemma keyword_then_not_path (s : Z) (pos : nat) (chars : list Z)
    (sym : TSSymbol) (a b : nat) (rest : list Z) :
  ts_lex s pos chars = Some (Token sym a b rest) ->
  is_keyword sym = true ->
  is_path_char (hd 0 rest) = false.
Proof.
  rewrite ts_lex_shift. unfold ts_lex.
  destruct (lex_loop (S (S (length chars))) s 0 chars 0 None) as [r|] eqn:E;
    [|discriminate].
  change chars with (skipn 0 chars) in E at 2.
  change (@None (TSSymbol * nat * list Z)) with (abs_mark chars None) in E.
  set (P := fun (s : Z) (k st : nat) (mk : option (TSSymbol * nat)) =>
              forall sy e, mk = Some (sy, e) -> is_keyword sy = true ->
                           s = 77).
  assert (Hstep : forall s0 k mk acc0 act sy e,
             P s0 k 0%nat mk ->
             ts_lex_state s0 (look chars k) (ended chars k) = (acc0, act) ->
             mark_at acc0 k mk = Some (sy, e) -> is_keyword sy = true ->
             e = k
             /\ act = if is_path_char (look chars k) then ADVANCE 77
                      else END_STATE).
  { intros s0 k mk acc0 act sy e HP E0 Hm K.
    destruct acc0 as [x|]; simpl in Hm.
    - injection Hm as Hx He. subst x e. split; [reflexivity|].
      rewrite <- (keyword_accept s0 (look chars k) (ended chars k) sy);
        auto; now rewrite E0.
    - rewrite (HP _ _ Hm K), state_77 in E0. discriminate E0. }
  assert (Hadv : forall s0 k st mk acc0 s1,
             (k <= length chars)%nat -> P s0 k st mk ->
             ts_lex_state s0 (look chars k) (ended chars k)
             = (acc0, ADVANCE s1) ->
             P s1 (next_pos chars k) st (mark_at acc0 k mk)).
  { intros s0 k st mk acc0 s1 _ HP E0 sy e Hm K.
    destruct (Hstep s0 k mk acc0 _ sy e HP E0 Hm K) as [_ Ha].
    destruct (is_path_char (look chars k)); congruence. }
  assert (Hskip : forall s0 k st mk acc0 s1,
             (k <= length chars)%nat -> P s0 k st mk ->
             ts_lex_state s0 (look chars k) (ended chars k)
             = (acc0, SKIP s1) ->
             P s1 (next_pos chars k) (next_pos chars k)
               (mark_at acc0 k mk)).
  { intros s0 k st mk acc0 s1 _ HP E0 sy e Hm K.
    destruct (Hstep s0 k mk acc0 _ sy e HP E0 Hm K) as [_ Ha].
    destruct (is_path_char (look chars k)); discriminate. }
  assert (H0 : P s 0%nat 0%nat None) by (intros sy e Hm; discriminate Hm).
  destruct (lex_loop_invariant chars P Hadv Hskip
              _ _ _ _ _ _ (Nat.le_0_l _) H0 E)
    as (s' & k' & st' & mk' & acc & Hk & HP & Hend & ->).
  destruct (mark_at acc k' mk') as [[sy e]|] eqn:Hm; simpl; [|discriminate].
  intros H K. injection H as <- <- <- <-.
  destruct (Hstep s' k' mk' acc _ sy e HP Hend Hm K) as [-> Ha].
  rewrite hd_skipn. change (nth k' chars 0) with (look chars k').
  destruct (is_path_char (look chars k')); [discriminate|reflexivity].
Qed.

Ltac knows_path_char :=
  let c := fresh "c" in
  let Hc := fresh "Hc" in
  intros c Hc; open_state; unfold is_path_char in Hc; rewrite Hc;
  reflexivity.

(** An identifier that starts with [true], [false] or [else] is one path
    token in every mode that reads identifiers. *)
Lemma keyword_prefix_is_path (s : Z) (kw tail rest : list Z) (pos : nat) :
  In s [0; 3; 16; 29] ->
  In kw [codes "true"; codes "false"; codes "else"] ->
  tail <> [] ->
  Forall (fun c => is_path_char c = true) tail ->
  is_path_char (hd 0 rest) = false ->
  ts_lex s pos (kw ++ tail ++ rest)
  = Some (Token sym_path pos (pos + (length kw + length tail)) rest).
Proof.
  intros Hs Hkw Hne Ht Hr.
  assert (Hf : (length tail < S (S (length (tail ++ rest))))%nat)
    by (rewrite length_app; lia).
  simpl in Hs, Hkw.
  destruct Hs as [<-|[<-|[<-|[<-|[]]]]];
    destruct Hkw as [<-|[<-|[<-|[]]]];
    (erewrite ts_lex_prefix; [|reflexivity]);
    (erewrite path_run_from; [| knows_path_char | assumption ..]);
    simpl; now rewrite Nat.add_0_r.
Qed.

(** A name, in the mode that reads only names (lex state 29). *)
Lemma name_token (c : Z) (body rest : list Z) (pos : nat) :
  is_ident_start c = true ->
  Forall (fun c => is_path_char c = true) body ->
  is_path_char (hd 0 rest) = false ->
  ts_lex 29 pos ((c :: body) ++ rest)
  = Some (Token sym_path pos (pos + S (length body)) rest).
Proof.
  intros Hc Hb Hr.
  rewrite ts_lex_shift. unfold ts_lex. simpl app. simpl length.
  erewrite lex_loop_advance.
  2:{ open_state. unfold is_ident_start in Hc.
      replace ((9 <=? c) && (c <=? 13) || (c =? 32)) with false
        by (symmetry; decide_chars).
      rewrite Hc. reflexivity. }
  rewrite path_run; auto; [|rewrite length_app; lia].
  simpl. now rewrite Nat.add_0_r.
Qed.

(** ** Running the builder step by step *)

Lemma builder_shift (fuel : nat) (stack : list (TSStateId * Tree))
    (pos : nat) (chars : list Z) (sym : TSSymbol) (a b : nat)
    (rest : list Z) (next : TSStateId) :
  ts_lex (ts_lex_modes (top_state stack)) pos chars
  = Some (Token sym a b rest) ->
  select_action (ts_language_actions (top_state stack) sym)
  = Some (SHIFT next) ->
  ts_parser_loop (S fuel) stack pos chars None
  = ts_parser_loop fuel ((next, Leaf sym (a - pos) a b) :: stack) b rest None.
Proof. intros Hl Ha. simpl. now rewrite Hl, Ha. Qed.

Lemma builder_lex_reduce (fuel : nat) (stack : list (TSStateId * Tree))
    (pos : nat) (chars : list Z) (tok : lex_result) (sym : TSSymbol)
    (a b : nat) (rest : list Z) (lhs : TSSymbol) (n : nat) (dp pid : Z)
    (children : list Tree) (stack' : list (TSStateId * Tree)) :
  ts_lex (ts_lex_modes (top_state stack)) pos chars = Some tok ->
  tok = Token sym a b rest ->
  select_action (ts_language_actions (top_state stack) sym)
  = Some (REDUCE lhs n dp pid) ->
  pop n stack [] = Some (children, stack') ->
  ts_parser_loop (S fuel) stack pos chars None
  = ts_parser_loop fuel
      ((ts_language_lookup (top_state stack') lhs, Node lhs pid children)
         :: stack') pos chars (Some tok).
Proof. intros Hl -> Ha Hp. simpl. now rewrite Hl, Ha, Hp. Qed.

Lemma builder_reduce (fuel : nat) (stack : list (TSStateId * Tree))
    (pos : nat) (chars : list Z) (sym : TSSymbol)
    (a b : nat) (rest : list Z) (lhs : TSSymbol) (n : nat) (dp pid : Z)
    (children : list Tree) (stack' : list (TSStateId * Tree)) :
  select_action (ts_language_actions (top_state stack) sym)
  = Some (REDUCE lhs n dp pid) ->
  pop n stack [] = Some (children, stack') ->
  ts_parser_loop (S fuel) stack pos chars (Some (Token sym a b rest))
  = ts_parser_loop fuel
      ((ts_language_lookup (top_state stack') lhs, Node lhs pid children)
         :: stack') pos chars (Some (Token sym a b rest)).
Proof. intros Ha Hp. simpl. now rewrite Ha, Hp. Qed.

Lemma builder_shift_pending (fuel : nat) (stack : list (TSStateId * Tree))
    (pos : nat) (chars : list Z) (sym : TSSymbol) (a b : nat)
    (rest : list Z) (next : TSStateId) :
  select_action (ts_language_actions (top_state stack) sym)
  = Some (SHIFT next) ->
  ts_parser_loop (S fuel) stack pos chars (Some (Token sym a b rest))
  = ts_parser_loop fuel ((next, Leaf sym (a - pos) a b) :: stack) b rest None.
Proof. intros Ha. simpl. now rewrite Ha. Qed.

Lemma builder_accept (fuel : nat) (state : TSStateId) (root : Tree)
    (pos : nat) (chars : list Z) (a b : nat) (rest : list Z) :
  select_action (ts_language_actions state ts_builtin_sym_end)
  = Some ACCEPT_INPUT ->
  ts_parser_loop (S fuel) [(state, root)] pos chars
    (Some (Token ts_builtin_sym_end a b rest))
  = Accepted (close_root root (Leaf ts_builtin_sym_end (a - pos) a b)).
Proof. intros Ha. simpl. now rewrite Ha. Qed.

(** More fuel does not change an answer. *)
Lemma ts_parser_loop_more_fuel :
  forall fuel stack pos chars lookahead r,
    ts_parser_loop fuel stack pos chars lookahead = r ->
    r <> OutOfFuel ->
    forall fuel', (fuel <= fuel')%nat ->
                  ts_parser_loop fuel' stack pos chars lookahead = r.
Proof.
  induction fuel as [|fuel IH]; intros stack pos chars lookahead r H Hr
    fuel' Hf; [simpl in H; congruence|].
  destruct fuel' as [|fuel']; [lia|].
  simpl in H |- *.
  destruct (match lookahead with
            | Some t0 => Some t0
            | None => ts_lex (ts_lex_modes (top_state stack)) pos chars
            end) as [[sym a b rest|]|]; auto.
  destruct (select_action (ts_language_actions (top_state stack) sym))
    as [[next|next|lhs n dp pid| |]|]; auto.
  - apply (IH _ _ _ _ _ H Hr). lia.
  - apply (IH _ _ _ _ _ H Hr). lia.
  - destruct (pop n stack []) as [[children stack']|]; auto.
    apply (IH _ _ _ _ _ H Hr). lia.
Qed.

Lemma parse_by_fuel (input : list Z) (fuel : nat) (t : Tree) :
  (fuel <= 64)%nat ->
  ts_parser_loop fuel [] 0 input None = Accepted t ->
  parse input = Accepted t.
Proof.
  intros Hf H. rewrite parse_unfold.
  apply (ts_parser_loop_more_fuel _ _ _ _ _ _ H); [discriminate|].
  unfold parse_fuel. lia.
Qed.

(** The end-of-input token, in the modes of template text. *)
Lemma end_token (s : Z) (pos : nat) :
  s = 37 \/ s = 38 \/ s = 39 ->
  ts_lex s pos [] = Some (Token ts_builtin_sym_end pos pos []).
Proof.
  intros [->|[->| ->]]; rewrite ts_lex_shift; vm_compute;
    now rewrite Nat.add_0_r.
Qed.

(** ** Marker content *)

Lemma marker_step (s c : Z) :
  s = 89 \/ s = 90 ->
  is_marker_char c = true ->
  exists s', (s' = 89 \/ s' = 90)
             /\ ts_lex_state s c false
                = (Some aux_sym_dotprompt_marker_token1, ADVANCE s').
Proof.
  unfold is_marker_char. intros [->| ->] Hc; open_state.
  - destruct ((9 <=? c) && (c <=? 13) || (c =? 32)); [eauto|].
    rewrite Hc. eauto.
  - rewrite Hc. eauto.
Qed.

Lemma marker_stop (s c : Z) (eof : bool) :
  s = 89 \/ s = 90 ->
  is_marker_char c = false ->
  ts_lex_state s c eof = (Some aux_sym_dotprompt_marker_token1, END_STATE).
Proof.
  unfold is_marker_char. intros [->| ->] Hc; open_state; rewrite Hc;
    [|reflexivity].
  replace ((9 <=? c) && (c <=? 13) || (c =? 32)) with false;
    [reflexivity|symmetry; decide_chars].
Qed.

Lemma marker_run (body : list Z) :
  forall chars fuel s pos st mk,
    s = 89 \/ s = 90 ->
    Forall (fun c => is_marker_char c = true) body ->
    is_marker_char (hd 0 chars) = false ->
    (length body < fuel)%nat ->
    lex_loop fuel s pos (body ++ chars) st mk
    = Some (finish st
              (Some (aux_sym_dotprompt_marker_token1,
                     (pos + length body)%nat, chars))).
Proof.
  induction body as [|c body IH]; intros chars fuel s pos st mk Hs Hb Hc Hf;
    (destruct fuel as [|fuel]; [simpl in Hf; lia|]).
  - simpl app. erewrite lex_loop_end; [|now apply marker_stop].
    simpl. now rewrite Nat.add_0_r.
  - inversion Hb as [|? ? Hc0 Hb']; subst.
    destruct (marker_step s c Hs Hc0) as (s' & Hs' & E).
    simpl app. erewrite lex_loop_advance; [|exact E].
    rewrite IH; auto; [|simpl in Hf; lia].
    simpl length. now rewrite Nat.add_succ_comm.
Qed.

(** In marker mode (lex state 30) the content token is the longest run
    of characters other than NUL and ['>'], and it is not empty. *)
Lemma marker_content_token (content rest : list Z) (pos : nat) :
  content <> [] ->
  Forall (fun c => is_marker_char c = true) content ->
  is_marker_char (hd 0 rest) = false ->
  ts_lex 30 pos (content ++ rest)
  = Some (Token aux_sym_dotprompt_marker_token1 pos (pos + length content)
            rest).
Proof.
  intros Hne Hb Hr. destruct content as [|c body]; [congruence|].
  inversion Hb as [|? ? Hc Hb']; subst.
  rewrite ts_lex_shift. unfold ts_lex. simpl app. simpl length.
  assert (E : exists s', (s' = 89 \/ s' = 90)
                         /\ ts_lex_state 30 c false = (None, ADVANCE s')).
  { unfold is_marker_char in Hc. open_state.
    destruct ((9 <=? c) && (c <=? 13) || (c =? 32)); [eauto|].
    rewrite Hc. eauto. }
  destruct E as (s' & Hs' & E).
  erewrite lex_loop_advance; [|exact E].
  rewrite marker_run; auto; [|rewrite length_app; lia].
  simpl. now rewrite Nat.add_0_r.
Qed.

Lemma marker_mode_empty (rest : list Z) (pos : nat) :
  is_marker_char (hd 0 rest) = false ->
  ts_lex 30 pos rest = Some NoToken.
Proof.
  intros Hr. rewrite ts_lex_shift. unfold ts_lex.
  assert (E : ts_lex_state 30 (hd 0 rest) (at_eof rest) = (None, END_STATE)).
  { unfold is_marker_char in Hr. open_state. rewrite Hr.
    replace ((9 <=? hd 0 rest) && (hd 0 rest <=? 13) || (hd 0 rest =? 32))
      with false; [reflexivity|symmetry; decide_chars]. }
  now rewrite (lex_loop_end _ _ _ _ _ _ _ E).
Qed.

Ltac shift_by H :=
  match goal with
  | |- ts_parser_loop (S ?f) ?stack ?pos ?chars None = _ =>
      rewrite (builder_shift f stack pos chars _ _ _ _ _ H eq_refl)
  end.

Ltac lex_reduce_by H :=
  match goal with
  | |- ts_parser_loop (S ?f) ?stack ?pos ?chars None = _ =>
      rewrite (builder_lex_reduce f stack pos chars _ _ _ _ _ _ _ _ _ _ _
                 H eq_refl eq_refl eq_refl)
  end.

Ltac reduce_pending :=
  match goal with
  | |- ts_parser_loop (S ?f) ?stack ?pos ?chars
         (Some (Token ?sym ?a ?b ?rest)) = _ =>
      rewrite (builder_reduce f stack pos chars sym a b rest _ _ _ _ _ _
                 eq_refl eq_refl)
  end.

Ltac shift_pending :=
  match goal with
  | |- ts_parser_loop (S ?f) ?stack ?pos ?chars
         (Some (Token ?sym ?a ?b ?rest)) = _ =>
      rewrite (builder_shift_pending f stack pos chars sym a b rest _
                 eq_refl)
  end.

Ltac accept_pending :=
  match goal with
  | |- ts_parser_loop (S ?f) [(?st, ?root)] ?pos ?chars
         (Some (Token ts_builtin_sym_end ?a ?b ?rest)) = _ =>
      rewrite (builder_accept f st root pos chars a b rest eq_refl)
  end.

Lemma open_marker_token (s : Z) (pos : nat) (rest : list Z) :
  s = 5 \/ s = 37 \/ s = 38 \/ s = 39 ->
  ts_lex s pos (codes "<<<dotprompt:" ++ rest)
  = Some (Token anon_sym_LT_LT_LTdotprompt_COLON pos (pos + 13) rest).
Proof.
  intros Hs.
  assert (H : forall mk,
             scan s (codes "<<<dotprompt:") 0 0 None
             = Some (88, 13%nat, 0%nat, mk) ->
             ts_lex s pos (codes "<<<dotprompt:" ++ rest)
             = Some (Token anon_sym_LT_LT_LTdotprompt_COLON pos (pos + 13)
                       rest)).
  { intros mk Hscan.
    rewrite (ts_lex_literal s (codes "<<<dotprompt:") 88 0 mk
               anon_sym_LT_LT_LTdotprompt_COLON Hscan (fun _ _ => eq_refl)).
    simpl. now rewrite Nat.add_0_r. }
  destruct Hs as [->|[->|[->| ->]]]; eapply H; vm_compute; reflexivity.
Qed.

Lemma close_marker_token (pos : nat) :
  ts_lex 3 pos (codes ">>>")
  = Some (Token anon_sym_GT_GT_GT pos (pos + 3) []).
Proof. rewrite ts_lex_shift. vm_compute. now rewrite Nat.add_0_r. Qed.

(** A token spelled by a fixed text, read without skipping. *)
Lemma literal_token (s : Z) (lit : list Z) (s' : Z)
    (mk : option (TSSymbol * nat * list Z)) (sym : TSSymbol) :
  scan s lit 0 0 None = Some (s', length lit, 0%nat, mk) ->
  (forall c eof, ts_lex_state s' c eof = (Some sym, END_STATE)) ->
  forall pos rest,
    ts_lex s pos (lit ++ rest)
    = Some (Token sym pos (pos + length lit) rest).
Proof.
  intros Hscan Hend pos rest.
  rewrite (ts_lex_literal s lit s' 0 mk sym Hscan Hend).
  simpl. now rewrite Nat.add_0_r.
Qed.

Lemma name_mode_no_braces (pos : nat) (rest : list Z) :
  ts_lex 29 pos (codes "}}" ++ rest) = Some NoToken.
Proof. rewrite ts_lex_shift. reflexivity. Qed.

(** ** Text tokens and ['#'] *)

Lemma text_transition (s c : Z) (eof : bool) (s' : Z) :
  snd (ts_lex_state s c eof) = ADVANCE s'
  \/ snd (ts_lex_state s c eof) = SKIP s' ->
  text_class_of s' <> TextOther ->
  snd (ts_lex_state s c eof) = ADVANCE s'
  /\ c <> 0
  /\ text_step_ok (text_class_of s) (text_class_of s') c = true.
Proof.
  unfold text_step_ok, is_space.
  each_state s; open_state; cbv [snd]; split_ifs;
    (intros [H|H]; try discriminate H; injection H as <-);
    cbv [text_class_of]; intros Hne; try (now elim Hne);
    (split; [reflexivity|split; decide_chars]).
Qed.

Lemma text_accept (s c : Z) (eof : bool) :
  fst (ts_lex_state s c eof) = Some sym_text ->
  text_class_of s <> TextOther.
Proof.
  each_state s; open_state; cbv [fst text_class_of]; intros H;
    try discriminate H; discriminate.
Qed.

Lemma look_ended (chars0 : list Z) (k : nat) :
  ended chars0 k = true -> look chars0 k = 0.
Proof.
  unfold ended, look. intros H. apply Nat.leb_le in H.
  now apply nth_overflow.
Qed.

Lemma space_not_hash (c : Z) : is_space c = true -> c <> 35.
Proof. unfold is_space. intros H. decide_chars. Qed.

Lemma text_inv_marks (chars0 : list Z) (s : Z) (k st : nat)
    (mk : option (TSSymbol * nat)) (acc : option TSSymbol)
    (act : lex_action) :
  text_inv chars0 s k st mk ->
  ts_lex_state s (look chars0 k) (ended chars0 k) = (acc, act) ->
  forall e, mark_at acc k mk = Some (sym_text, e) ->
            (e <= k)%nat /\ hash_last chars0 st e.
Proof.
  intros (Hs & Hh & Hp & Hm) E e Hmk.
  destruct acc as [x|]; simpl in Hmk; [|now apply Hm].
  injection Hmk as Hx He. subst x e. split; [lia|].
  assert (Hc : text_class_of s <> TextOther)
    by (eapply text_accept; rewrite E; reflexivity).
  destruct (text_class_of s) eqn:C; [| | |congruence].
  - split.
    + intros i H1 H2. apply space_not_hash, Hs; auto. lia.
    + intros _ i H1 H2. apply Hs; auto. lia.
  - split.
    + intros i H1 H2. apply space_not_hash, Hh; auto.
    + intros _ i H1 H2. apply Hh; auto.
  - split.
    + intros i H1 H2. apply Hp; auto. lia.
    + intros H i H1 H2. exfalso. apply (Hp eq_refl (k - 1)%nat); auto. lia.
Qed.

Lemma text_inv_advance (chars0 : list Z) (s : Z) (k st : nat)
    (mk : option (TSSymbol * nat)) (acc : option TSSymbol) (s' : Z) :
  text_inv chars0 s k st mk ->
  ts_lex_state s (look chars0 k) (ended chars0 k) = (acc, ADVANCE s') ->
  text_inv chars0 s' (next_pos chars0 k) st (mark_at acc k mk).
Proof.
  intros HP E.
  pose proof (text_inv_marks _ _ _ _ _ _ _ HP E) as Hmk.
  pose proof (next_pos_ge chars0 k) as Hge.
  assert (Hm' : forall e, mark_at acc k mk = Some (sym_text, e) ->
             (e <= next_pos chars0 k)%nat /\ hash_last chars0 st e).
  { intros e He. destruct (Hmk e He). split; [lia|assumption]. }
  destruct HP as (Hs & Hh & Hp & Hm).
  destruct (text_class_of s') eqn:C'.
  4:{ refine (conj _ (conj _ (conj _ Hm'))); intros; congruence. }
  all: destruct (text_transition s (look chars0 k) (ended chars0 k) s')
         as (_ & Hnz & Hok);
    [rewrite E; auto|congruence|].
  all: assert (Hn : next_pos chars0 k = S k)
    by (destruct (next_pos_cases chars0 k) as [[He _]|[_ Hn]];
        [apply look_ended in He; congruence|assumption]).
  all: rewrite Hn; rewrite C' in Hok; unfold text_step_ok in Hok;
    destruct (text_class_of s) eqn:C; try discriminate Hok.
  all: refine (conj _ (conj _ (conj _ _)));
    try (intros; congruence); try (rewrite <- Hn; exact Hm').
  - intros _ i Hi. destruct (Nat.eq_dec i k) as [->|]; [assumption|].
    apply Hs; auto. lia.
  - intros _ i H1 H2. apply Hs; auto. lia.
  - apply negb_true_iff, Z.eqb_neq in Hok.
    intros _ i Hi. destruct (Nat.eq_dec i k) as [->|]; [assumption|].
    apply space_not_hash, Hs; auto. lia.
  - apply negb_true_iff, Z.eqb_neq in Hok.
    intros _ i Hi. destruct (Nat.eq_dec i k) as [->|]; [assumption|].
    apply Hp; auto. lia.
Qed.

Lemma text_inv_skip (chars0 : list Z) (s : Z) (k st : nat)
    (mk : option (TSSymbol * nat)) (acc : option TSSymbol) (s' : Z) :
  text_inv chars0 s k st mk ->
  ts_lex_state s (look chars0 k) (ended chars0 k) = (acc, SKIP s') ->
  text_inv chars0 s' (next_pos chars0 k) (next_pos chars0 k)
    (mark_at acc k mk).
Proof.
  intros HP E.
  pose proof (text_inv_marks _ _ _ _ _ _ _ HP E) as Hmk.
  pose proof (next_pos_ge chars0 k) as Hge.
  assert (C' : text_class_of s' = TextOther).
  { destruct (text_class_of s') eqn:C'; auto;
      destruct (text_transition s (look chars0 k) (ended chars0 k) s')
        as (Ha & _); try (rewrite E; auto); try congruence;
      rewrite E in Ha; discriminate Ha. }
  refine (conj _ (conj _ (conj _ _))); try (intros; congruence).
  intros e He. destruct (Hmk e He) as [Hle _]. split; [lia|].
  split; intros; lia.
Qed.

(** A text token holds no ['#'] before its last code point, and when it
    ends with ['#'] only whitespace comes before. *)
Lemma text_token_hash (s : Z) (chars : list Z) (a b : nat)
    (rest : list Z) :
  ts_lex s 0 chars = Some (Token sym_text a b rest) ->
  (forall i, (a <= i)%nat -> (i + 1 < b)%nat -> nth i chars 0 <> 35)
  /\ (nth (b - 1) chars 0 = 35 ->
      forall i, (a <= i)%nat -> (i + 1 < b)%nat ->
                is_space (nth i chars 0) = true).
Proof.
  unfold ts_lex. intros E.
  change chars with (skipn 0 chars) in E at 2.
  change (@None (TSSymbol * nat * list Z)) with (abs_mark chars None) in E.
  assert (H0 : text_inv chars s 0 0 None).
  { refine (conj _ (conj _ (conj _ _))); intros; try lia; discriminate. }
  destruct (lex_loop_invariant chars (text_inv chars)
              (fun s0 k st mk acc s1 _ HP E0 =>
                 text_inv_advance chars s0 k st mk acc s1 HP E0)
              (fun s0 k st mk acc s1 _ HP E0 =>
                 text_inv_skip chars s0 k st mk acc s1 HP E0)
              _ _ _ _ _ _ (Nat.le_0_l _) H0 E)
    as (s' & k' & st' & mk' & acc & Hk & HP & Hend & Hr).
  pose proof (text_inv_marks _ _ _ _ _ _ _ HP Hend) as Hmk.
  destruct (mark_at acc k' mk') as [[sy e]|]; simpl in Hr; [|discriminate].
  injection Hr as Hsy Ha Hb Hrest. subst sy a b rest.
  destruct (Hmk e eq_refl) as [_ [H1 H2]].
  destruct (Nat.min_spec st' e) as [[Hlt ->]|[Hge ->]].
  - split; [exact H1|exact H2].
  - split; intros; lia.
Qed.

(** ** Braces in template text *)

Lemma brace_transition (s c : Z) (eof : bool) (s' : Z) :
  brace_class_of s <> BOther ->
  snd (ts_lex_state s c eof) = ADVANCE s'
  \/ snd (ts_lex_state s c eof) = SKIP s' ->
  snd (ts_lex_state s c eof) = ADVANCE s'
  /\ brace_step_ok (brace_class_of s) (brace_class_of s') c = true.
Proof.
  each_state s; cbv [brace_class_of]; intros Hne; try (now elim Hne);
    clear Hne; open_state; cbv [snd]; split_ifs;
    (intros [H|H]; try discriminate H; injection H as <-);
    (split; [reflexivity|]); cbv [brace_step_ok is_space]; decide_chars.
Qed.

Lemma brace_accept (s c : Z) (eof : bool) (sym : TSSymbol) :
  brace_class_of s <> BOther ->
  fst (ts_lex_state s c eof) = Some sym ->
  brace_accept_ok (brace_class_of s) sym = true.
Proof.
  each_state s; cbv [brace_class_of]; intros Hne; try (now elim Hne);
    clear Hne; open_state; cbv [fst]; intros H; try discriminate H;
    injection H as <-; reflexivity.
Qed.

Lemma space_not_brace (c : Z) : is_space c = true -> c <> 123.
Proof. unfold is_space. intros H. decide_chars. Qed.

Lemma space_not_nul (c : Z) : is_space c = true -> c <> 0.
Proof. unfold is_space. intros H. decide_chars. Qed.

Lemma text_not_opener (sym : TSSymbol) :
  is_text sym = true -> is_opener sym = true -> False.
Proof. destruct sym; discriminate. Qed.

Lemma header_not_opener (sym : TSSymbol) :
  is_header sym = true -> is_opener sym = true -> False.
Proof. destruct sym; discriminate. Qed.

Lemma is_text_eq (sym : TSSymbol) : is_text sym = true -> sym = sym_text.
Proof. destruct sym; try discriminate; reflexivity. Qed.

Lemma is_header_eq (sym : TSSymbol) :
  is_header sym = true -> sym = sym_header_comment.
Proof. destruct sym; try discriminate; reflexivity. Qed.

Lemma brace_class_end (s : Z) : brace_class_of s = BEnd -> s = 40.
Proof.
  each_state s; cbv [brace_class_of]; intros H; try discriminate H;
    reflexivity.
Qed.

Lemma brace_marks (chars0 : list Z) (s0 s : Z) (k st : nat)
    (mk : option (TSSymbol * nat)) (acc : option TSSymbol)
    (act : lex_action) :
  brace_inv chars0 s0 s k st mk ->
  ts_lex_state s (look chars0 k) (ended chars0 k) = (acc, act) ->
  forall sym e, mark_at acc k mk = Some (sym, e) ->
                (e <= k)%nat /\ brace_mark_ok chars0 s0 sym e.
Proof.
  intros (Hc & Hst & Ho & Hp & Hm) E sym e Hmk.
  destruct acc as [x|]; simpl in Hmk; [|now apply Hm].
  injection Hmk as Hx He. subst x e. split; [lia|].
  assert (Ha : brace_accept_ok (brace_class_of s) sym = true)
    by (eapply brace_accept; [assumption|rewrite E; reflexivity]).
  unfold brace_mark_ok.
  destruct (brace_class_of s) eqn:C; simpl in Ha, Hp, Ho;
    try discriminate Ha.
  - split; [auto|]. intros H. now destruct (text_not_opener sym).
  - split; [auto|]. intros H. now destruct (text_not_opener sym).
  - split; [auto|]. intros H. now destruct (text_not_opener sym).
  - destruct Hp as (Hk & H1 & H2 & Hw). split.
    + intros i Hi (L1 & L2 & L3). exfalso.
      destruct (Nat.lt_ge_cases (i + 2) k) as [Hlt|Hge].
      * apply (space_not_brace (look chars0 i)); auto.
      * destruct (Nat.eq_dec i (k - 2)) as [->|Hne].
        -- apply L2. replace (k - 2 + 1)%nat with (k - 1)%nat by lia.
           assumption.
        -- assert (i = (k - 1)%nat) by lia. subst i.
           destruct L3 as [L3|L3]; [lia|]. apply L3.
           replace (k - 1 - 1)%nat with (k - 2)%nat by lia. assumption.
    + intros _. exists (k - 2)%nat.
      replace (k - 2 + 1)%nat with (k - 1)%nat by lia.
      repeat split; auto. lia.
  - destruct Hp as (j & Hj & H1 & H2 & Hw & Hn). split.
    + intros i Hi (L1 & L2 & L3). exfalso.
      destruct (Nat.lt_ge_cases i j) as [Hlt|Hge].
      * apply (space_not_brace (look chars0 i)); auto.
      * destruct (Nat.eq_dec i j) as [->|Hne]; [now apply L2|].
        destruct (Nat.eq_dec i (j + 1)) as [->|Hne'].
        -- destruct L3 as [L3|L3]; [lia|]. apply L3.
           replace (j + 1 - 1)%nat with j by lia. assumption.
        -- apply (Hn i); [lia|assumption].
    + intros _. exists j. repeat split; auto. lia.
  - split.
    + intros i Hi (L1 & _). exfalso. now apply (Hp i).
    + intros H. rewrite H in Ha. discriminate Ha.
  - split; [auto|]. intros H. now destruct (header_not_opener sym).
  - split.
    + intros i Hi. lia.
    + intros H. rewrite H in Ha. discriminate Ha.
Qed.

Lemma brace_inv_advance (chars0 : list Z) (s0 s : Z) (k st : nat)
    (mk : option (TSSymbol * nat)) (acc : option TSSymbol) (s' : Z) :
  brace_inv chars0 s0 s k st mk ->
  ts_lex_state s (look chars0 k) (ended chars0 k) = (acc, ADVANCE s') ->
  brace_inv chars0 s0 s' (next_pos chars0 k) st (mark_at acc k mk).
Proof.
  intros HP E.
  pose proof (brace_marks _ _ _ _ _ _ _ _ HP E) as Hmk.
  pose proof (next_pos_ge chars0 k) as Hge.
  assert (Hm' : forall sym e, mark_at acc k mk = Some (sym, e) ->
             (e <= next_pos chars0 k)%nat /\ brace_mark_ok chars0 s0 sym e).
  { intros sym e He. destruct (Hmk sym e He). split; [lia|assumption]. }
  destruct HP as (Hc & Hst & Ho & Hp & Hm).
  destruct (brace_transition s (look chars0 k) (ended chars0 k) s' Hc)
    as [_ Hok]; [rewrite E; auto|].
  assert (Hc' : brace_class_of s' <> BOther).
  { intros C'. rewrite C' in Hok. destruct (brace_class_of s); discriminate. }
  refine (conj Hc' (conj Hst (conj _ (conj _ Hm')))).
  { destruct (brace_class_of s'), (brace_class_of s); simpl in *;
      try discriminate; auto. }
  destruct (brace_class_of s') eqn:C'; try (now elim Hc');
    try (destruct (brace_class_of s); discriminate Hok).
  8:{ (* the end of the input *)
    apply brace_class_end in C'. subst s'.
    assert (He : ended chars0 k = true)
      by (eapply into_state_40; rewrite E; simpl; eauto).
    unfold next_pos. rewrite He.
    destruct (brace_class_of s); simpl in *; try discriminate; assumption. }
  all: assert (Hnz : look chars0 k <> 0)
    by (destruct (brace_class_of s); simpl in Hok; try discriminate Hok;
        first [ now apply space_not_nul
              | apply Z.eqb_eq in Hok; congruence
              | apply andb_true_iff in Hok; destruct Hok as [_ Hok];
                now apply negb_true_iff, Z.eqb_neq in Hok
              | now apply negb_true_iff, Z.eqb_neq in Hok ]).
  all: assert (Hn : next_pos chars0 k = S k)
    by (destruct (next_pos_cases chars0 k) as [[He _]|[_ Hn]];
        [apply look_ended in He; congruence|assumption]).
  all: rewrite Hn; clear Hge Hm' Hmk Hn.
  all: destruct (brace_class_of s) eqn:C;
    cbn [brace_step_ok brace_prop] in Hok, Hp |- *;
    try discriminate Hok; try exact I.
  all: to_prop.
  all: try replace (S k - 1)%nat with k by lia.
  all: try replace (S k - 2)%nat with (k - 1)%nat by lia.
  - (* BSpace from BStart *)
    intros i Hi. assert (i = k) by lia. now subst i.
  - intros i Hi. destruct (Nat.eq_dec i k) as [->|]; [assumption|].
    apply Hp. lia.
  - (* BSpace37 *)
    intros i Hi. assert (i = k) by lia. now subst i.
  - intros i Hi. destruct (Nat.eq_dec i k) as [->|]; [assumption|].
    apply Hp. lia.
  - (* BOne *)
    subst k. repeat split; auto. intros i Hi. lia.
  - subst k. repeat split; auto. intros i Hi. lia.
  - repeat split; auto; try lia. intros i Hi. apply Hp. lia.
  - repeat split; auto; try lia. intros i Hi. apply Hp. lia.
  - (* BTwo *)
    destruct Hp as (Hk & H1 & Hw).
    repeat split; auto; try lia. intros i Hi. apply Hw. lia.
  - (* BOpen from BTwo *)
    destruct Hp as (Hk & H1 & H2 & Hw).
    exists (k - 2)%nat. replace (k - 2 + 1)%nat with (k - 1)%nat by lia.
    repeat split; auto; try lia.
    + intros i Hi. apply Hw. lia.
    + intros i Hi. assert (i = k) by lia. now subst i.
  - destruct Hp as (j & Hj & H1 & H2 & Hw & Hn').
    exists j. repeat split; auto; try lia.
    intros i Hi. destruct (Nat.eq_dec i k) as [->|]; [assumption|].
    apply Hn'. lia.
  - (* BPlain *)
    intros i Hi. assert (i = k) by lia. now subst i.
  - intros i Hi. assert (i = k) by lia. now subst i.
  - intros i Hi. destruct (Nat.eq_dec i k) as [->|]; [assumption|].
    apply space_not_brace, Hp. lia.
  - intros i Hi. destruct (Nat.eq_dec i k) as [->|]; [assumption|].
    apply space_not_brace, Hp. lia.
  - intros i Hi. destruct (Nat.eq_dec i k) as [->|]; [assumption|].
    apply Hp. lia.
Qed.

Lemma brace_inv_skip (chars0 : list Z) (s0 s : Z) (k st : nat)
    (mk : option (TSSymbol * nat)) (acc : option TSSymbol) (s' : Z) :
  brace_inv chars0 s0 s k st mk ->
  ts_lex_state s (look chars0 k) (ended chars0 k) = (acc, SKIP s') ->
  brace_inv chars0 s0 s' (next_pos chars0 k) (next_pos chars0 k)
    (mark_at acc k mk).
Proof.
  intros (Hc & _) E.
  destruct (brace_transition s (look chars0 k) (ended chars0 k) s' Hc)
    as [Ha _]; [rewrite E; auto|].
  rewrite E in Ha. discriminate Ha.
Qed.

(** In the modes of template text, a token that holds a brace with no
    brace next to it is a text token (or, at the start of the document, a
    header comment), and a token that opens a handlebars construct holds
    two braces in a row. *)
Lemma template_text_braces (s : Z) (chars : list Z) (sym : TSSymbol)
    (a b : nat) (rest : list Z) :
  s = 5 \/ s = 37 \/ s = 38 \/ s = 39 ->
  ts_lex s 0 chars = Some (Token sym a b rest) ->
  (forall i, (i < b)%nat -> lone_brace chars i ->
             sym = sym_text \/ (s = 37 /\ sym = sym_header_comment))
  /\ (is_opener sym = true ->
      exists j, (j + 1 < b)%nat
                /\ nth j chars 0 = 123 /\ nth (j + 1) chars 0 = 123).
Proof.
  unfold ts_lex. intros Hs E.
  change chars with (skipn 0 chars) in E at 2.
  change (@None (TSSymbol * nat * list Z)) with (abs_mark chars None) in E.
  assert (H0 : brace_inv chars s s 0 0 None).
  { refine (conj _ (conj eq_refl (conj _ (conj _ _)))).
    - destruct Hs as [->|[->|[->| ->]]]; discriminate.
    - destruct Hs as [->|[->|[->| ->]]]; simpl; intros H;
        try discriminate H; reflexivity.
    - destruct Hs as [->|[->|[->| ->]]]; reflexivity.
    - intros sy e H. discriminate H. }
  destruct (lex_loop_invariant chars (brace_inv chars s)
              (fun s1 k st mk acc s2 _ HP E0 =>
                 brace_inv_advance chars s s1 k st mk acc s2 HP E0)
              (fun s1 k st mk acc s2 _ HP E0 =>
                 brace_inv_skip chars s s1 k st mk acc s2 HP E0)
              _ _ _ _ _ _ (Nat.le_0_l _) H0 E)
    as (s' & k' & st' & mk' & acc & Hk & HP & Hend & Hr).
  pose proof (brace_marks _ _ _ _ _ _ _ _ HP Hend) as Hmk.
  destruct (mark_at acc k' mk') as [[sy e]|]; simpl in Hr; [|discriminate].
  injection Hr as Hsy Ha Hb Hrest. subst sy a b rest.
  destruct (Hmk sym e eq_refl) as [_ [H1 H2]].
  split; [|exact H2].
  intros i Hi Hl. destruct (H1 i Hi Hl) as [Ht|[H37 Hh]].
  - left. now apply is_text_eq.
  - right. split; [assumption|now apply is_header_eq].
Qed.

(** ** The syntax builder with its recovery *)

Lemma stack_leaves_push (stack : list (TSStateId * list SyntaxTree))
    (next : TSStateId) (trees : list SyntaxTree) :
  stack_leaves ((next, trees) :: stack)
  = stack_leaves stack ++ flat_map syntax_leaves trees.
Proof.
  unfold stack_leaves, stack_trees. simpl.
  rewrite !flat_map_app. simpl. now rewrite app_nil_r.
Qed.

Lemma stack_leaves_drop (leaf : SyntaxTree)
    (stack : list (TSStateId * list SyntaxTree)) :
  stack_leaves (drop_error leaf stack)
  = stack_leaves stack ++ syntax_leaves leaf.
Proof.
  destruct stack as [|[state trees] stack]; simpl.
  - unfold stack_leaves, stack_trees. simpl. now rewrite !app_nil_r.
  - rewrite !stack_leaves_push, flat_map_app. simpl.
    now rewrite app_nil_r, app_assoc.
Qed.

Lemma pop_entries_spec (n : nat) :
  forall stack acc children stack',
    pop_entries n stack acc = Some (children, stack') ->
    stack_trees stack ++ acc = stack_trees stack' ++ children.
Proof.
  induction n as [|n IH]; intros stack acc children stack' H; simpl in H.
  - now injection H as <- <-.
  - destruct stack as [|[state trees] [|entry stack]]; try discriminate.
    apply IH in H. rewrite <- H.
    unfold stack_trees. simpl. rewrite !flat_map_app. simpl.
    now rewrite !app_nil_r, <- !app_assoc.
Qed.

Lemma stack_leaves_reduce (n : nat)
    (stack : list (TSStateId * list SyntaxTree))
    (children : list SyntaxTree)
    (stack' : list (TSStateId * list SyntaxTree))
    (next : TSStateId) (lhs : TSSymbol) (production_id : Z) :
  pop_entries n stack [] = Some (children, stack') ->
  stack_leaves ((next, [SNode lhs production_id children]) :: stack')
  = stack_leaves stack.
Proof.
  intros H. apply pop_entries_spec in H. rewrite app_nil_r in H.
  rewrite stack_leaves_push. simpl. rewrite app_nil_r.
  unfold stack_leaves. now rewrite H, flat_map_app.
Qed.

Lemma syntax_leaves_close_tree (before : list SyntaxTree)
    (root : SyntaxTree) (after : list SyntaxTree) (eof : SyntaxTree) :
  syntax_leaves (close_tree before root after eof)
  = flat_map syntax_leaves before ++ syntax_leaves root
    ++ flat_map syntax_leaves after ++ syntax_leaves eof.
Proof.
  destruct root; cbn [close_tree syntax_leaves];
    repeat (rewrite flat_map_app || cbn [flat_map app syntax_leaves]);
    now rewrite ?app_nil_r.
Qed.

Lemma unmatched_run_le (mode : Z) (chars : list Z) :
  (unmatched_run mode chars <= length chars)%nat.
Proof.
  induction chars as [|c chars IH]; simpl; [lia|].
  destruct (resumes_at mode c); lia.
Qed.

Lemma unmatched_length_le (mode : Z) (chars : list Z) :
  (unmatched_length mode chars <= length chars)%nat.
Proof.
  destruct chars as [|c chars]; simpl; [lia|].
  pose proof (unmatched_run_le mode chars). lia.
Qed.

(** The lookahead of the builder is a token [ts_lex] returns at the
    cursor. *)
Lemma next_token_lexed (state : TSStateId) (pos : nat) (chars : list Z)
    (lookahead : option lex_result)
    (sym : TSSymbol) (a b : nat) (rest : list Z) :
  (forall t, lookahead = Some t ->
     exists s, s <> 40 /\ ts_lex s pos chars = Some t) ->
  next_token state pos chars lookahead = Token sym a b rest ->
  exists s, s <> 40 /\ ts_lex s pos chars = Some (Token sym a b rest).
Proof.
  intros Hla H. unfold next_token in H.
  destruct lookahead as [t|].
  - subst t. now apply Hla.
  - destruct (ts_lex (ts_lex_modes state) pos chars)
      as [[sym1 a1 b1 rest1|]|] eqn:E1.
    + injection H as <- <- <- <-.
      exists (ts_lex_modes state). split; [apply ts_lex_modes_not_40|auto].
    + destruct (ts_lex (ts_lex_modes 0) pos chars)
        as [[sym0 a0 b0 rest0|]|] eqn:E0; try discriminate.
      exists (ts_lex_modes 0). split; [apply ts_lex_modes_not_40|].
      rewrite E0. destruct sym0; try discriminate H. now rewrite <- H.
    + destruct (ts_lex (ts_lex_modes 0) pos chars)
        as [[sym0 a0 b0 rest0|]|] eqn:E0; try discriminate.
      exists (ts_lex_modes 0). split; [apply ts_lex_modes_not_40|].
      rewrite E0. destruct sym0; try discriminate H. now rewrite <- H.
Qed.

(** ** Runs of tokens *)

Lemma token_run_le {A : Type} (input : list Z)
    (l : list (A * nat * nat * nat)) (pos : nat) :
  token_run input pos l -> (pos <= length input)%nat.
Proof.
  induction 1 as [|pos s sym a b rest label l Hlex _ IH|pos k label l Hk _ _].
  - lia.
  - destruct (ts_lex_wf _ _ _ _ _ _ _ Hlex) as (Ha & Hab & _). lia.
  - lia.
Qed.

(** A run of tokens tiles the input, padding included, and every padding
    is whitespace. *)
Lemma token_run_covers {A : Type} (input : list Z)
    (l : list (A * nat * nat * nat)) (pos : nat) :
  token_run input pos l ->
  tiles pos l (length input) /\ padding_is_space input l.
Proof.
  induction 1 as [|pos s sym a b rest label l Hlex _ [IHt IHp]
                  |pos k label l Hk _ [IHt IHp]].
  - split; [reflexivity|constructor].
  - destruct (ts_lex_wf _ _ _ _ _ _ _ Hlex) as (Ha & Hab & Hb & _ & Hws).
    split.
    + simpl. repeat split; [lia|lia|exact IHt].
    + constructor; [|exact IHp]. intros i Hi.
      replace i with (pos + (i - pos))%nat by lia.
      rewrite <- nth_skipn. apply Hws. lia.
  - split.
    + simpl. repeat split; [lia|lia|exact IHt].
    + constructor; [|exact IHp]. intros i Hi. lia.
Qed.

Lemma run_rest {A : Type} (input : list Z) (pos : nat) (chars : list Z)
    (label : A) :
  (pos + length chars = length input)%nat ->
  token_run input pos [(label, 0%nat, pos, (pos + length chars)%nat)].
Proof.
  intros Hlen. apply run_error; [lia|]. rewrite Hlen. apply run_end.
Qed.

(** ** The leaves of the builder are a run of tokens *)

Lemma builder_invariant (input : list Z) :
  forall fuel stack pos chars lookahead missing,
    builder_ok input stack pos chars lookahead ->
    token_run input 0
      (syntax_leaves
         (ts_parser_recover fuel stack pos chars lookahead missing)).
Proof.
  induction fuel as [|fuel IH]; intros stack pos chars lookahead missing Hok;
    destruct Hok as (Hrun & Hpos & Hchars & Hla);
    assert (Hlen : (pos + length chars = length input)%nat)
      by (subst chars; rewrite length_skipn; lia);
    assert (Herr : token_run input 0
                     (syntax_leaves (error_root stack pos chars)))
      by (unfold error_root; simpl; rewrite flat_map_app; simpl;
          apply Hrun, run_rest, Hlen).
  { exact Herr. }
  assert (Hsame : forall stack' la,
             stack_leaves stack' = stack_leaves stack ->
             (forall t, la = Some t ->
                exists s, s <> 40 /\ ts_lex s pos chars = Some t) ->
             builder_ok input stack' pos chars la).
  { intros stack' la E Hla'.
    refine (conj _ (conj Hpos (conj Hchars Hla'))). now rewrite E. }
  assert (Hmissing : forall next x,
             stack_leaves ((next, [SMissing x pos]) :: stack)
             = stack_leaves stack).
  { intros next x. rewrite stack_leaves_push. simpl. now rewrite app_nil_r. }
  cbn [ts_parser_recover].
  set (state := top_entry stack).
  destruct missing as [x|].
  { destruct (select_action (ts_language_actions state x))
      as [[next|next|lhs n dp pid| |]|].
    - apply IH, Hsame; auto.
    - apply IH, Hsame; auto.
    - destruct (pop_entries n stack []) as [[children stack']|] eqn:Epop;
        [|exact Herr].
      apply IH, Hsame; auto.
      exact (stack_leaves_reduce _ _ _ _ _ _ _ Epop).
    - apply IH, Hsame; auto.
    - apply IH, Hsame; auto.
    - apply IH, Hsame; auto. }
  destruct (next_token state pos chars lookahead) as [sym a b rest|]
    eqn:Etok.
  - destruct (next_token_lexed _ _ _ _ _ _ _ _ Hla Etok) as (s & Hs & Hlex).
    destruct (ts_lex_wf_from _ _ _ _ _ _ _ Hs Hlex)
      as (Ha & Hab & Hb & Hrest & Hws & Hend).
    rewrite Hchars in Hlex.
    assert (Hleaf : forall (label : option TSSymbol) l,
               token_run input b l ->
               token_run input 0
                 (stack_leaves stack ++ (label, (a - pos)%nat, a, b) :: l)).
    { intros label l Hl. apply Hrun. eapply run_token; eauto. }
    assert (Hnext : rest = skipn b input).
    { rewrite Hrest, Hchars, skipn_skipn. f_equal. lia. }
    assert (Hb' : (b <= length input)%nat) by lia.
    assert (Hshift : forall next,
               builder_ok input
                 ((next, [SLeaf sym (a - pos) a b]) :: stack) b rest None).
    { intros next. refine (conj _ (conj Hb' (conj Hnext _))).
      - intros l Hl. rewrite stack_leaves_push. simpl.
        rewrite <- app_assoc. now apply Hleaf.
      - discriminate. }
    assert (Hpending : forall t,
               Some (Token sym a b rest) = Some t ->
               exists s0, s0 <> 40 /\ ts_lex s0 pos chars = Some t).
    { intros t E. injection E as <-. exists s. now rewrite Hchars. }
    assert (Hlast : sym = ts_builtin_sym_end ->
               token_run input 0
                 (stack_leaves stack ++ [(Some sym, (a - pos)%nat, a, b)])).
    { intros Esym. apply Hleaf. rewrite (Hend Esym), Hlen. apply run_end. }
    assert (Hrecover :
              let t :=
                match missing_construct (map fst stack) sym with
                | Some x =>
                    if is_terminal x then
                      ts_parser_recover fuel stack pos chars
                        (Some (Token sym a b rest)) (Some x)
                    else
                      ts_parser_recover fuel
                        ((ts_language_lookup state x, [SMissing x pos])
                           :: stack)
                        pos chars (Some (Token sym a b rest)) None
                | None =>
                    if symbol_eqb sym ts_builtin_sym_end
                    then SError
                           (stack_trees stack
                            ++ [SLeaf sym (a - pos) a b])
                    else
                      ts_parser_recover fuel
                        (drop_error (SErrorLeaf (a - pos) a b) stack)
                        b rest None None
                end in
              token_run input 0 (syntax_leaves t)).
    { cbv zeta.
      destruct (missing_construct (map fst stack) sym) as [x|].
      - destruct (is_terminal x); apply IH, Hsame; auto.
      - destruct (symbol_eqb sym ts_builtin_sym_end) eqn:Esym.
        + apply symbol_eqb_end in Esym.
          simpl. rewrite flat_map_app. simpl. now apply Hlast.
        + apply IH. refine (conj _ (conj Hb' (conj Hnext _))).
          * intros l Hl. rewrite stack_leaves_drop. simpl.
            rewrite <- app_assoc. now apply Hleaf.
          * discriminate. }
    cbv zeta in Hrecover. cbv zeta.
    destruct (select_action (ts_language_actions state sym))
      as [[next|next|lhs n dp pid| |]|] eqn:Eact.
    + apply IH, Hshift.
    + apply IH, Hshift.
    + destruct (pop_entries n stack []) as [[children stack']|] eqn:Epop;
        [|exact Herr].
      apply IH, Hsame; auto.
      exact (stack_leaves_reduce _ _ _ _ _ _ _ Epop).
    + exact Hrecover.
    + destruct stack as [|[st [|root after]] [|[st0 before] [|]]];
        try exact Herr.
      destruct (symbol_eqb sym ts_builtin_sym_end) eqn:Esym;
        [|exact Herr].
      apply symbol_eqb_end in Esym.
      rewrite syntax_leaves_close_tree.
      assert (Hstack : forall l,
                 flat_map syntax_leaves before
                 ++ syntax_leaves root
                 ++ flat_map syntax_leaves after ++ l
                 = stack_leaves [(st, root :: after); (st0, before)] ++ l).
      { intros l. unfold stack_leaves, stack_trees. simpl.
        rewrite app_nil_r, flat_map_app. simpl.
        now rewrite <- !app_assoc. }
      rewrite Hstack. now apply Hlast.
    + exact Hrecover.
  - destruct (unmatched_length (ts_lex_modes state) chars) as [|n] eqn:En.
    + exact Herr.
    + pose proof (unmatched_length_le (ts_lex_modes state) chars) as Hle.
      rewrite En in Hle.
      apply IH. refine (conj _ (conj _ (conj _ _))).
      * intros l Hl. rewrite stack_leaves_drop. simpl.
        rewrite <- app_assoc. apply Hrun. apply run_error; [lia|exact Hl].
      * lia.
      * rewrite Hchars, skipn_skipn. f_equal. lia.
      * discriminate.
Qed.

Lemma pop_entries_syntax_stack (n : nat) :
  forall stack acc children stack',
    pop n stack acc = Some (children, stack') ->
    pop_entries n (syntax_stack stack) (map syntax_tree acc)
    = Some (map syntax_tree children, syntax_stack stack').
Proof.
  induction n as [|n IH]; intros stack acc children stack' H; simpl in H.
  - now injection H as <- <-.
  - destruct stack as [|[state t] stack]; [discriminate|].
    apply IH in H.
    change (syntax_stack ((state, t) :: stack))
      with ((state, [syntax_tree t]) :: syntax_stack stack).
    cbn [pop_entries].
    destruct (syntax_stack stack) as [|entry rest] eqn:E.
    + unfold syntax_stack in E. now destruct stack.
    + exact H.
Qed.

Lemma top_entry_syntax_stack (stack : list (TSStateId * Tree)) :
  top_entry (syntax_stack stack) = top_state stack.
Proof. destruct stack as [|[state t] stack]; reflexivity. Qed.

Lemma syntax_tree_close_root (root eof : Tree) :
  close_tree [] (syntax_tree root) [] (syntax_tree eof)
  = syntax_tree (close_root root eof).
Proof.
  destruct root; simpl; [reflexivity|]. now rewrite map_app.
Qed.

(** Where [ts_parser_loop] accepts, the builder with recovery takes the
    same steps and returns the same tree. *)
Lemma ts_parser_recover_accepted :
  forall fuel stack pos chars lookahead t,
    ts_parser_loop fuel stack pos chars lookahead = Accepted t ->
    ts_parser_recover fuel (syntax_stack stack) pos chars lookahead None
    = syntax_tree t.
Proof.
  induction fuel as [|fuel IH]; intros stack pos chars lookahead t H;
    [discriminate|].
  simpl in H. cbn [ts_parser_recover].
  rewrite top_entry_syntax_stack.
  set (state := top_state stack) in *.
  assert (Etok : forall tok,
             match lookahead with
             | Some t0 => Some t0
             | None => ts_lex (ts_lex_modes state) pos chars
             end = Some tok ->
             tok <> NoToken ->
             next_token state pos chars lookahead = tok).
  { intros tok E Hno. unfold next_token. destruct lookahead as [t0|].
    - now injection E as <-.
    - rewrite E. destruct tok; [reflexivity|now elim Hno]. }
  destruct (match lookahead with
            | Some t0 => Some t0
            | None => ts_lex (ts_lex_modes state) pos chars
            end) as [[sym a b rest|]|] eqn:E; try discriminate.
  rewrite (Etok _ eq_refl) by discriminate.
  destruct (select_action (ts_language_actions state sym))
    as [[next|next|lhs n dp pid| |]|]; try discriminate.
  - now apply IH in H.
  - now apply IH in H.
  - destruct (pop n stack []) as [[children stack']|] eqn:Epop;
      [|discriminate].
    apply pop_entries_syntax_stack in Epop. simpl in Epop.
    rewrite Epop, top_entry_syntax_stack.
    now apply IH in H.
  - destruct stack as [|[st root] [|]]; try discriminate.
    simpl. destruct (symbol_eqb sym ts_builtin_sym_end); [|discriminate].
    injection H as <-.
    apply (syntax_tree_close_root root (Leaf sym (a - pos) a b)).
Qed.

(** An input [parse] accepts has the same tree with recovery. *)
Lemma parse_tree_accepted (input : list Z) (t : Tree) :
  parse input = Accepted t -> parse_tree input = syntax_tree t.
Proof.
  rewrite parse_unfold. intros H.
  apply ts_parser_recover_accepted in H. exact H.
Qed.

(** ** The claims *)

(** C1, as stated, fails: on ["{{ x }}"] the builder accepts, and the spans
    of the leaves, one after the other, give ["{{x}}"]: the two blanks the
    lexer skipped in expression mode lie in no leaf span. *)
Lemma C1_counterexample :
  exists t,
    parse (codes "{{ x }}") = Accepted t
    /\ span_concat (codes "{{ x }}") (leaves t) = codes "{{x}}"
    /\ span_concat (codes "{{ x }}") (leaves t) <> codes "{{ x }}".
Proof.
  eexists. split; [vm_compute; reflexivity|].
  split; [vm_compute; reflexivity|]. vm_compute. discriminate.
Qed.

(** C1 (amended): for every input, well formed or not, the leaves of the
    tree [parse_tree] returns, the error leaves among them, follow one
    another from 0 to the length of the input without gap or overlap once
    each leaf is taken with its padding, the code points the lexer skipped
    right before it; every padding is whitespace; and the paddings and
    spans, one after the other in source order, are the input.  This is
    so of every run of tokens [ts_lex] delivers over the input, whatever
    the lex state it is asked in at each cursor, and the leaves of the
    tree are such a run.  On an input [parse] accepts, the tree is the one
    [parse] returns. *)
Theorem C1_leaves_cover_input (input : list Z) :
  (forall l : list (option TSSymbol * nat * nat * nat),
      token_run input 0 l ->
      tiles 0 l (length input)
      /\ padding_is_space input l
      /\ padded_concat input l = input)
  /\ token_run input 0 (syntax_leaves (parse_tree input))
  /\ tiles 0 (syntax_leaves (parse_tree input)) (length input)
  /\ padding_is_space input (syntax_leaves (parse_tree input))
  /\ padded_concat input (syntax_leaves (parse_tree input)) = input
  /\ (forall t, parse input = Accepted t -> parse_tree input = syntax_tree t).
Proof.
  assert (Hcover : forall l : list (option TSSymbol * nat * nat * nat),
             token_run input 0 l ->
             tiles 0 l (length input)
             /\ padding_is_space input l
             /\ padded_concat input l = input).
  { intros l Hl. destruct (token_run_covers input l 0 Hl) as [Ht Hp].
    split; [exact Ht|]. split; [exact Hp|].
    rewrite (tiles_padded_concat input _ _ _ Ht). apply span_text_all. }
  assert (Hrun : token_run input 0 (syntax_leaves (parse_tree input))).
  { apply builder_invariant.
    refine (conj _ (conj _ (conj _ _))).
    - intros l Hl. exact Hl.
    - lia.
    - reflexivity.
    - discriminate. }
  split; [exact Hcover|]. split; [exact Hrun|].
  destruct (Hcover _ Hrun) as (Ht & Hp & Hc).
  split; [exact Ht|]. split; [exact Hp|]. split; [exact Hc|].
  apply parse_tree_accepted.
Qed.

Lemma C1_leaves_cover_input_witness :
  let input := codes "{{#if cond}}unclosed" in
  let accepted := codes "{{ x }}" in
  let t :=
    Node sym_document 0
      [Node sym_template_body 0
         [Node sym_handlebars_expression 0
            [Leaf anon_sym_LBRACE_LBRACE 0 0 2;
             Node sym_expression_content 1
               [Node sym_variable_reference 0 [Leaf sym_path 1 3 4]];
             Leaf anon_sym_RBRACE_RBRACE 1 5 7]];
       Leaf ts_builtin_sym_end 0 7 7] in
  let run :=
    [(Some anon_sym_LBRACE_LBRACE, 0, 0, 2); (Some sym_path, 1, 3, 4);
     (Some anon_sym_RBRACE_RBRACE, 1, 5, 7);
     (Some ts_builtin_sym_end, 0, 7, 7)]%nat in
  parse_tree input
  = SNode sym_document 0
      [SNode sym_template_body 0
         [SNode sym_handlebars_block 0
            [SNode sym_block_expression 2
               [SLeaf anon_sym_LBRACE_LBRACE_POUND 0 0 3;
                SLeaf sym_path 0 3 5;
                SNode sym_argument 0
                  [SNode sym_variable_reference 0 [SLeaf sym_path 1 6 10]];
                SLeaf anon_sym_RBRACE_RBRACE 0 10 12];
             SLeaf sym_text 0 12 20;
             SMissing sym_close_block 20]];
       SLeaf ts_builtin_sym_end 0 20 20]
  /\ tiles 0 (syntax_leaves (parse_tree input)) (length input)
  /\ padding_is_space input (syntax_leaves (parse_tree input))
  /\ padded_concat input (syntax_leaves (parse_tree input)) = input
  /\ parse accepted = Accepted t
  /\ parse_tree accepted = syntax_tree t
  /\ token_run accepted 0 run
  /\ padded_concat accepted run = accepted.
Proof.
  intros input accepted t run.
  assert (E : parse accepted = Accepted t) by (vm_compute; reflexivity).
  assert (R : token_run accepted 0 run).
  { apply (run_token accepted 0 37 anon_sym_LBRACE_LBRACE 0 2
             (codes " x }}")); [vm_compute; reflexivity|].
    apply (run_token accepted 2 16 sym_path 3 4 (codes " }}"));
      [vm_compute; reflexivity|].
    apply (run_token accepted 4 3 anon_sym_RBRACE_RBRACE 5 7 []);
      [vm_compute; reflexivity|].
    apply (run_token accepted 7 39 ts_builtin_sym_end 7 7 []);
      [vm_compute; reflexivity|].
    apply (run_end accepted). }
  split; [vm_compute; reflexivity|].
  destruct (C1_leaves_cover_input input) as (_ & _ & H1 & H2 & H3 & _).
  split; [exact H1|]. split; [exact H2|]. split; [exact H3|].
  split; [exact E|].
  destruct (C1_leaves_cover_input accepted) as (Hrun & _ & _ & _ & _ & H).
  split; [exact (H t E)|]. split; [exact R|].
  exact (proj2 (proj2 (Hrun run R))).
Defined.

(** C4, as stated, fails: in frontmatter mode (lex state 4) the three
    dashes of ["---x"] are a [frontmatter_delimiter] token, with [x] right
    after them. *)
Lemma C4_counterexample :
  ts_lex 4 0 (codes "---x")
  = Some (Token sym_frontmatter_delimiter 0 3 (codes "x")).
Proof. vm_compute; reflexivity. Qed.

(** C4 (amended): in frontmatter mode (lex state 4), as in the two modes
    that open a document (37 and 38), three dashes at the cursor are a
    [frontmatter_delimiter] token whatever follows them: state 44 accepts
    without reading on.  The line end is asked for by the tables: in the
    states a shifted delimiter leads to (53, 55, 60) the only token with an
    action is the line-end token [aux_sym_frontmatter_token1]. *)
Theorem C4_delimiter_whatever_follows :
  (forall s pos rest,
      s = 4 \/ s = 37 \/ s = 38 ->
      ts_lex s pos (codes "---" ++ rest)
      = Some (Token sym_frontmatter_delimiter pos (pos + 3) rest))
  /\ (forall state sym,
        state = 53 \/ state = 55 \/ state = 60 ->
        select_action (ts_language_actions state sym) <> None ->
        sym = aux_sym_frontmatter_token1).
Proof.
  split.
  - intros s pos rest Hs.
    assert (H : forall s0 mk,
               scan s0 (codes "---") 0 0 None = Some (44, 3%nat, 0%nat, mk) ->
               ts_lex s0 pos (codes "---" ++ rest)
               = Some (Token sym_frontmatter_delimiter pos (pos + 3) rest)).
    { intros s0 mk Hscan.
      rewrite (ts_lex_literal s0 (codes "---") 44 0 mk
                 sym_frontmatter_delimiter Hscan (fun _ _ => eq_refl)).
      simpl. now rewrite Nat.add_0_r. }
    destruct Hs as [->|[->| ->]]; eapply H; vm_compute; reflexivity.
  - intros state sym [->|[->| ->]] H; destruct sym; try reflexivity;
      now elim H.
Qed.

Lemma C4_delimiter_whatever_follows_witness :
  ts_lex 4 0 (codes "---" ++ codes " mid-line")
  = Some (Token sym_frontmatter_delimiter 0 3 (codes " mid-line"))
  /\ aux_sym_frontmatter_token1 = aux_sym_frontmatter_token1.
Proof.
  split.
  - apply (proj1 C4_delimiter_whatever_follows 4 0%nat (codes " mid-line")).
    now left.
  - apply (proj2 C4_delimiter_whatever_follows 55 aux_sym_frontmatter_token1).
    + right; now left.
    + vm_compute. discriminate.
Defined.

(** C5: the input ["{{!-- note --}}"] does not parse to a comment node.
    In the mode of the comment body (lex state 62) the body token runs to
    the end of the input, the closing ["--}}"] included, so the builder
    stands in state 65 with the end-of-input token where only ["--}}"] has
    an action. *)
Theorem C5_dash_comment_not_closed :
  ts_lex 62 5 (codes " note --}}")
  = Some (Token aux_sym_handlebars_comment_token2 5 15 [])
  /\ select_action (ts_language_actions 65 ts_builtin_sym_end) = None
  /\ parse (codes "{{!-- note --}}")
     = SyntaxError 65 15 (Some ts_builtin_sym_end).
Proof. repeat split; vm_compute; reflexivity. Qed.

(** C8: the empty input is accepted; the root is a [document] whose only
    child is the end-of-input leaf, which the public tree does not show: a
    [document] without children, and no error. *)
Theorem C8_empty_input :
  parse [] = Accepted (Node sym_document 0 [Leaf ts_builtin_sym_end 0 0 0])
  /\ public_tree (Node sym_document 0 [Leaf ts_builtin_sym_end 0 0 0])
     = [PNode sym_document []].
Proof. split; vm_compute; reflexivity. Qed.




(** C3, as stated, fails: a block opened as [if] and closed as [each]
    parses without error, to a [handlebars_block] whose close marker names
    [each]; and the empty close marker of ["{{#if x}}a{{/}}"] is a syntax
    error, in state 61 right after ["{{/"]. *)
Lemma C3_counterexample :
  parse (codes "{{#if x}}a{{/each}}")
  = Accepted
      (Node sym_document 0
         [Node sym_template_body 0
            [Node sym_handlebars_block 0
               [Node sym_block_expression 2
                  [Leaf anon_sym_LBRACE_LBRACE_POUND 0 0 3;
                   Leaf sym_path 0 3 5;
                   Node sym_argument 0
                     [Node sym_variable_reference 0 [Leaf sym_path 1 6 7]];
                   Leaf anon_sym_RBRACE_RBRACE 0 7 9];
                Leaf sym_text 0 9 10;
                Node sym_close_block 2
                  [Leaf anon_sym_LBRACE_LBRACE_SLASH 0 10 13;
                   Leaf sym_path 0 13 17;
                   Leaf anon_sym_RBRACE_RBRACE 0 17 19]]];
          Leaf ts_builtin_sym_end 0 19 19])
  /\ parse (codes "{{#if x}}a{{/}}") = SyntaxError 61 13 None.
Proof. split; vm_compute; reflexivity. Qed.

(** C3 (amended): the name of a close marker is not compared with the
    helper name of the block it closes.  For any two names, the block
    opened with the first and closed with the second parses without error
    to a [handlebars_block] of a [block_expression] and a [close_block].
    A close marker needs a name: in the states that follow ["{{/"] (61 and
    86) the only token with an action is a path, and their lexical mode
    finds no token at ["}}"]. *)
Theorem C3_close_name_not_compared :
  (forall c1 body1 c2 body2,
      is_ident_start c1 = true ->
      Forall (fun c => is_path_char c = true) body1 ->
      is_ident_start c2 = true ->
      Forall (fun c => is_path_char c = true) body2 ->
      let n1 := S (length body1) in
      let n2 := S (length body2) in
      parse (codes "{{#" ++ (c1 :: body1) ++ codes "}}" ++ codes "{{/"
               ++ (c2 :: body2) ++ codes "}}")
      = Accepted
          (Node sym_document 0
             [Node sym_template_body 0
                [Node sym_handlebars_block 0
                   [Node sym_block_expression 2
                      [Leaf anon_sym_LBRACE_LBRACE_POUND 0 0 3;
                       Leaf sym_path 0 3 (3 + n1);
                       Leaf anon_sym_RBRACE_RBRACE 0 (3 + n1) (3 + n1 + 2)];
                    Node sym_close_block 2
                      [Leaf anon_sym_LBRACE_LBRACE_SLASH 0 (3 + n1 + 2)
                         (3 + n1 + 2 + 3);
                       Leaf sym_path 0 (3 + n1 + 2 + 3) (3 + n1 + 2 + 3 + n2);
                       Leaf anon_sym_RBRACE_RBRACE 0 (3 + n1 + 2 + 3 + n2)
                         (3 + n1 + 2 + 3 + n2 + 2)]]];
              Leaf ts_builtin_sym_end 0 (3 + n1 + 2 + 3 + n2 + 2)
                (3 + n1 + 2 + 3 + n2 + 2)]))
  /\ (forall state sym,
        state = 61 \/ state = 86 ->
        select_action (ts_language_actions state sym) <> None ->
        sym = sym_path)
  /\ ts_lex_modes 61 = 29 /\ ts_lex_modes 86 = 29
  /\ (forall pos rest, ts_lex 29 pos (codes "}}" ++ rest) = Some NoToken).
Proof.
  split; [|split; [|split; [reflexivity|split; [reflexivity|]]]].
  - intros c1 body1 c2 body2 Hc1 Hb1 Hc2 Hb2 n1 n2.
    apply (parse_by_fuel _ 12); [lia|].
    shift_by (literal_token 37 (codes "{{#") 50 _
                anon_sym_LBRACE_LBRACE_POUND eq_refl (fun _ _ => eq_refl) 0%nat
                ((c1 :: body1) ++ codes "}}" ++ codes "{{/"
                   ++ (c2 :: body2) ++ codes "}}")).
    shift_by (name_token c1 body1
                (codes "}}" ++ codes "{{/" ++ (c2 :: body2) ++ codes "}}")
                (0 + length (codes "{{#")) Hc1 Hb1 eq_refl).
    shift_by (literal_token 3 (codes "}}") 51 _
                anon_sym_RBRACE_RBRACE eq_refl (fun _ _ => eq_refl)
                (0 + length (codes "{{#") + S (length body1))%nat
                (codes "{{/" ++ (c2 :: body2) ++ codes "}}")).
    lex_reduce_by (literal_token 5 (codes "{{/") 52 _
                anon_sym_LBRACE_LBRACE_SLASH eq_refl (fun _ _ => eq_refl)
                (0 + length (codes "{{#") + S (length body1)
                 + length (codes "}}"))%nat
                ((c2 :: body2) ++ codes "}}")).
    shift_pending.
    shift_by (name_token c2 body2 (codes "}}")
                (0 + length (codes "{{#") + S (length body1)
                 + length (codes "}}") + length (codes "{{/"))%nat
                Hc2 Hb2 eq_refl).
    shift_by (literal_token 0 (codes "}}") 51 _
                anon_sym_RBRACE_RBRACE eq_refl (fun _ _ => eq_refl)
                (0 + length (codes "{{#") + S (length body1)
                 + length (codes "}}") + length (codes "{{/")
                 + S (length body2))%nat []).
    lex_reduce_by (end_token 39
                (0 + length (codes "{{#") + S (length body1)
                 + length (codes "}}") + length (codes "{{/")
                 + S (length body2) + length (codes "}}"))%nat
                (or_intror (or_intror eq_refl))).
    reduce_pending. reduce_pending. reduce_pending. accept_pending.
    unfold n1, n2. simpl close_root. rewrite !Nat.sub_diag. reflexivity.
  - intros state sym [->| ->] H; destruct sym; try reflexivity; now elim H.
  - exact name_mode_no_braces.
Qed.

Lemma C3_close_name_not_compared_witness :
  is_ident_start 105 = true
  /\ Forall (fun c => is_path_char c = true) (codes "f")
  /\ is_ident_start 101 = true
  /\ Forall (fun c => is_path_char c = true) (codes "ach")
  /\ parse (codes "{{#" ++ (105 :: codes "f") ++ codes "}}" ++ codes "{{/"
              ++ (101 :: codes "ach") ++ codes "}}")
     = Accepted
         (Node sym_document 0
            [Node sym_template_body 0
               [Node sym_handlebars_block 0
                  [Node sym_block_expression 2
                     [Leaf anon_sym_LBRACE_LBRACE_POUND 0 0 3;
                      Leaf sym_path 0 3 5;
                      Leaf anon_sym_RBRACE_RBRACE 0 5 7];
                   Node sym_close_block 2
                     [Leaf anon_sym_LBRACE_LBRACE_SLASH 0 7 10;
                      Leaf sym_path 0 10 14;
                      Leaf anon_sym_RBRACE_RBRACE 0 14 16]]];
             Leaf ts_builtin_sym_end 0 16 16]).
Proof.
  assert (H1 : is_ident_start 105 = true) by reflexivity.
  assert (H2 : Forall (fun c => is_path_char c = true) (codes "f"))
    by (repeat constructor).
  assert (H3 : is_ident_start 101 = true) by reflexivity.
  assert (H4 : Forall (fun c => is_path_char c = true) (codes "ach"))
    by (repeat constructor).
  repeat (split; [assumption|]).
  exact (proj1 C3_close_name_not_compared 105 (codes "f") 101 (codes "ach")
           H1 H2 H3 H4).
Defined.



(** ** Identifiers that start with a keyword, in the tree *)

Lemma public_tree_by_fuel (input : list Z) (fuel : nat) (t : Tree) :
  (fuel <= 64)%nat ->
  ts_parser_loop fuel [] 0 input None = Accepted t ->
  public_tree_of (parse input) = public_tree t.
Proof. intros Hf H. now rewrite (parse_by_fuel input fuel t Hf H). Qed.

(** ["{{"] is the token before any character other than ['!'] and
    ['#'], at the start of the document. *)
Lemma open_expression_token (c : Z) (rest : list Z) (pos : nat) :
  c <> 33 -> c <> 35 ->
  ts_lex 37 pos (codes "{{" ++ c :: rest)
  = Some (Token anon_sym_LBRACE_LBRACE pos (pos + 2) (c :: rest)).
Proof.
  intros H1 H2.
  assert (E : ts_lex_state 53 c false
              = (Some anon_sym_LBRACE_LBRACE, END_STATE)).
  { open_state. split_ifs; try reflexivity; to_prop; contradiction. }
  erewrite ts_lex_prefix; [|reflexivity].
  erewrite lex_loop_end; [|exact E].
  simpl. now rewrite Nat.add_0_r.
Qed.

Lemma keyword_starts_identifier (kw : list Z) :
  In kw [codes "true"; codes "false"; codes "else"] ->
  exists c kw', kw = c :: kw' /\ c <> 33 /\ c <> 35.
Proof.
  simpl. intros [<-|[<-|[<-|[]]]]; eexists; eexists;
    (split; [reflexivity|split; discriminate]).
Qed.

(** The one-letter names of the examples: [y] right after ["{{"] and
    [k] after a blank. *)
Lemma helper_y_token (next : Z) (rest : list Z) (pos : nat) :
  next = 32 ->
  ts_lex 16 pos (121 :: next :: rest)
  = Some (Token sym_path pos (pos + 1) (next :: rest)).
Proof.
  intros ->.
  change (121 :: 32 :: rest) with ([121] ++ 32 :: rest).
  erewrite ts_lex_prefix; [|reflexivity].
  erewrite lex_loop_end; [|reflexivity].
  simpl. now rewrite Nat.add_0_r.
Qed.

Lemma key_k_token (rest : list Z) (pos : nat) :
  ts_lex 3 pos (32 :: 107 :: 61 :: rest)
  = Some (Token sym_path (pos + 1) (pos + 2) (61 :: rest)).
Proof.
  change (32 :: 107 :: 61 :: rest) with ([32; 107] ++ 61 :: rest).
  erewrite ts_lex_prefix; [|reflexivity].
  erewrite lex_loop_end; [|reflexivity].
  reflexivity.
Qed.

Ltac open_expression kw Hkw rest :=
  let c := fresh "c" in
  let kw' := fresh "kw'" in
  let Ekw := fresh "Ekw" in
  let H1 := fresh "H1" in
  let H2 := fresh "H2" in
  destruct (keyword_starts_identifier kw Hkw) as (c & kw' & Ekw & H1 & H2);
  rewrite Ekw at 1;
  shift_by (open_expression_token c (kw' ++ rest) 0 H1 H2);
  change (c :: kw' ++ rest) with ((c :: kw') ++ rest);
  rewrite <- Ekw; clear c kw' Ekw H1 H2.

Section KeywordPrefix.

Variables kw tail : list Z.
Hypothesis Hkw : In kw [codes "true"; codes "false"; codes "else"].
Hypothesis Hne : tail <> [].
Hypothesis Ht : Forall (fun c => is_path_char c = true) tail.

Let n : nat := (length kw + length tail)%nat.

(** The same identifier after a blank, in the mode of arguments. *)
Lemma keyword_prefix_after_blank (rest : list Z) (pos : nat) :
  is_path_char (hd 0 rest) = false ->
  ts_lex 3 pos (32 :: kw ++ tail ++ rest)
  = Some (Token sym_path (pos + 1) (pos + 1 + (length kw + length tail))
            rest).
Proof.
  intros Hr.
  assert (Hf : (length tail < S (S (length (tail ++ rest))))%nat)
    by (rewrite length_app; lia).
  change (32 :: kw ++ tail ++ rest) with ((32 :: kw) ++ tail ++ rest).
  pose proof Hkw as Hk. simpl in Hk.
  destruct Hk as [<-|[<-|[<-|[]]]];
    (erewrite ts_lex_prefix; [|reflexivity]);
    (erewrite path_run_from; [| knows_path_char | assumption ..]);
    simpl; do 2 f_equal; lia.
Qed.

(** Alone in an expression the path is a [variable_reference]. *)
Lemma keyword_prefix_alone :
  public_tree_of (parse (codes "{{" ++ kw ++ tail ++ codes "}}"))
  = [PNode sym_document
       [PNode sym_template_body
          [PNode sym_handlebars_expression
             [PLeaf anon_sym_LBRACE_LBRACE 0 2;
              PNode sym_expression_content
                [PNode sym_variable_reference [PLeaf sym_path 2 (2 + n)]];
              PLeaf anon_sym_RBRACE_RBRACE (2 + n) (2 + n + 2)]]]].
Proof.
  eapply eq_trans.
  - apply (public_tree_by_fuel _ 12); [lia|].
    open_expression kw Hkw (tail ++ codes "}}").
    shift_by (keyword_prefix_is_path 16 kw tail (codes "}}") (0 + 2)
                (or_intror (or_intror (or_introl eq_refl))) Hkw Hne Ht
                eq_refl).
    lex_reduce_by (literal_token 3 (codes "}}") 51 _
                     anon_sym_RBRACE_RBRACE eq_refl (fun _ _ => eq_refl)
                     (0 + 2 + (length kw + length tail))%nat []).
    reduce_pending. shift_pending.
    lex_reduce_by (end_token 39
                     (0 + 2 + (length kw + length tail)
                      + length (codes "}}"))%nat
                     (or_intror (or_intror eq_refl))).
    reduce_pending. reduce_pending. accept_pending. reflexivity.
  - reflexivity.
Qed.

(** Before an argument the path is the name of a helper. *)
Lemma keyword_prefix_helper :
  public_tree_of (parse (codes "{{" ++ kw ++ tail ++ codes " y}}"))
  = [PNode sym_document
       [PNode sym_template_body
          [PNode sym_handlebars_expression
             [PLeaf anon_sym_LBRACE_LBRACE 0 2;
              PNode sym_expression_content
                [PLeaf alias_sym_helper_name 2 (2 + n);
                 PNode sym_argument
                   [PNode sym_variable_reference
                      [PLeaf sym_path (2 + n + 1) (2 + n + 2)]]];
              PLeaf anon_sym_RBRACE_RBRACE (2 + n + 2) (2 + n + 2 + 2)]]]].
Proof.
  assert (Hy : forall pos,
             ts_lex 3 pos (codes " y}}")
             = Some (Token sym_path (pos + 1) (pos + 2) (codes "}}")))
    by (intros pos; rewrite ts_lex_shift; reflexivity).
  eapply eq_trans.
  - apply (public_tree_by_fuel _ 16); [lia|].
    open_expression kw Hkw (tail ++ codes " y}}").
    shift_by (keyword_prefix_is_path 16 kw tail (codes " y}}") (0 + 2)
                (or_intror (or_intror (or_introl eq_refl))) Hkw Hne Ht
                eq_refl).
    shift_by (Hy (0 + 2 + (length kw + length tail))%nat).
    lex_reduce_by (literal_token 3 (codes "}}") 51 _
                     anon_sym_RBRACE_RBRACE eq_refl (fun _ _ => eq_refl)
                     (0 + 2 + (length kw + length tail) + 2)%nat []).
    repeat reduce_pending. shift_pending.
    lex_reduce_by (end_token 39
                     (0 + 2 + (length kw + length tail) + 2
                      + length (codes "}}"))%nat
                     (or_intror (or_intror eq_refl))).
    repeat reduce_pending. accept_pending. reflexivity.
  - reflexivity.
Qed.

(** After ["{{#"] and ["{{/"] the path is the name of a block. *)
Lemma keyword_prefix_block :
  public_tree_of
    (parse (codes "{{#" ++ kw ++ tail ++ codes "}}" ++ codes "{{/"
              ++ kw ++ tail ++ codes "}}"))
  = [PNode sym_document
       [PNode sym_template_body
          [PNode sym_handlebars_block
             [PNode sym_block_expression
                [PLeaf anon_sym_LBRACE_LBRACE_POUND 0 3;
                 PLeaf alias_sym_block_name 3 (3 + n);
                 PLeaf anon_sym_RBRACE_RBRACE (3 + n) (3 + n + 2)];
              PNode sym_close_block
                [PLeaf anon_sym_LBRACE_LBRACE_SLASH (3 + n + 2)
                   (3 + n + 2 + 3);
                 PLeaf alias_sym_block_name (3 + n + 2 + 3)
                   (3 + n + 2 + 3 + n);
                 PLeaf anon_sym_RBRACE_RBRACE (3 + n + 2 + 3 + n)
                   (3 + n + 2 + 3 + n + 2)]]]]].
Proof.
  eapply eq_trans.
  - apply (public_tree_by_fuel _ 12); [lia|].
    shift_by (literal_token 37 (codes "{{#") 50 _
                anon_sym_LBRACE_LBRACE_POUND eq_refl (fun _ _ => eq_refl)
                0%nat
                (kw ++ tail ++ codes "}}" ++ codes "{{/"
                   ++ kw ++ tail ++ codes "}}")).
    shift_by (keyword_prefix_is_path 29 kw tail
                (codes "}}" ++ codes "{{/" ++ kw ++ tail ++ codes "}}")
                (0 + length (codes "{{#"))
                (or_intror (or_intror (or_intror (or_introl eq_refl))))
                Hkw Hne Ht eq_refl).
    shift_by (literal_token 3 (codes "}}") 51 _
                anon_sym_RBRACE_RBRACE eq_refl (fun _ _ => eq_refl)
                (0 + length (codes "{{#")
                 + (length kw + length tail))%nat
                (codes "{{/" ++ kw ++ tail ++ codes "}}")).
    lex_reduce_by (literal_token 5 (codes "{{/") 52 _
                     anon_sym_LBRACE_LBRACE_SLASH eq_refl
                     (fun _ _ => eq_refl)
                     (0 + length (codes "{{#")
                      + (length kw + length tail)
                      + length (codes "}}"))%nat
                     (kw ++ tail ++ codes "}}")).
    shift_pending.
    shift_by (keyword_prefix_is_path 29 kw tail (codes "}}")
                (0 + length (codes "{{#") + (length kw + length tail)
                 + length (codes "}}") + length (codes "{{/"))
                (or_intror (or_intror (or_intror (or_introl eq_refl))))
                Hkw Hne Ht eq_refl).
    shift_by (literal_token 0 (codes "}}") 51 _
                anon_sym_RBRACE_RBRACE eq_refl (fun _ _ => eq_refl)
                (0 + length (codes "{{#") + (length kw + length tail)
                 + length (codes "}}") + length (codes "{{/")
                 + (length kw + length tail))%nat []).
    lex_reduce_by (end_token 39
                     (0 + length (codes "{{#")
                      + (length kw + length tail)
                      + length (codes "}}") + length (codes "{{/")
                      + (length kw + length tail)
                      + length (codes "}}"))%nat
                     (or_intror (or_intror eq_refl))).
    repeat reduce_pending. accept_pending. reflexivity.
  - reflexivity.
Qed.

(** After ["{{>"] the path is the name of a partial. *)
Lemma keyword_prefix_partial :
  public_tree_of (parse (codes "{{>" ++ kw ++ tail ++ codes "}}"))
  = [PNode sym_document
       [PNode sym_template_body
          [PNode sym_handlebars_expression
             [PLeaf anon_sym_LBRACE_LBRACE 0 2;
              PNode sym_expression_content
                [PLeaf anon_sym_GT 2 3;
                 PLeaf alias_sym_partial_reference 3 (3 + n)];
              PLeaf anon_sym_RBRACE_RBRACE (3 + n) (3 + n + 2)]]]].
Proof.
  eapply eq_trans.
  - apply (public_tree_by_fuel _ 12); [lia|].
    shift_by (open_expression_token 62 (kw ++ tail ++ codes "}}") 0
                ltac:(discriminate) ltac:(discriminate)).
    shift_by (literal_token 16 (codes ">") 55 _ anon_sym_GT eq_refl
                (fun _ _ => eq_refl) (0 + 2)%nat
                (kw ++ tail ++ codes "}}")).
    shift_by (keyword_prefix_is_path 29 kw tail (codes "}}")
                (0 + 2 + length (codes ">"))
                (or_intror (or_intror (or_intror (or_introl eq_refl))))
                Hkw Hne Ht eq_refl).
    lex_reduce_by (literal_token 3 (codes "}}") 51 _
                     anon_sym_RBRACE_RBRACE eq_refl (fun _ _ => eq_refl)
                     (0 + 2 + length (codes ">")
                      + (length kw + length tail))%nat []).
    repeat reduce_pending. shift_pending.
    lex_reduce_by (end_token 39
                     (0 + 2 + length (codes ">")
                      + (length kw + length tail)
                      + length (codes "}}"))%nat
                     (or_intror (or_intror eq_refl))).
    repeat reduce_pending. accept_pending. reflexivity.
  - reflexivity.
Qed.

(** As an argument the path is a [variable_reference]. *)
Lemma keyword_prefix_argument :
  public_tree_of (parse (codes "{{y " ++ kw ++ tail ++ codes "}}"))
  = [PNode sym_document
       [PNode sym_template_body
          [PNode sym_handlebars_expression
             [PLeaf anon_sym_LBRACE_LBRACE 0 2;
              PNode sym_expression_content
                [PLeaf alias_sym_helper_name 2 3;
                 PNode sym_argument
                   [PNode sym_variable_reference
                      [PLeaf sym_path 4 (4 + n)]]];
              PLeaf anon_sym_RBRACE_RBRACE (4 + n) (4 + n + 2)]]]].
Proof.
  eapply eq_trans.
  - apply (public_tree_by_fuel _ 16); [lia|].
    shift_by (open_expression_token 121 (32 :: kw ++ tail ++ codes "}}") 0
                ltac:(discriminate) ltac:(discriminate)).
    shift_by (helper_y_token 32 (kw ++ tail ++ codes "}}") (0 + 2) eq_refl).
    shift_by (keyword_prefix_after_blank (codes "}}") (0 + 2 + 1) eq_refl).
    lex_reduce_by (literal_token 3 (codes "}}") 51 _
                     anon_sym_RBRACE_RBRACE eq_refl (fun _ _ => eq_refl)
                     (0 + 2 + 1 + 1 + (length kw + length tail))%nat []).
    repeat reduce_pending. shift_pending.
    lex_reduce_by (end_token 39
                     (0 + 2 + 1 + 1 + (length kw + length tail)
                      + length (codes "}}"))%nat
                     (or_intror (or_intror eq_refl))).
    repeat reduce_pending. accept_pending. reflexivity.
  - reflexivity.
Qed.

(** As the value of a hash parameter the path is a
    [variable_reference]. *)
Lemma keyword_prefix_hash_value :
  public_tree_of (parse (codes "{{y k=" ++ kw ++ tail ++ codes "}}"))
  = [PNode sym_document
       [PNode sym_template_body
          [PNode sym_handlebars_expression
             [PLeaf anon_sym_LBRACE_LBRACE 0 2;
              PNode sym_expression_content
                [PLeaf alias_sym_helper_name 2 3;
                 PNode sym_argument
                   [PNode sym_hash_param
                      [PLeaf alias_sym_key 4 5;
                       PLeaf anon_sym_EQ 5 6;
                       PNode sym_variable_reference
                         [PLeaf sym_path 6 (6 + n)]]]];
              PLeaf anon_sym_RBRACE_RBRACE (6 + n) (6 + n + 2)]]]].
Proof.
  eapply eq_trans.
  - apply (public_tree_by_fuel _ 20); [lia|].
    shift_by (open_expression_token 121
                (codes " k=" ++ kw ++ tail ++ codes "}}") 0
                ltac:(discriminate) ltac:(discriminate)).
    shift_by (helper_y_token 32 (codes "k=" ++ kw ++ tail ++ codes "}}")
                (0 + 2) eq_refl).
    shift_by (key_k_token (kw ++ tail ++ codes "}}") (0 + 2 + 1)).
    shift_by (literal_token 3 (codes "=") 65 _ anon_sym_EQ eq_refl
                (fun _ _ => eq_refl) (0 + 2 + 1 + 2)%nat
                (kw ++ tail ++ codes "}}")).
    shift_by (keyword_prefix_is_path 3 kw tail (codes "}}")
                (0 + 2 + 1 + 2 + length (codes "="))
                (or_intror (or_introl eq_refl)) Hkw Hne Ht eq_refl).
    lex_reduce_by (literal_token 3 (codes "}}") 51 _
                     anon_sym_RBRACE_RBRACE eq_refl (fun _ _ => eq_refl)
                     (0 + 2 + 1 + 2 + length (codes "=")
                      + (length kw + length tail))%nat []).
    repeat reduce_pending. shift_pending.
    lex_reduce_by (end_token 39
                     (0 + 2 + 1 + 2 + length (codes "=")
                      + (length kw + length tail)
                      + length (codes "}}"))%nat
                     (or_intror (or_intror eq_refl))).
    repeat reduce_pending. accept_pending. reflexivity.
  - reflexivity.
Qed.

(** Before ['='] the path is the key of a hash parameter. *)
Lemma keyword_prefix_hash_key :
  public_tree_of (parse (codes "{{y " ++ kw ++ tail ++ codes "=1}}"))
  = [PNode sym_document
       [PNode sym_template_body
          [PNode sym_handlebars_expression
             [PLeaf anon_sym_LBRACE_LBRACE 0 2;
              PNode sym_expression_content
                [PLeaf alias_sym_helper_name 2 3;
                 PNode sym_argument
                   [PNode sym_hash_param
                      [PLeaf alias_sym_key 4 (4 + n);
                       PLeaf anon_sym_EQ (4 + n) (4 + n + 1);
                       PLeaf sym_number (4 + n + 1) (4 + n + 1 + 1)]]];
              PLeaf anon_sym_RBRACE_RBRACE (4 + n + 1 + 1)
                (4 + n + 1 + 1 + 2)]]]].
Proof.
  assert (Hone : forall pos,
             ts_lex 3 pos (codes "1}}")
             = Some (Token sym_number (pos + 0) (pos + 1) (codes "}}")))
    by (intros pos; rewrite ts_lex_shift; reflexivity).
  eapply eq_trans.
  - apply (public_tree_by_fuel _ 20); [lia|].
    shift_by (open_expression_token 121
                (32 :: kw ++ tail ++ codes "=1}}") 0
                ltac:(discriminate) ltac:(discriminate)).
    shift_by (helper_y_token 32 (kw ++ tail ++ codes "=1}}") (0 + 2)
                eq_refl).
    shift_by (keyword_prefix_after_blank (codes "=1}}") (0 + 2 + 1)
                eq_refl).
    shift_by (literal_token 3 (codes "=") 65 _ anon_sym_EQ eq_refl
                (fun _ _ => eq_refl)
                (0 + 2 + 1 + 1 + (length kw + length tail))%nat
                (codes "1}}")).
    shift_by (Hone (0 + 2 + 1 + 1 + (length kw + length tail)
                    + length (codes "="))%nat).
    lex_reduce_by (literal_token 3 (codes "}}") 51 _
                     anon_sym_RBRACE_RBRACE eq_refl (fun _ _ => eq_refl)
                     (0 + 2 + 1 + 1 + (length kw + length tail)
                      + length (codes "=") + 1)%nat []).
    repeat reduce_pending. shift_pending.
    lex_reduce_by (end_token 39
                     (0 + 2 + 1 + 1 + (length kw + length tail)
                      + length (codes "=") + 1
                      + length (codes "}}"))%nat
                     (or_intror (or_intror eq_refl))).
    repeat reduce_pending. accept_pending. reflexivity.
  - rewrite !Nat.add_0_r. reflexivity.
Qed.

End KeywordPrefix.

(** C9, as stated, fails: an identifier that starts with a keyword is
    one path token, but the path is not parsed as a [variable_reference]
    in every position.  In ["{{elsex y}}"] the token [elsex] is the
    [helper_name], in ["{{#truex}}{{/truex}}"] the token [truex] is the
    [block_name], and in ["{{> falsey}}"] the token [falsey] is the
    [partial_reference]. *)
Lemma C9_counterexample :
  ts_lex 16 2 (codes "elsex y}}") = Some (Token sym_path 2 7 (codes " y}}"))
  /\ public_tree_of (parse (codes "{{elsex y}}"))
     = [PNode sym_document
          [PNode sym_template_body
             [PNode sym_handlebars_expression
                [PLeaf anon_sym_LBRACE_LBRACE 0 2;
                 PNode sym_expression_content
                   [PLeaf alias_sym_helper_name 2 7;
                    PNode sym_argument
                      [PNode sym_variable_reference [PLeaf sym_path 8 9]]];
                 PLeaf anon_sym_RBRACE_RBRACE 9 11]]]]
  /\ public_tree_of (parse (codes "{{#truex}}{{/truex}}"))
     = [PNode sym_document
          [PNode sym_template_body
             [PNode sym_handlebars_block
                [PNode sym_block_expression
                   [PLeaf anon_sym_LBRACE_LBRACE_POUND 0 3;
                    PLeaf alias_sym_block_name 3 8;
                    PLeaf anon_sym_RBRACE_RBRACE 8 10];
                 PNode sym_close_block
                   [PLeaf anon_sym_LBRACE_LBRACE_SLASH 10 13;
                    PLeaf alias_sym_block_name 13 18;
                    PLeaf anon_sym_RBRACE_RBRACE 18 20]]]]]
  /\ public_tree_of (parse (codes "{{> falsey}}"))
     = [PNode sym_document
          [PNode sym_template_body
             [PNode sym_handlebars_expression
                [PLeaf anon_sym_LBRACE_LBRACE 0 2;
                 PNode sym_expression_content
                   [PLeaf anon_sym_GT 2 3;
                    PLeaf alias_sym_partial_reference 4 10];
                 PLeaf anon_sym_RBRACE_RBRACE 10 12]]]].
Proof. repeat split; vm_compute; reflexivity. Qed.

(** C9 (amended): a keyword token ([true], [false], [else]) is never
    followed by an identifier character or a dot; an identifier that
    starts with one of the three words is one [path] token in every mode
    that reads identifiers (lex states 0, 3, 16 and 29), never a keyword
    and a second token; and what the path is parsed as depends on its
    position.  Where it is a value, alone in an expression, as an
    argument or as the value of a hash parameter, it is a
    [variable_reference]; where it is a name, it is the [helper_name]
    before an argument, the [block_name] after ["{{#"] and ["{{/"], the
    [partial_reference] after ["{{>"] and the [key] before ['=']. *)
Theorem C9_keywords_maximal_munch :
  (forall s pos chars sym a b rest,
      ts_lex s pos chars = Some (Token sym a b rest) ->
      is_keyword sym = true ->
      is_path_char (hd 0 rest) = false)
  /\ (forall s kw tail rest pos,
        In s [0; 3; 16; 29] ->
        In kw [codes "true"; codes "false"; codes "else"] ->
        tail <> [] ->
        Forall (fun c => is_path_char c = true) tail ->
        is_path_char (hd 0 rest) = false ->
        ts_lex s pos (kw ++ tail ++ rest)
        = Some (Token sym_path pos (pos + (length kw + length tail)) rest))
  /\ (forall kw tail,
        In kw [codes "true"; codes "false"; codes "else"] ->
        tail <> [] ->
        Forall (fun c => is_path_char c = true) tail ->
        let n := (length kw + length tail)%nat in
        let expression content close_at :=
          [PNode sym_document
             [PNode sym_template_body
                [PNode sym_handlebars_expression
                   [PLeaf anon_sym_LBRACE_LBRACE 0 2;
                    PNode sym_expression_content content;
                    PLeaf anon_sym_RBRACE_RBRACE close_at (close_at + 2)]]]]
        in
        public_tree_of (parse (codes "{{" ++ kw ++ tail ++ codes "}}"))
        = expression
            [PNode sym_variable_reference [PLeaf sym_path 2 (2 + n)]]
            (2 + n)%nat
        /\ public_tree_of (parse (codes "{{y " ++ kw ++ tail ++ codes "}}"))
           = expression
               [PLeaf alias_sym_helper_name 2 3;
                PNode sym_argument
                  [PNode sym_variable_reference
                     [PLeaf sym_path 4 (4 + n)]]]
               (4 + n)%nat
        /\ public_tree_of
             (parse (codes "{{y k=" ++ kw ++ tail ++ codes "}}"))
           = expression
               [PLeaf alias_sym_helper_name 2 3;
                PNode sym_argument
                  [PNode sym_hash_param
                     [PLeaf alias_sym_key 4 5;
                      PLeaf anon_sym_EQ 5 6;
                      PNode sym_variable_reference
                        [PLeaf sym_path 6 (6 + n)]]]]
               (6 + n)%nat
        /\ public_tree_of
             (parse (codes "{{" ++ kw ++ tail ++ codes " y}}"))
           = expression
               [PLeaf alias_sym_helper_name 2 (2 + n);
                PNode sym_argument
                  [PNode sym_variable_reference
                     [PLeaf sym_path (2 + n + 1) (2 + n + 2)]]]
               (2 + n + 2)%nat
        /\ public_tree_of
             (parse (codes "{{#" ++ kw ++ tail ++ codes "}}" ++ codes "{{/"
                       ++ kw ++ tail ++ codes "}}"))
           = [PNode sym_document
                [PNode sym_template_body
                   [PNode sym_handlebars_block
                      [PNode sym_block_expression
                         [PLeaf anon_sym_LBRACE_LBRACE_POUND 0 3;
                          PLeaf alias_sym_block_name 3 (3 + n);
                          PLeaf anon_sym_RBRACE_RBRACE (3 + n) (3 + n + 2)];
                       PNode sym_close_block
                         [PLeaf anon_sym_LBRACE_LBRACE_SLASH (3 + n + 2)
                            (3 + n + 2 + 3);
                          PLeaf alias_sym_block_name (3 + n + 2 + 3)
                            (3 + n + 2 + 3 + n);
                          PLeaf anon_sym_RBRACE_RBRACE (3 + n + 2 + 3 + n)
                            (3 + n + 2 + 3 + n + 2)]]]]]
        /\ public_tree_of (parse (codes "{{>" ++ kw ++ tail ++ codes "}}"))
           = expression
               [PLeaf anon_sym_GT 2 3;
                PLeaf alias_sym_partial_reference 3 (3 + n)]
               (3 + n)%nat
        /\ public_tree_of
             (parse (codes "{{y " ++ kw ++ tail ++ codes "=1}}"))
           = expression
               [PLeaf alias_sym_helper_name 2 3;
                PNode sym_argument
                  [PNode sym_hash_param
                     [PLeaf alias_sym_key 4 (4 + n);
                      PLeaf anon_sym_EQ (4 + n) (4 + n + 1);
                      PLeaf sym_number (4 + n + 1) (4 + n + 1 + 1)]]]
               (4 + n + 1 + 1)%nat).
Proof.
  split; [|split].
  - intros s pos chars sym a b rest. apply keyword_then_not_path.
  - intros s kw tail rest pos. apply keyword_prefix_is_path.
  - intros kw tail Hkw Hne Ht n expression.
    refine (conj _ (conj _ (conj _ (conj _ (conj _ (conj _ _)))))).
    + now apply keyword_prefix_alone.
    + now apply keyword_prefix_argument.
    + now apply keyword_prefix_hash_value.
    + now apply keyword_prefix_helper.
    + now apply keyword_prefix_block.
    + now apply keyword_prefix_partial.
    + now apply keyword_prefix_hash_key.
Qed.

Lemma C9_keywords_maximal_munch_witness :
  ts_lex 3 0 (codes "true ") = Some (Token anon_sym_true 0 4 (codes " "))
  /\ is_path_char (hd 0 (codes " ")) = false
  /\ ts_lex 3 0 (codes "true" ++ codes "x" ++ codes " ")
     = Some (Token sym_path 0 5 (codes " "))
  /\ public_tree_of
       (parse (codes "{{" ++ codes "else" ++ codes ".x" ++ codes "}}"))
     = [PNode sym_document
          [PNode sym_template_body
             [PNode sym_handlebars_expression
                [PLeaf anon_sym_LBRACE_LBRACE 0 2;
                 PNode sym_expression_content
                   [PNode sym_variable_reference [PLeaf sym_path 2 8]];
                 PLeaf anon_sym_RBRACE_RBRACE 8 10]]]].
Proof.
  assert (E : ts_lex 3 0 (codes "true ")
              = Some (Token anon_sym_true 0 4 (codes " ")))
    by (vm_compute; reflexivity).
  assert (Hkw : In (codes "else")
                  [codes "true"; codes "false"; codes "else"])
    by (simpl; auto).
  assert (Hne : codes ".x" <> []) by discriminate.
  assert (Ht : Forall (fun c => is_path_char c = true) (codes ".x"))
    by (repeat constructor).
  split; [exact E|]. split; [|split].
  - exact (proj1 C9_keywords_maximal_munch 3 0%nat (codes "true ")
             anon_sym_true 0%nat 4%nat (codes " ") E eq_refl).
  - apply (proj1 (proj2 C9_keywords_maximal_munch) 3 (codes "true")
             (codes "x") (codes " ") 0%nat).
    + simpl; auto.
    + simpl; auto.
    + discriminate.
    + repeat constructor.
    + reflexivity.
  - exact (proj1 (proj2 (proj2 C9_keywords_maximal_munch) (codes "else")
                    (codes ".x") Hkw Hne Ht)).
Defined.

(** C10, as stated, fails: after ["{{x}}"] the text [" #"] is one text
    leaf of two code points, the blank and the ['#'], not a leaf of one. *)
Lemma C10_counterexample :
  ts_lex 39 5 (codes " #") = Some (Token sym_text 5 7 [])
  /\ public_tree_of (parse (codes "{{x}} #"))
     = [PNode sym_document
          [PNode sym_template_body
             [PNode sym_handlebars_expression
                [PLeaf anon_sym_LBRACE_LBRACE 0 2;
                 PNode sym_expression_content
                   [PNode sym_variable_reference [PLeaf sym_path 2 3]];
                 PLeaf anon_sym_RBRACE_RBRACE 3 5];
              PLeaf sym_text 5 7]]].
Proof. split; vm_compute; reflexivity. Qed.

(** C10 (amended): every text token stops before a ['#'] or right after
    one: no ['#'] lies before its last code point, and when it ends with
    ['#'] all that comes before in the token is whitespace.  So a ['#'] in
    template text ends the text leaf that holds it, alone or after the
    whitespace the leaf began with, and [a#b] gives the three text leaves
    [a], [#] and [b]. *)
Theorem C10_hash_ends_text_token :
  (forall s chars a b rest,
      ts_lex s 0 chars = Some (Token sym_text a b rest) ->
      (forall i, (a <= i)%nat -> (i + 1 < b)%nat -> nth i chars 0 <> 35)
      /\ (nth (b - 1) chars 0 = 35 ->
          forall i, (a <= i)%nat -> (i + 1 < b)%nat ->
                    is_space (nth i chars 0) = true))
  /\ public_tree_of (parse (codes "a#b"))
     = [PNode sym_document
          [PNode sym_template_body
             [PLeaf sym_text 0 1; PLeaf sym_text 1 2; PLeaf sym_text 2 3]]].
Proof.
  split; [|vm_compute; reflexivity].
  intros s chars a b rest. apply text_token_hash.
Qed.

Lemma C10_hash_ends_text_token_witness :
  ts_lex 39 0 (codes " #b") = Some (Token sym_text 0 2 (codes "b"))
  /\ nth 0 (codes " #b") 0 <> 35.
Proof.
  assert (E : ts_lex 39 0 (codes " #b")
              = Some (Token sym_text 0 2 (codes "b")))
    by (vm_compute; reflexivity).
  split; [exact E|].
  apply (proj1 (proj1 C10_hash_ends_text_token 39 (codes " #b") 0%nat 2%nat
                  (codes "b") E) 0%nat); lia.
Defined.

(** * Further properties of the lexer and of the tables *)

(** ** The scan as a whole *)

Lemma lex_loop_more_fuel :
  forall fuel s pos chars st mk r,
    lex_loop fuel s pos chars st mk = Some r ->
    forall fuel', (fuel <= fuel')%nat ->
                  lex_loop fuel' s pos chars st mk = Some r.
Proof.
  induction fuel as [|fuel IH]; intros s pos chars st mk r H fuel' Hf;
    [discriminate|].
  destruct fuel' as [|fuel']; [lia|].
  simpl lex_loop in *.
  destruct (ts_lex_state s (hd 0 chars) (at_eof chars)) as [acc act].
  destruct (advance pos chars) as [pos' chars'].
  destruct act as [s'|s'|]; [| |exact H]; (eapply IH; [exact H|lia]).
Qed.

(** An invariant of the scan [ts_lex] makes holds of the state it ends
    in. *)
Lemma ts_lex_invariant (chars : list Z)
    (P : Z -> nat -> nat -> option (TSSymbol * nat) -> Prop) :
  (forall s k st mk acc s',
      (k <= length chars)%nat -> P s k st mk ->
      ts_lex_state s (look chars k) (ended chars k) = (acc, ADVANCE s') ->
      P s' (next_pos chars k) st (mark_at acc k mk)) ->
  (forall s k st mk acc s',
      (k <= length chars)%nat -> P s k st mk ->
      ts_lex_state s (look chars k) (ended chars k) = (acc, SKIP s') ->
      P s' (next_pos chars k) (next_pos chars k) (mark_at acc k mk)) ->
  forall s r,
    P s 0%nat 0%nat None ->
    ts_lex s 0 chars = Some r ->
    exists s' k' st' mk' acc,
      (k' <= length chars)%nat /\ P s' k' st' mk'
      /\ ts_lex_state s' (look chars k') (ended chars k') = (acc, END_STATE)
      /\ r = finish st' (abs_mark chars (mark_at acc k' mk')).
Proof.
  intros Hadv Hskip s r H0 E. unfold ts_lex in E.
  change chars with (skipn 0 chars) in E at 2.
  change (@None (TSSymbol * nat * list Z)) with (abs_mark chars None) in E.
  exact (lex_loop_invariant chars P Hadv Hskip _ _ _ _ _ _
           (Nat.le_0_l _) H0 E).
Qed.

(** A token found from the cursor [pos] is the token found from 0,
    moved by [pos]. *)
Lemma ts_lex_token_at_0 (s : Z) (pos : nat) (chars : list Z)
    (sym : TSSymbol) (a b : nat) (rest : list Z) :
  ts_lex s pos chars = Some (Token sym a b rest) ->
  exists a0 b0,
    ts_lex s 0 chars = Some (Token sym a0 b0 rest)
    /\ a = (pos + a0)%nat /\ b = (pos + b0)%nat.
Proof.
  rewrite ts_lex_shift.
  destruct (ts_lex s 0 chars) as [[sy a0 b0 r0|]|]; simpl; try discriminate.
  intros H. injection H as <- <- <- <-. eauto.
Qed.

(** X1: the scanning loop of [ts_lex] ends within two passes more than
    there are code points left, in every state and on every text: with
    that many passes or more it returns, and what it returns is the
    result of [ts_lex]. *)
Theorem ts_lex_terminates (state : Z) (pos : nat) (chars : list Z)
    (fuel : nat) :
  (length chars + 2 <= fuel)%nat ->
  exists r, lex_loop fuel state pos chars pos None = Some r
            /\ ts_lex state pos chars = Some r.
Proof.
  intros Hf.
  destruct (lex_loop_total chars (S (S (length chars))) state pos pos None
              (Nat.le_refl _)) as [r Hr].
  exists r. split; [|exact Hr].
  apply (lex_loop_more_fuel _ _ _ _ _ _ _ Hr). lia.
Qed.

Lemma ts_lex_terminates_witness :
  exists r, lex_loop 7 3 0 (codes " x}}") 0 None = Some r
            /\ ts_lex 3 0 (codes " x}}") = Some r.
Proof.
  apply (ts_lex_terminates 3 0 (codes " x}}") 7). simpl. lia.
Defined.

(** X2: a token [ts_lex] returns lies ahead of the cursor and inside the
    text, the text left is what follows its end, and all that lies
    between the cursor and its start is whitespace. *)
Theorem ts_lex_token_span (s : Z) (pos : nat) (chars : list Z)
    (sym : TSSymbol) (a b : nat) (rest : list Z) :
  ts_lex s pos chars = Some (Token sym a b rest) ->
  (pos <= a)%nat /\ (a <= b)%nat /\ (b <= pos + length chars)%nat
  /\ rest = skipn (b - pos) chars
  /\ (forall i, (i < a - pos)%nat -> is_space (nth i chars 0) = true).
Proof. apply ts_lex_wf. Qed.

Lemma ts_lex_token_span_witness :
  ts_lex 3 4 (codes " x}}") = Some (Token sym_path 5 6 (codes "}}"))
  /\ (4 <= 5)%nat /\ (5 <= 6)%nat /\ (6 <= 4 + length (codes " x}}"))%nat
  /\ codes "}}" = skipn (6 - 4) (codes " x}}")
  /\ (forall i, (i < 5 - 4)%nat -> is_space (nth i (codes " x}}") 0) = true).
Proof.
  assert (E : ts_lex 3 4 (codes " x}}")
              = Some (Token sym_path 5 6 (codes "}}")))
    by (vm_compute; reflexivity).
  split; [exact E|].
  exact (ts_lex_token_span 3 4 (codes " x}}") sym_path 5 6 (codes "}}") E).
Defined.

(** No state consumes a NUL code point. *)
Lemma nul_ends (s : Z) : snd (ts_lex_state s 0 false) = END_STATE.
Proof. each_state s; vm_compute; reflexivity. Qed.

Lemma nul_free_step (chars0 : list Z) (s : Z) (k st st' : nat)
    (mk : option (TSSymbol * nat)) (acc : option TSSymbol) (s' : Z) :
  nul_free chars0 s k st mk ->
  snd (ts_lex_state s (look chars0 k) (ended chars0 k)) <> END_STATE ->
  nul_free chars0 s' (next_pos chars0 k) st' (mark_at acc k mk).
Proof.
  intros [H1 H2] Hact.
  pose proof (next_pos_ge chars0 k) as Hge.
  split.
  - intros i Hi.
    destruct (next_pos_cases chars0 k) as [[_ Hn]|[He Hn]];
      rewrite Hn in Hi; [now apply H1|].
    destruct (Nat.eq_dec i k) as [->|]; [|apply H1; lia].
    intros Hz. apply Hact. rewrite Hz, He. apply nul_ends.
  - intros sym e Hm. destruct acc as [x|]; simpl in Hm.
    + injection Hm as _ <-. exact Hge.
    + specialize (H2 _ _ Hm). lia.
Qed.

(** X3: the lexer never reads past a NUL code point: no code point of a
    token, nor of the whitespace skipped before it, is NUL. *)
Theorem ts_lex_stops_at_nul (s : Z) (pos : nat) (chars : list Z)
    (sym : TSSymbol) (a b : nat) (rest : list Z) :
  ts_lex s pos chars = Some (Token sym a b rest) ->
  forall i, (i < b - pos)%nat -> nth i chars 0 <> 0.
Proof.
  intros H i Hi.
  destruct (ts_lex_token_at_0 _ _ _ _ _ _ _ H) as (a0 & b0 & E & -> & ->).
  assert (H0 : nul_free chars s 0 0 None).
  { split; [intros; lia|discriminate]. }
  destruct (ts_lex_invariant chars (nul_free chars)) with (s := s)
    (r := Token sym a0 b0 rest)
    as (s' & k' & st' & mk' & acc & Hk & [H1 H2] & Hend & Hr); auto.
  - intros s0 k st mk acc0 s1 _ HP E0.
    eapply nul_free_step; [exact HP|]. rewrite E0. discriminate.
  - intros s0 k st mk acc0 s1 _ HP E0.
    eapply nul_free_step; [exact HP|]. rewrite E0. discriminate.
  - assert (Hb : (b0 <= k')%nat).
    { destruct acc as [x|]; simpl in Hr.
      - injection Hr as _ _ -> _. lia.
      - destruct mk' as [[sy e]|]; simpl in Hr; [|discriminate].
        injection Hr as _ _ -> _. exact (H2 _ _ eq_refl). }
    apply H1. lia.
Qed.

Lemma ts_lex_stops_at_nul_witness :
  ts_lex 5 0 [97; 98; 0; 99] = Some (Token sym_text 0 2 [0; 99])
  /\ nth 1 [97; 98; 0; 99] 0 <> 0.
Proof.
  assert (E : ts_lex 5 0 [97; 98; 0; 99] = Some (Token sym_text 0 2 [0; 99]))
    by (vm_compute; reflexivity).
  split; [exact E|].
  apply (ts_lex_stops_at_nul 5 0 [97; 98; 0; 99] sym_text 0 2 [0; 99] E 1%nat).
  simpl. lia.
Defined.

(** ** The end-of-input token *)

(** State 40 is entered from the states that test [eof] only. *)
Lemma into_40_from (s c : Z) (eof : bool) :
  snd (ts_lex_state s c eof) = ADVANCE 40 -> eof_start s = true.
Proof.
  each_state s; open_state; cbv [snd]; split_ifs; intros H;
    try discriminate H; reflexivity.
Qed.

(** The states that test [eof] are entered by [SKIP] only. *)
Lemma eof_start_not_advanced (s c : Z) (eof : bool) (s' : Z) :
  snd (ts_lex_state s c eof) = ADVANCE s' -> eof_start s' = false.
Proof.
  each_state s; open_state; cbv [snd]; split_ifs; intros H;
    try discriminate H; injection H as <-; reflexivity.
Qed.

Lemma end_inv_marks (chars0 : list Z) (s : Z) (k st : nat)
    (mk : option (TSSymbol * nat)) (acc : option TSSymbol) (c : Z)
    (eof : bool) (act : lex_action) :
  end_inv chars0 s k st mk ->
  ts_lex_state s c eof = (acc, act) -> act <> END_STATE ->
  forall sym e, mark_at acc k mk = Some (sym, e) ->
                sym <> ts_builtin_sym_end.
Proof.
  intros [_ H2] E Hact sym e Hm. destruct acc as [x|]; simpl in Hm.
  - injection Hm as <- _. intros ->.
    assert (s = 40) by (eapply accepts_end; rewrite E; reflexivity).
    subst s. rewrite state_40 in E. injection E as <-. now apply Hact.
  - exact (H2 _ _ Hm).
Qed.

(** X4: the end-of-input token is found at the end of the input only.  In
    the lexical mode of every parse state, a token [ts_builtin_sym_end] is
    empty, it starts and ends where the text ends, and all the text
    between the cursor and the end is whitespace. *)
Theorem end_token_only_at_end (state : TSStateId) (pos : nat)
    (chars : list Z) (a b : nat) (rest : list Z) :
  ts_lex (ts_lex_modes state) pos chars
  = Some (Token ts_builtin_sym_end a b rest) ->
  a = (pos + length chars)%nat /\ b = a /\ rest = []
  /\ Forall (fun c => is_space c = true) chars.
Proof.
  intros H.
  destruct (ts_lex_wf_from _ _ _ _ _ _ _ (ts_lex_modes_not_40 state) H)
    as (H1 & H2 & H3 & H4 & H5 & H6).
  specialize (H6 eq_refl).
  assert (Hab : a = b).
  { destruct (ts_lex_token_at_0 _ _ _ _ _ _ _ H) as (a0 & b0 & E & -> & ->).
    f_equal.
    assert (H0 : end_inv chars (ts_lex_modes state) 0 0 None).
    { split; [reflexivity|discriminate]. }
    destruct (ts_lex_invariant chars (end_inv chars))
      with (s := ts_lex_modes state) (r := Token ts_builtin_sym_end a0 b0 rest)
      as (s' & k' & st' & mk' & acc & Hk & [P1 P2] & Hend & Hr); auto.
    - intros s0 k st mk acc0 s1 _ HP E0. split.
      + intros [Hs| ->].
        * rewrite (eof_start_not_advanced s0 (look chars k)
                     (ended chars k) s1) in Hs;
            [discriminate|now rewrite E0].
        * assert (He : ended chars k = true)
            by (eapply into_state_40; rewrite E0; simpl; eauto).
          unfold next_pos. rewrite He. apply (proj1 HP). left.
          eapply into_40_from. rewrite E0. reflexivity.
      + eapply end_inv_marks; [exact HP|exact E0|discriminate].
    - intros s0 k st mk acc0 s1 _ HP E0. split; [reflexivity|].
      eapply end_inv_marks; [exact HP|exact E0|discriminate].
    - destruct acc as [x|]; simpl in Hr.
      + injection Hr as Hx -> -> _. subst x.
        assert (s' = 40) by (eapply accepts_end; rewrite Hend; reflexivity).
        rewrite P1 by auto. apply Nat.min_id.
      + destruct mk' as [[sy e]|]; simpl in Hr; [|discriminate].
        injection Hr as Hx _ _ _. now elim (P2 _ _ eq_refl). }
  refine (conj _ (conj _ (conj _ _))); try lia.
  - rewrite H4. apply skipn_all2. lia.
  - apply Forall_forall. intros c Hc.
    destruct (In_nth _ _ 0 Hc) as (i & Hi & <-). apply H5. lia.
Qed.

Lemma end_token_only_at_end_witness :
  ts_lex (ts_lex_modes 62) 3 (codes "  ")
  = Some (Token ts_builtin_sym_end 5 5 [])
  /\ 5%nat = (3 + length (codes "  "))%nat
  /\ Forall (fun c => is_space c = true) (codes "  ").
Proof.
  assert (E : ts_lex (ts_lex_modes 62) 3 (codes "  ")
              = Some (Token ts_builtin_sym_end 5 5 []))
    by (vm_compute; reflexivity).
  pose proof (end_token_only_at_end 62 3 (codes "  ") 5 5 [] E) as H.
  split; [exact E|]. split; [exact (proj1 H)|exact (proj2 (proj2 (proj2 H)))].
Defined.

(** ** The tokens of each lexical mode *)

Lemma mem_In (s : Z) (l : list Z) : mem s l = true -> In s l.
Proof.
  unfold mem. intros H. apply existsb_exists in H.
  destruct H as (x & Hx & E). apply Z.eqb_eq in E. now subst x.
Qed.

Lemma symbol_eqb_eq (a b : TSSymbol) : symbol_eqb a b = true -> a = b.
Proof. destruct a, b; intros H; try reflexivity; discriminate H. Qed.

Lemma symbol_mem_In (sym : TSSymbol) (l : list TSSymbol) :
  symbol_mem sym l = true -> In sym l.
Proof.
  unfold symbol_mem. intros H. apply existsb_exists in H.
  destruct H as (x & Hx & E). apply symbol_eqb_eq in E. now subst x.
Qed.

Lemma In_symbol_mem (sym : TSSymbol) (l : list TSSymbol) :
  In sym l -> symbol_mem sym l = true.
Proof.
  unfold symbol_mem. intros H. apply existsb_exists.
  exists sym. split; [exact H|]. now destruct sym.
Qed.

Lemma ts_lex_modes_in (state : TSStateId) :
  In (ts_lex_modes state) lex_modes.
Proof.
  each_state state; cbv [ts_lex_modes lex_modes In]; auto 20.
Qed.

Ltac each_mode_state Hs :=
  apply mem_In in Hs; cbv [mode_states In] in Hs;
  repeat (destruct Hs as [Hs|Hs]; [subst|]); try contradiction.

(** The states of a mode are closed under the moves of the automaton. *)
Lemma mode_closed (m s c : Z) (eof : bool) (s' : Z) :
  In m lex_modes ->
  mem s (mode_states m) = true ->
  snd (ts_lex_state s c eof) = ADVANCE s'
  \/ snd (ts_lex_state s c eof) = SKIP s' ->
  mem s' (mode_states m) = true.
Proof.
  intros Hm Hs. cbv [lex_modes In] in Hm.
  repeat (destruct Hm as [Hm|Hm]; [subst m|]); try contradiction;
    each_mode_state Hs; open_state; cbv [snd]; split_ifs;
      (intros [H|H]; try discriminate H; injection H as <-; reflexivity).
Qed.

(** What a state of a mode accepts is a token of the mode. *)
Lemma mode_accepts (m s c : Z) (eof : bool) (sym : TSSymbol) :
  In m lex_modes ->
  mem s (mode_states m) = true ->
  fst (ts_lex_state s c eof) = Some sym ->
  symbol_mem sym (mode_tokens m) = true.
Proof.
  intros Hm Hs. cbv [lex_modes In] in Hm.
  repeat (destruct Hm as [Hm|Hm]; [subst m|]); try contradiction;
    each_mode_state Hs; open_state; cbv [fst]; split_ifs;
      (intros H; try discriminate H; injection H as <-; reflexivity).
Qed.

Lemma sample_token (m : Z) (sym : TSSymbol) :
  In m lex_modes ->
  In sym (mode_tokens m) ->
  exists b,
    ts_lex m 0 (sample sym) = Some (Token sym 0 b []).
Proof.
  intros Hm Hs. cbv [lex_modes In] in Hm.
  repeat (destruct Hm as [Hm|Hm]; [subst m|]); try contradiction;
    cbv [mode_tokens In] in Hs;
    repeat (destruct Hs as [Hs|Hs]; [subst sym|]); try contradiction;
    eexists; vm_compute; reflexivity.
Qed.

Lemma mode_tokens_sound (m : Z) (pos : nat) (chars : list Z)
    (sym : TSSymbol) (a b : nat) (rest : list Z) :
  In m lex_modes ->
  ts_lex m pos chars = Some (Token sym a b rest) ->
  In sym (mode_tokens m).
Proof.
  intros Hm H.
  destruct (ts_lex_token_at_0 _ _ _ _ _ _ _ H) as (a0 & b0 & E & _ & _).
  assert (H0 : mode_inv m chars m 0 0 None).
  { split; [|discriminate].
    cbv [lex_modes In] in Hm.
    repeat (destruct Hm as [Hm|Hm]; [subst m|]); try contradiction;
      reflexivity. }
  assert (Hmk : forall s k st mk acc act,
             mode_inv m chars s k st mk ->
             ts_lex_state s (look chars k) (ended chars k) = (acc, act) ->
             forall sy e, mark_at acc k mk = Some (sy, e) ->
                          In sy (mode_tokens m)).
  { intros s k st mk acc act [P1 P2] E0 sy e Hmark.
    destruct acc as [x|]; simpl in Hmark.
    - injection Hmark as <- _. apply symbol_mem_In.
      eapply mode_accepts; [exact Hm|exact P1|]. rewrite E0. reflexivity.
    - exact (P2 _ _ Hmark). }
  destruct (ts_lex_invariant chars (mode_inv m chars)) with (s := m)
    (r := Token sym a0 b0 rest)
    as (s' & k' & st' & mk' & acc & Hk & HP & Hend & Hr); auto.
  - intros s0 k st mk acc0 s1 _ HP E0. split.
    + eapply mode_closed; [exact Hm|exact (proj1 HP)|].
      rewrite E0. left. reflexivity.
    + eapply Hmk; eauto.
  - intros s0 k st mk acc0 s1 _ HP E0. split.
    + eapply mode_closed; [exact Hm|exact (proj1 HP)|].
      rewrite E0. right. reflexivity.
    + eapply Hmk; eauto.
  - destruct (mark_at acc k' mk') as [[sy e]|] eqn:Em; simpl in Hr;
      [|discriminate].
    injection Hr as <- _ _ _. eapply Hmk; eauto.
Qed.

(** X5: the tokens of a lexical mode.  Entered in the mode [m], [ts_lex]
    returns tokens of [mode_tokens m] only, whatever the text, and each of
    them is returned on some text.  So the expression mode (3) never
    yields text or an opener, the modes of a template body under way (5,
    39) never yield a frontmatter delimiter or a header comment, and
    among the modes of template text ["{{/"] is a token of lex state 5
    only. *)
Theorem mode_tokens_exact (m : Z) (sym : TSSymbol) :
  In m lex_modes ->
  (In sym (mode_tokens m)
   <-> exists pos chars a b rest,
         ts_lex m pos chars = Some (Token sym a b rest)).
Proof.
  intros Hm. split.
  - intros Hs. destruct (sample_token m sym Hm Hs) as [b E].
    now exists 0%nat, (sample sym), 0%nat, b, [].
  - intros (pos & chars & a & b & rest & E).
    exact (mode_tokens_sound m pos chars sym a b rest Hm E).
Qed.

Lemma mode_tokens_exact_witness :
  In 39 lex_modes
  /\ (In sym_frontmatter_delimiter (mode_tokens 39)
      <-> exists pos chars a b rest,
            ts_lex 39 pos chars
            = Some (Token sym_frontmatter_delimiter a b rest)).
Proof.
  assert (Hm : In 39 lex_modes) by (do 11 right; left; reflexivity).
  split; [exact Hm|].
  exact (mode_tokens_exact 39 sym_frontmatter_delimiter Hm).
Defined.

(** ** The tables and the lexer *)

Lemma parse_states_in (state : TSStateId) :
  0 <= state < STATE_COUNT -> In state parse_states.
Proof.
  intros H. unfold parse_states.
  rewrite <- (Z2Nat.id state) by lia.
  apply in_map, in_seq. unfold STATE_COUNT in *. lia.
Qed.

Lemma terminals_in (sym : TSSymbol) :
  symbol_id sym < TOKEN_COUNT -> In sym terminals.
Proof.
  destruct sym; cbv [symbol_id TOKEN_COUNT]; intros H;
    try (exfalso; lia); apply symbol_mem_In; reflexivity.
Qed.

(** X6: the lexical modes fit the parse tables.  A terminal symbol for
    which the tables hold an entry in a parse state is a token of the
    lexical mode of that state: on some text [ts_lex], entered as
    [ts_lex_modes] says, returns it. *)
Theorem expected_tokens_lexable (state : TSStateId) (sym : TSSymbol)
    (v : Z) :
  0 <= state < STATE_COUNT ->
  symbol_id sym < TOKEN_COUNT ->
  In (sym, v) (table_row state) ->
  In sym (mode_tokens (ts_lex_modes state))
  /\ exists chars b rest,
       ts_lex (ts_lex_modes state) 0 chars = Some (Token sym 0 b rest).
Proof.
  intros Hstate Hsym Hrow.
  assert (Hin : In sym (mode_tokens (ts_lex_modes state))).
  { assert (Hall :
      forallb (fun st =>
        forallb (fun p =>
          if symbol_id (fst p) <? TOKEN_COUNT
          then symbol_mem (fst p) (mode_tokens (ts_lex_modes st))
          else true) (table_row st)) parse_states = true)
      by (vm_compute; reflexivity).
    rewrite forallb_forall in Hall.
    specialize (Hall state (parse_states_in state Hstate)).
    rewrite forallb_forall in Hall.
    specialize (Hall _ Hrow). cbn [fst] in Hall.
    apply Z.ltb_lt in Hsym. rewrite Hsym in Hall.
    now apply symbol_mem_In. }
  split; [exact Hin|].
  destruct (sample_token _ sym (ts_lex_modes_in state) Hin) as [b E].
  now exists (sample sym), b, [].
Qed.

Lemma expected_tokens_lexable_witness :
  0 <= 12 < STATE_COUNT
  /\ symbol_id sym_number < TOKEN_COUNT
  /\ In (sym_number, 94) (table_row 12)
  /\ In sym_number (mode_tokens (ts_lex_modes 12)).
Proof.
  assert (H1 : 0 <= 12 < STATE_COUNT) by (unfold STATE_COUNT; lia).
  assert (H2 : symbol_id sym_number < TOKEN_COUNT) by reflexivity.
  assert (H3 : In (sym_number, 94) (table_row 12))
    by (vm_compute; auto 20).
  repeat (split; [assumption|]).
  exact (proj1 (expected_tokens_lexable 12 sym_number 94 H1 H2 H3)).
Defined.

(** ** Template text always lexes *)

(** [ACCEPT_TOKEN] comes first in a state: what a state accepts does not
    depend on the lookahead. *)
Lemma accept_fixed (s c : Z) (eof : bool) :
  fst (ts_lex_state s c eof) = accepted s.
Proof.
  unfold accepted.
  each_state s; open_state; cbv [fst]; split_ifs; reflexivity.
Qed.

Lemma text_mode_is_mode (m : Z) : In m text_modes -> In m lex_modes.
Proof.
  cbv [text_modes lex_modes In]. intros [H|[H|[H|[H|[]]]]]; subst m; auto 20.
Qed.

(** A mode of template text moves on from any code point but NUL, into
    a state that accepts. *)
Lemma text_first_step (m c : Z) :
  In m text_modes -> c <> 0 ->
  exists s', snd (ts_lex_state m c false) = ADVANCE s'
             /\ accepted s' <> None.
Proof.
  cbv [text_modes In]. intros [H|[H|[H|[H|[]]]]] Hc; subst m;
    open_state; cbv [snd]; split_ifs;
      try (eexists; split; [reflexivity|discriminate]);
      exfalso; decide_chars.
Qed.

(** The states of a text mode are entered by [ADVANCE] only. *)
Lemma text_mode_no_skip (m s : Z) :
  In m text_modes ->
  mem s (mode_states m) = true -> skipping_state s = false.
Proof.
  cbv [text_modes In]. intros [H|[H|[H|[H|[]]]]] Hs; subst m;
    each_mode_state Hs; reflexivity.
Qed.

(** X7: template text always lexes, and loses nothing.  In the modes of
    template text (lex states 5, 37, 38, 39), on a text that starts with
    any code point but NUL, [ts_lex] returns a token that starts at the
    cursor, no whitespace skipped, and is not empty. *)
Theorem text_mode_always_token (m : Z) (pos : nat) (chars : list Z) :
  In m text_modes ->
  chars <> [] -> hd 0 chars <> 0 ->
  exists sym b rest,
    ts_lex m pos chars = Some (Token sym pos b rest) /\ (pos < b)%nat.
Proof.
  intros Hm Hne Hc.
  pose proof (text_mode_is_mode m Hm) as Hmode.
  assert (Hlook : look chars 0 = hd 0 chars) by (now destruct chars).
  assert (Hended : ended chars 0 = false) by (now destruct chars).
  destruct (ts_lex_total m 0 chars) as [r E].
  assert (H0 : text_scan_inv m chars m 0 0 None).
  { refine (conj eq_refl (conj _ (conj (fun _ => eq_refl) _))); [|lia].
    clear -Hm. cbv [text_modes In] in Hm.
    destruct Hm as [H|[H|[H|[H|[]]]]]; subst m; reflexivity. }
  assert (Hmk : forall s k mk acc,
             (0 < k)%nat ->
             fst (ts_lex_state s (look chars k) (ended chars k)) = acc ->
             (accepted s <> None
              \/ exists sym e, mk = Some (sym, e) /\ (0 < e)%nat) ->
             exists sym e, mark_at acc k mk = Some (sym, e) /\ (0 < e)%nat).
  { intros s k mk acc Hk Hacc Hor. rewrite accept_fixed in Hacc. subst acc.
    destruct (accepted s) as [x|]; simpl; [eauto|].
    destruct Hor as [Hx|Hx]; [congruence|exact Hx]. }
  destruct (ts_lex_invariant chars (text_scan_inv m chars)) with (s := m)
    (r := r) as (s' & k' & st' & mk' & acc & Hk & HP & Hend & Hr); auto.
  - intros s0 k st mk acc0 s1 Hk (P1 & P2 & P3 & P4) E0.
    assert (Hs1 : mem s1 (mode_states m) = true).
    { eapply mode_closed; [exact Hmode|exact P2|].
      rewrite E0. left. reflexivity. }
    refine (conj P1 (conj Hs1 (conj _ _))).
    + intros Hn. exfalso.
      destruct (next_pos_cases chars k) as [[He Hn']|[_ Hn']]; [|lia].
      rewrite Hn' in Hn. subst k. congruence.
    + intros _. destruct (Nat.eq_dec k 0) as [->|Hk0].
      * rewrite (P3 eq_refl), Hlook, Hended in E0.
        destruct (text_first_step m (hd 0 chars) Hm Hc) as (s2 & E2 & Ha).
        rewrite E0 in E2. injection E2 as <-. now left.
      * right. eapply Hmk; [lia|now rewrite E0|apply P4; lia].
  - intros s0 k st mk acc0 s1 _ (P1 & P2 & P3 & P4) E0. exfalso.
    assert (Hs1 : mem s1 (mode_states m) = true).
    { eapply mode_closed; [exact Hmode|exact P2|].
      rewrite E0. right. reflexivity. }
    pose proof (text_mode_no_skip m s1 Hm Hs1) as Hno.
    rewrite (skip_target s0 (look chars k) (ended chars k) s1) in Hno;
      [discriminate|now rewrite E0].
  - destruct HP as (P1 & P2 & P3 & P4). subst st'.
    assert (Hk' : (0 < k')%nat).
    { destruct (Nat.eq_dec k' 0) as [->|]; [|lia]. exfalso.
      rewrite (P3 eq_refl), Hlook, Hended in Hend.
      destruct (text_first_step m (hd 0 chars) Hm Hc) as (s2 & E2 & _).
      rewrite Hend in E2. discriminate. }
    destruct (Hmk s' k' mk' acc Hk') as (sym & e & Em & He);
      [now rewrite Hend|now apply P4|].
    rewrite Em in Hr. simpl in Hr. subst r.
    exists sym, (pos + e)%nat, (skipn e chars).
    rewrite ts_lex_shift, E. simpl. split; [|lia].
    now rewrite Nat.add_0_r.
Qed.

Lemma text_mode_always_token_witness :
  In 39 text_modes /\ codes "}} x" <> [] /\ hd 0 (codes "}} x") <> 0
  /\ exists sym b rest,
       ts_lex 39 7 (codes "}} x") = Some (Token sym 7 b rest) /\ (7 < b)%nat.
Proof.
  assert (H1 : In 39 text_modes) by (do 3 right; left; reflexivity).
  assert (H2 : codes "}} x" <> []) by discriminate.
  assert (H3 : hd 0 (codes "}} x") <> 0) by discriminate.
  repeat (split; [assumption|]).
  exact (text_mode_always_token 39 7 (codes "}} x") H1 H2 H3).
Defined.

(** ** Tokens that run over a class of characters, in general *)

Section Run.

Variable in_class : Z -> bool.
Variable in_run : Z -> Prop.
Variable sym : TSSymbol.

Hypothesis run_step :
  forall s c, in_run s -> in_class c = true ->
    exists s', in_run s'
               /\ ts_lex_state s c false = (Some sym, ADVANCE s').

Hypothesis run_stop :
  forall s c eof, in_run s -> in_class c = false ->
    ts_lex_state s c eof = (Some sym, END_STATE).

(** From a state of the run the token ends where the class ends. *)
Lemma class_run (body : list Z) :
  forall chars fuel s pos st mk,
    in_run s ->
    Forall (fun c => in_class c = true) body ->
    in_class (hd 0 chars) = false ->
    (length body < fuel)%nat ->
    lex_loop fuel s pos (body ++ chars) st mk
    = Some (finish st (Some (sym, (pos + length body)%nat, chars))).
Proof.
  induction body as [|c body IH]; intros chars fuel s pos st mk Hs Hb Hc Hf;
    (destruct fuel as [|fuel]; [simpl in Hf; lia|]).
  - simpl app. erewrite lex_loop_end; [|now apply run_stop].
    simpl. now rewrite Nat.add_0_r.
  - inversion Hb as [|? ? Hc0 Hb']; subst.
    destruct (run_step s c Hs Hc0) as (s' & Hs' & E).
    simpl app. erewrite lex_loop_advance; [|exact E].
    rewrite IH; auto; [|simpl in Hf; lia].
    simpl length. now rewrite Nat.add_succ_comm.
Qed.

End Run.

(** [ts_lex] after a first code point that leads into a run. *)
Lemma ts_lex_run (in_class : Z -> bool) (in_run : Z -> Prop)
    (sym : TSSymbol) (s : Z) (pre : list Z) (s1 : Z)
    (mk1 : option (TSSymbol * nat * list Z)) (body rest : list Z)
    (pos : nat) :
  (forall s c, in_run s -> in_class c = true ->
     exists s', in_run s'
                /\ ts_lex_state s c false = (Some sym, ADVANCE s')) ->
  (forall s c eof, in_run s -> in_class c = false ->
     ts_lex_state s c eof = (Some sym, END_STATE)) ->
  scan s pre 0 0 None = Some (s1, length pre, 0%nat, mk1) ->
  in_run s1 ->
  Forall (fun c => in_class c = true) body ->
  in_class (hd 0 rest) = false ->
  ts_lex s pos (pre ++ body ++ rest)
  = Some (Token sym pos (pos + (length pre + length body)) rest).
Proof.
  intros Hstep Hstop Hscan Hs1 Hb Hr.
  rewrite (ts_lex_prefix s pre s1 0 mk1 pos (body ++ rest) Hscan).
  rewrite (class_run in_class in_run sym Hstep Hstop body rest);
    auto; [|rewrite length_app; lia].
  simpl. now rewrite Nat.add_0_r.
Qed.

Ltac run_case :=
  first [ now (eexists; split; [|reflexivity]; auto)
        | reflexivity
        | exfalso; decide_chars ].

(** ** Header comments *)

Lemma header_step (s c : Z) :
  s = 41 -> is_line_char c = true ->
  exists s', s' = 41
             /\ ts_lex_state s c false = (Some sym_header_comment, ADVANCE s').
Proof.
  unfold is_line_char. intros -> Hc. open_state. split_ifs; run_case.
Qed.

Lemma header_stop (s c : Z) (eof : bool) :
  s = 41 -> is_line_char c = false ->
  ts_lex_state s c eof = (Some sym_header_comment, END_STATE).
Proof.
  unfold is_line_char. intros -> Hc. open_state. split_ifs; run_case.
Qed.

(** At the start of the document whitespace leads to state 93, and a
    ['#'] from there to state 41. *)
Lemma space_then_hash (ws : list Z) :
  forall s pos st mk,
    s = 37 \/ s = 93 ->
    Forall (fun c => is_space c = true) ws ->
    exists mk',
      scan s (ws ++ [35]) pos st mk
      = Some (41, (pos + (length ws + 1))%nat, st, mk').
Proof.
  induction ws as [|c ws IH]; intros s pos st mk Hs Hws.
  - destruct Hs as [->| ->]; eexists; simpl; rewrite Nat.add_1_r;
      reflexivity.
  - inversion Hws as [|? ? Hc Hws']; subst.
    assert (E : exists acc, ts_lex_state s c false = (acc, ADVANCE 93)).
    { unfold is_space in Hc.
      destruct Hs as [->| ->]; open_state; split_ifs;
        try (eexists; reflexivity); exfalso; decide_chars. }
    destruct E as [acc E].
    destruct (IH 93 (S pos) st (mark acc pos ((c :: ws) ++ [35]) mk))
      as [mk' E']; auto.
    exists mk'. simpl. rewrite E. simpl in E'. rewrite E'.
    do 4 f_equal. lia.
Qed.

(** X8: a header comment runs from its ['#'] to the end of the line, the
    line end left out, in frontmatter (lex state 4) as at the start of the
    document (lex state 37); and at the start of the document the
    whitespace before the ['#'], line ends included, belongs to the
    token. *)
Theorem header_comment_token (ws body rest : list Z) (pos : nat) :
  Forall (fun c => is_space c = true) ws ->
  Forall (fun c => is_line_char c = true) body ->
  is_line_char (hd 0 rest) = false ->
  ts_lex 37 pos (ws ++ 35 :: body ++ rest)
  = Some (Token sym_header_comment pos
            (pos + (length ws + 1 + length body)) rest)
  /\ ts_lex 4 pos (35 :: body ++ rest)
     = Some (Token sym_header_comment pos (pos + (1 + length body)) rest).
Proof.
  intros Hws Hb Hr. split.
  - destruct (space_then_hash ws 37 0 0 None (or_introl eq_refl) Hws)
      as [mk' E].
    change (ws ++ 35 :: body ++ rest) with (ws ++ [35] ++ body ++ rest).
    rewrite app_assoc.
    assert (Hl : length (ws ++ [35]) = (length ws + 1)%nat)
      by (rewrite length_app; reflexivity).
    rewrite <- Hl in E |- *.
    exact (ts_lex_run is_line_char (fun s => s = 41) sym_header_comment
             37 (ws ++ [35]) 41 mk' body rest pos
             header_step header_stop E eq_refl Hb Hr).
  - exact (ts_lex_run is_line_char (fun s => s = 41) sym_header_comment
             4 [35] 41 None body rest pos
             header_step header_stop eq_refl eq_refl Hb Hr).
Qed.

Lemma header_comment_token_witness :
  Forall (fun c => is_space c = true) [10; 32]
  /\ ts_lex 37 0 ([10; 32] ++ 35 :: codes " note" ++ [10; 97])
     = Some (Token sym_header_comment 0 8 [10; 97]).
Proof.
  assert (H1 : Forall (fun c => is_space c = true) [10; 32])
    by (repeat constructor).
  assert (H2 : Forall (fun c => is_line_char c = true) (codes " note"))
    by (repeat constructor).
  split; [exact H1|].
  exact (proj1 (header_comment_token [10; 32] (codes " note") [10; 97] 0
                  H1 H2 eq_refl)).
Defined.

(** ** Frontmatter keys and values *)

Lemma key_step (s c : Z) :
  s = 46 -> is_key_char c = true ->
  exists s', s' = 46
             /\ ts_lex_state s c false
                = (Some aux_sym_yaml_line_token1, ADVANCE s').
Proof.
  unfold is_key_char. intros -> Hc. open_state. rewrite Hc. eauto.
Qed.

Lemma key_stop (s c : Z) (eof : bool) :
  s = 46 -> is_key_char c = false ->
  ts_lex_state s c eof = (Some aux_sym_yaml_line_token1, END_STATE).
Proof.
  unfold is_key_char. intros -> Hc. open_state. now rewrite Hc.
Qed.

(** X9: a frontmatter key (lex state 4) is a letter or ['_'] and the
    letters, digits, ['_'] and ['-'] that follow: the token ends before
    the first other character, the [':'] for one. *)
Theorem yaml_key_token (c : Z) (body rest : list Z) (pos : nat) :
  is_ident_start c = true ->
  Forall (fun c => is_key_char c = true) body ->
  is_key_char (hd 0 rest) = false ->
  ts_lex 4 pos (c :: body ++ rest)
  = Some (Token aux_sym_yaml_line_token1 pos (pos + (1 + length body)) rest).
Proof.
  intros Hc Hb Hr.
  assert (E : ts_lex_state 4 c false = (None, ADVANCE 46)).
  { unfold is_ident_start in Hc. open_state. split_ifs; run_case. }
  assert (Hs : scan 4 [c] 0 0 None = Some (46, 1%nat, 0%nat, None))
    by (unfold scan; rewrite E; reflexivity).
  exact (ts_lex_run is_key_char (fun s => s = 46) aux_sym_yaml_line_token1
           4 [c] 46 None body rest pos key_step key_stop Hs eq_refl Hb Hr).
Qed.

Lemma yaml_key_token_witness :
  is_ident_start 109 = true
  /\ ts_lex 4 0 (109 :: codes "ax-tokens" ++ codes ": 5")
     = Some (Token aux_sym_yaml_line_token1 0 10 (codes ": 5")).
Proof.
  assert (H1 : is_ident_start 109 = true) by reflexivity.
  assert (H2 : Forall (fun c => is_key_char c = true) (codes "ax-tokens"))
    by (repeat constructor).
  split; [exact H1|].
  exact (yaml_key_token 109 (codes "ax-tokens") (codes ": 5") 0
           H1 H2 eq_refl).
Defined.

Lemma value_step (s c : Z) :
  s = 49 -> is_line_char c = true ->
  exists s', s' = 49
             /\ ts_lex_state s c false
                = (Some aux_sym_yaml_line_token2, ADVANCE s').
Proof.
  unfold is_line_char. intros -> Hc. open_state. rewrite Hc. eauto.
Qed.

Lemma value_stop (s c : Z) (eof : bool) :
  s = 49 -> is_line_char c = false ->
  ts_lex_state s c eof = (Some aux_sym_yaml_line_token2, END_STATE).
Proof.
  unfold is_line_char. intros -> Hc. open_state. now rewrite Hc.
Qed.

Lemma value_blank_step (s c : Z) :
  s = 1 \/ s = 42 \/ s = 48 -> is_space c = true ->
  exists acc, ts_lex_state s c false = (acc, ADVANCE (after_blank c)).
Proof.
  unfold is_space, after_blank.
  intros [->|[->| ->]] Hc; open_state; split_ifs;
    try (eexists; reflexivity); exfalso; decide_chars.
Qed.

(** Whitespace before a value is consumed, line feeds too; the scan is in
    state 42 after a line feed and in state 48 after any other, and from
    state 48, as from state 1, a character that is no whitespace leads to
    state 49. *)
Lemma value_blanks (c : Z) (ws : list Z) :
  is_space c = false -> c <> 0 ->
  forall s pos st mk,
    s = 1 \/ s = 42 \/ s = 48 ->
    Forall (fun c => is_space c = true) ws ->
    match ws with [] => s | _ :: _ => after_blank (last ws 32) end <> 42 ->
    exists mk',
      scan s (ws ++ [c]) pos st mk
      = Some (49, (pos + (length ws + 1))%nat, st, mk').
Proof.
  intros Hc Hc0.
  induction ws as [|x ws IH]; intros s pos st mk Hs Hws Hlast.
  - assert (E : exists acc, ts_lex_state s c false = (acc, ADVANCE 49)).
    { unfold is_space in Hc.
      destruct Hs as [->|[->| ->]]; [|contradiction|]; open_state;
        split_ifs; try (eexists; reflexivity); exfalso; decide_chars. }
    destruct E as [acc E]. eexists. cbn [scan app]. rewrite E.
    rewrite Nat.add_1_r. reflexivity.
  - inversion Hws as [|? ? Hx Hws']; subst.
    destruct (value_blank_step s x Hs Hx) as [acc E].
    assert (Hs' : after_blank x = 1 \/ after_blank x = 42
                  \/ after_blank x = 48)
      by (unfold after_blank; destruct (x =? 10); auto).
    destruct (IH (after_blank x) (S pos) st
                (mark acc pos ((x :: ws) ++ [c]) mk) Hs' Hws') as [mk' E'].
    { destruct ws; exact Hlast. }
    exists mk'. cbn [scan app]. rewrite E. cbn [app] in E'. rewrite E'.
    simpl length. do 4 f_equal. lia.
Qed.

(** X10: a frontmatter value (lex state 1) runs to the end of its line,
    and the whitespace before it is part of the token, not skipped; this
    whitespace may hold line feeds, as long as it does not end with one:
    after an empty value, the line end and an indented line that follows
    are one value token. *)
Theorem yaml_value_token (ws : list Z) (c : Z) (body rest : list Z)
    (pos : nat) :
  Forall (fun c => is_space c = true) ws ->
  last ws 32 <> 10 ->
  is_space c = false -> c <> 0 ->
  Forall (fun c => is_line_char c = true) body ->
  is_line_char (hd 0 rest) = false ->
  ts_lex 1 pos (ws ++ c :: body ++ rest)
  = Some (Token aux_sym_yaml_line_token2 pos
            (pos + (length ws + 1 + length body)) rest).
Proof.
  intros Hws Hlast Hc Hc0 Hb Hr.
  destruct (value_blanks c ws Hc Hc0 1 0 0 None (or_introl eq_refl) Hws)
    as [mk1 E1].
  { destruct ws; [discriminate|]. unfold after_blank.
    destruct (Z.eqb_spec (last (z :: ws) 32) 10);
      [contradiction|discriminate]. }
  change (ws ++ c :: body ++ rest) with (ws ++ [c] ++ body ++ rest).
  rewrite app_assoc.
  assert (Hl : length (ws ++ [c]) = (length ws + 1)%nat)
    by (rewrite length_app; reflexivity).
  rewrite <- Hl in E1 |- *.
  exact (ts_lex_run is_line_char (fun s => s = 49) aux_sym_yaml_line_token2
           1 (ws ++ [c]) 49 mk1 body rest pos
           value_step value_stop E1 eq_refl Hb Hr).
Qed.

Lemma yaml_value_token_witness :
  Forall (fun c => is_space c = true) [10; 32; 32]
  /\ last [10; 32; 32] 32 <> 10
  /\ is_space 110 = false /\ 110 <> 0
  /\ ts_lex 1 4 ([10; 32; 32] ++ 110 :: codes "ame: x" ++ [10; 97])
     = Some (Token aux_sym_yaml_line_token2 4 14 [10; 97]).
Proof.
  assert (H1 : Forall (fun c => is_space c = true) [10; 32; 32])
    by (repeat constructor).
  assert (H2 : last [10; 32; 32] 32 <> 10) by discriminate.
  assert (H3 : is_space 110 = false) by reflexivity.
  assert (H4 : 110 <> 0) by discriminate.
  assert (H5 : Forall (fun c => is_line_char c = true) (codes "ame: x"))
    by (repeat constructor).
  repeat (split; [assumption|]).
  exact (yaml_value_token [10; 32; 32] 110 (codes "ame: x") [10; 97] 4
           H1 H2 H3 H4 H5 eq_refl).
Defined.

(** ** Variables that start with [@] *)

Lemma word_step (s c : Z) :
  s = 66 -> is_word_char c = true ->
  exists s', s' = 66
             /\ ts_lex_state s c false
                = (Some aux_sym_variable_reference_token1, ADVANCE s').
Proof.
  unfold is_word_char. intros -> Hc. open_state. rewrite Hc. eauto.
Qed.

Lemma word_stop (s c : Z) (eof : bool) :
  s = 66 -> is_word_char c = false ->
  ts_lex_state s c eof = (Some aux_sym_variable_reference_token1, END_STATE).
Proof.
  unfold is_word_char. intros -> Hc. open_state. now rewrite Hc.
Qed.

(** X11: a variable that starts with ['@'] (lex states 0, 3 and 16) is the
    ['@'], a letter or ['_'], and the letters, digits and ['_'] that
    follow; unlike a path it does not go on over a ['.']. *)
Theorem at_variable_token (s c : Z) (body rest : list Z) (pos : nat) :
  s = 0 \/ s = 3 \/ s = 16 ->
  is_ident_start c = true ->
  Forall (fun c => is_word_char c = true) body ->
  is_word_char (hd 0 rest) = false ->
  ts_lex s pos (64 :: c :: body ++ rest)
  = Some (Token aux_sym_variable_reference_token1 pos
            (pos + (2 + length body)) rest).
Proof.
  intros Hs Hc Hb Hr.
  assert (E1 : ts_lex_state s 64 false = (None, ADVANCE 33))
    by (destruct Hs as [->|[->| ->]]; reflexivity).
  assert (E2 : ts_lex_state 33 c false = (None, ADVANCE 66)).
  { unfold is_ident_start in Hc. open_state. now rewrite Hc. }
  assert (Hscan : scan s [64; c] 0 0 None = Some (66, 2%nat, 0%nat, None))
    by (unfold scan; rewrite E1, E2; reflexivity).
  exact (ts_lex_run is_word_char (fun s => s = 66)
           aux_sym_variable_reference_token1
           s [64; c] 66 None body rest pos
           word_step word_stop Hscan eq_refl Hb Hr).
Qed.

Lemma at_variable_token_witness :
  (3 = 0 \/ 3 = 3 \/ 3 = 16) /\ is_ident_start 105 = true
  /\ ts_lex 3 0 (64 :: 105 :: codes "ndex" ++ codes ".x}}")
     = Some (Token aux_sym_variable_reference_token1 0 6 (codes ".x}}")).
Proof.
  assert (H1 : 3 = 0 \/ 3 = 3 \/ 3 = 16) by (right; left; reflexivity).
  assert (H2 : is_ident_start 105 = true) by reflexivity.
  assert (H3 : Forall (fun c => is_word_char c = true) (codes "ndex"))
    by (repeat constructor).
  repeat (split; [assumption|]).
  exact (at_variable_token 3 105 (codes "ndex") (codes ".x}}") 0
           H1 H2 H3 eq_refl).
Defined.

(** ** The body of a dash comment *)

Lemma dash_body_step (s c : Z) :
  s = 62 \/ s = 63 -> not_nul c = true ->
  exists s', (s' = 62 \/ s' = 63)
             /\ ts_lex_state s c false
                = (Some aux_sym_handlebars_comment_token2, ADVANCE s').
Proof.
  unfold not_nul. intros [->| ->] Hc; open_state; split_ifs; run_case.
Qed.

Lemma dash_body_stop (s c : Z) (eof : bool) :
  s = 62 \/ s = 63 -> not_nul c = false ->
  ts_lex_state s c eof = (Some aux_sym_handlebars_comment_token2, END_STATE).
Proof.
  unfold not_nul. intros [->| ->] Hc; open_state; split_ifs; run_case.
Qed.

(** X12: the body of a comment opened with ["{{!--"] (lex state 62) does
    not end before the text does: the body token holds every code point
    up to the first NUL or the end of the text, whatever they are, a
    closing ["--}}"] included; on a text without NUL nothing is left for
    a closing token. *)
Theorem dash_comment_body_runs_on (body rest : list Z) (pos : nat) :
  Forall (fun c => not_nul c = true) body ->
  hd 0 rest = 0 ->
  ts_lex 62 pos (body ++ rest)
  = Some (Token aux_sym_handlebars_comment_token2 pos (pos + length body)
            rest).
Proof.
  intros Hb Hr.
  apply (ts_lex_run not_nul (fun s => s = 62 \/ s = 63)
           aux_sym_handlebars_comment_token2
           62 [] 62 None body rest pos
           dash_body_step dash_body_stop eq_refl (or_introl eq_refl) Hb).
  unfold not_nul. now rewrite Hr.
Qed.

Lemma dash_comment_body_runs_on_witness :
  Forall (fun c => not_nul c = true) (codes " a --}} b")
  /\ ts_lex 62 5 (codes " a --}} b" ++ [])
     = Some (Token aux_sym_handlebars_comment_token2 5 14 []).
Proof.
  assert (H : Forall (fun c => not_nul c = true) (codes " a --}} b"))
    by (repeat constructor).
  split; [exact H|].
  exact (dash_comment_body_runs_on (codes " a --}} b") [] 5 H eq_refl).
Defined.

(** ** Tokens in which one character takes the next with it *)

Section Escapes.

Variable in_plain : Z -> bool.
Variable lead : Z.
Variable in_follow : Z -> bool.
Variable in_run : Z -> Prop.
Variable esc : Z.
Variable sym : TSSymbol.

Hypothesis plain_step :
  forall s c, in_run s -> c <> lead -> in_plain c = true ->
    exists s', in_run s'
               /\ ts_lex_state s c false = (Some sym, ADVANCE s').

Hypothesis lead_step :
  forall s, in_run s -> ts_lex_state s lead false = (Some sym, ADVANCE esc).

Hypothesis follow_step :
  forall c, in_follow c = true ->
    exists s', in_run s' /\ ts_lex_state esc c false = (None, ADVANCE s').

Hypothesis plain_stop :
  forall s c eof, in_run s -> c <> lead -> in_plain c = false ->
    ts_lex_state s c eof = (Some sym, END_STATE).

Hypothesis follow_stop :
  forall c eof, in_follow c = false ->
    ts_lex_state esc c eof = (None, END_STATE).

(** The token ends before the first plain character that is not of the
    class, and before a [lead] that is not followed as it must. *)
Lemma escaped_run (n : nat) :
  forall body chars fuel s pos st mk,
    (length body <= n)%nat ->
    in_run s ->
    escaped_ok in_plain lead in_follow body = true ->
    (hd 0 chars <> lead /\ in_plain (hd 0 chars) = false)
    \/ (exists t, chars = lead :: t /\ in_follow (hd 0 t) = false) ->
    (length body + 2 <= fuel)%nat ->
    lex_loop fuel s pos (body ++ chars) st mk
    = Some (finish st (Some (sym, (pos + length body)%nat, chars))).
Proof.
  induction n as [|n IH]; intros body chars fuel s pos st mk Hn Hs Hok He Hf.
  - destruct body; [|simpl in Hn; lia].
    destruct fuel as [|[|fuel]]; try (simpl in Hf; lia).
    simpl app. destruct He as [[H1 H2]|(t & -> & H2)].
    + erewrite lex_loop_end; [|now apply plain_stop].
      simpl. now rewrite Nat.add_0_r.
    + erewrite lex_loop_advance; [|now apply lead_step].
      erewrite lex_loop_end; [|now apply follow_stop].
      simpl. now rewrite Nat.add_0_r.
  - destruct body as [|c body]; [apply (IH []); auto; simpl; lia|].
    destruct fuel as [|fuel]; [simpl in Hf; lia|].
    cbn [escaped_ok] in Hok. simpl app.
    destruct (Z.eqb_spec c lead) as [->|Hc].
    + destruct body as [|c' body]; [discriminate|].
      apply andb_true_iff in Hok. destruct Hok as [Hc' Hok].
      destruct fuel as [|fuel]; [simpl in Hf; lia|].
      erewrite lex_loop_advance; [|now apply lead_step].
      destruct (follow_step c' Hc') as (s' & Hs' & E).
      simpl app. erewrite lex_loop_advance; [|exact E].
      assert (Hn' : (length body <= n)%nat) by (simpl in Hn; lia).
      assert (Hf' : (length body + 2 <= fuel)%nat) by (simpl in Hf; lia).
      rewrite (IH body chars fuel s' _ st _ Hn' Hs' Hok He Hf').
      replace (pos + length (lead :: c' :: body))%nat
        with (S (S pos) + length body)%nat by (simpl; lia).
      reflexivity.
    + apply andb_true_iff in Hok. destruct Hok as [Hc' Hok].
      destruct (plain_step s c Hs Hc Hc') as (s' & Hs' & E).
      erewrite lex_loop_advance; [|exact E].
      assert (Hn' : (length body <= n)%nat) by (simpl in Hn; lia).
      assert (Hf' : (length body + 2 <= fuel)%nat) by (simpl in Hf; lia).
      rewrite (IH body chars fuel s' _ st _ Hn' Hs' Hok He Hf').
      replace (pos + length (c :: body))%nat
        with (S pos + length body)%nat by (simpl; lia).
      reflexivity.
Qed.

End Escapes.

(** ** String literals *)

(** X13: the content of a string literal ends at its closing quote, and
    a quote after a backslash is not one.  In the mode of the content
    (lex state 79 after a double quote, 82 after a single one) a text
    without NUL in which every backslash is followed by a character
    other than NUL and line feed, and which holds the quote after a
    backslash only, is one content token when the quote follows; it may be
    empty. *)
Theorem string_content_token (quote : Z) (body rest : list Z) (pos : nat) :
  quote = 34 \/ quote = 39 ->
  string_body_ok quote body = true ->
  ts_lex (string_mode quote) pos (body ++ quote :: rest)
  = Some (Token (string_token quote) pos (pos + length body)
            (quote :: rest)).
Proof.
  intros Hq Hok.
  rewrite ts_lex_shift. unfold ts_lex, string_body_ok in *.
  destruct Hq as [->| ->]; cbn [string_mode string_token Z.eqb Pos.eqb].
  - rewrite (escaped_run (fun c => negb (c =? 0) && negb (c =? 34))
               92 is_line_char (fun s => s = 79 \/ s = 80) 35
               aux_sym_string_literal_token1) with (n := length body);
      auto.
    + simpl. now rewrite Nat.add_0_r.
    + intros s c [->| ->] Hc Hp; open_state; split_ifs; run_case.
    + intros s [->| ->]; reflexivity.
    + unfold is_line_char. intros c Hc. open_state. rewrite Hc. eauto.
    + intros s c eof [->| ->] Hc Hp; open_state; split_ifs; run_case.
    + unfold is_line_char. intros c eof Hc. open_state. now rewrite Hc.
    + left. split; [discriminate|reflexivity].
    + rewrite length_app. simpl. lia.
  - rewrite (escaped_run (fun c => negb (c =? 0) && negb (c =? 39))
               92 is_line_char (fun s => s = 82 \/ s = 83) 34
               aux_sym_string_literal_token2) with (n := length body);
      auto.
    + simpl. now rewrite Nat.add_0_r.
    + intros s c [->| ->] Hc Hp; open_state; split_ifs; run_case.
    + intros s [->| ->]; reflexivity.
    + unfold is_line_char. intros c Hc. open_state. rewrite Hc. eauto.
    + intros s c eof [->| ->] Hc Hp; open_state; split_ifs; run_case.
    + unfold is_line_char. intros c eof Hc. open_state. now rewrite Hc.
    + left. split; [discriminate|reflexivity].
    + rewrite length_app. simpl. lia.
Qed.

Lemma string_content_token_witness :
  (34 = 34 \/ 34 = 39)
  /\ string_body_ok 34 [97; 92; 34; 98] = true
  /\ ts_lex (string_mode 34) 1 ([97; 92; 34; 98] ++ 34 :: codes "}}")
     = Some (Token (string_token 34) 1 5 (34 :: codes "}}")).
Proof.
  assert (H1 : 34 = 34 \/ 34 = 39) by (left; reflexivity).
  assert (H2 : string_body_ok 34 [97; 92; 34; 98] = true) by reflexivity.
  repeat (split; [assumption|]).
  exact (string_content_token 34 [97; 92; 34; 98] (codes "}}") 1 H1 H2).
Defined.

(** ** The body of a comment *)

(** X14: the body of a comment opened with ["{{!"] (lex state 59) ends
    at the first ["}}"]: a text without NUL in which every ['}'] is
    followed by a character other than ['}'] and NUL is one body token
    when ["}}"] follows it, a lone ['}'] being part of the body. *)
Theorem comment_body_token (body rest : list Z) (pos : nat) :
  comment_body_ok body = true ->
  ts_lex 59 pos (body ++ 125 :: 125 :: rest)
  = Some (Token aux_sym_handlebars_comment_token1 pos (pos + length body)
            (125 :: 125 :: rest)).
Proof.
  intros Hok. rewrite ts_lex_shift. unfold ts_lex, comment_body_ok in *.
  rewrite (escaped_run (fun c => negb (c =? 0)) 125
             (fun c => negb (c =? 0) && negb (c =? 125))
             (fun s => s = 59 \/ s = 60) 36
             aux_sym_handlebars_comment_token1) with (n := length body);
    auto.
  - simpl. now rewrite Nat.add_0_r.
  - intros s c [->| ->] Hc Hp; open_state; split_ifs; run_case.
  - intros s [->| ->]; reflexivity.
  - intros c Hc. open_state. rewrite Hc. eauto.
  - intros s c eof [->| ->] Hc Hp; open_state; split_ifs; run_case.
  - intros c eof Hc. open_state. now rewrite Hc.
  - right. exists (125 :: rest). split; reflexivity.
  - rewrite length_app. simpl. lia.
Qed.

Lemma comment_body_token_witness :
  comment_body_ok (codes " a } b ") = true
  /\ ts_lex 59 3 (codes " a } b " ++ 125 :: 125 :: codes "c")
     = Some (Token aux_sym_handlebars_comment_token1 3 10
               (125 :: 125 :: codes "c")).
Proof.
  assert (H : comment_body_ok (codes " a } b ") = true) by reflexivity.
  split; [exact H|].
  exact (comment_body_token (codes " a } b ") (codes "c") 3 H).
Defined.

(** ** Numbers *)

Lemma state_84_digit (c : Z) :
  is_digit c = true ->
  ts_lex_state 84 c false = (Some sym_number, ADVANCE 84).
Proof.
  unfold is_digit. intros Hc. open_state. split_ifs; run_case.
Qed.

Lemma state_85 (c : Z) (eof : bool) :
  ts_lex_state 85 c eof
  = (Some sym_number, if is_digit c then ADVANCE 85 else END_STATE).
Proof. reflexivity. Qed.

(** State 84 runs over the digits of the integer part. *)
Lemma digits_84 (ds : list Z) :
  forall chars fuel pos st mk,
    Forall (fun c => is_digit c = true) ds ->
    exists mk',
      lex_loop (length ds + fuel) 84 pos (ds ++ chars) st mk
      = lex_loop fuel 84 (pos + length ds) chars st mk'.
Proof.
  induction ds as [|d ds IH]; intros chars fuel pos st mk Hds.
  - exists mk. simpl. now rewrite Nat.add_0_r.
  - inversion Hds as [|? ? Hd Hds']; subst.
    destruct (IH chars fuel (S pos) st
                (mark (Some sym_number) pos (d :: ds ++ chars) mk) Hds')
      as [mk' E].
    exists mk'. simpl app. simpl length. cbn [Nat.add].
    erewrite lex_loop_advance; [|now apply state_84_digit].
    rewrite E. f_equal. lia.
Qed.

(** After the integer part: the number ends there unless a ['.'] and a
    digit follow. *)
Lemma number_tail_int (chars : list Z) (fuel pos st : nat)
    (mk : option (TSSymbol * nat * list Z)) :
  (2 <= fuel)%nat ->
  is_digit (hd 0 chars) = false ->
  (hd 0 chars = 46 -> is_digit (hd 0 (tl chars)) = false) ->
  lex_loop fuel 84 pos chars st mk
  = Some (finish st (Some (sym_number, pos, chars))).
Proof.
  intros Hf Hd Hdot. destruct fuel as [|[|fuel]]; try lia.
  destruct (Z.eq_dec (hd 0 chars) 46) as [E|E].
  - destruct chars as [|c t]; [discriminate E|]. simpl in E. subst c.
    specialize (Hdot eq_refl). simpl in Hdot.
    erewrite lex_loop_advance; [|reflexivity].
    assert (E32 : ts_lex_state 32 (hd 0 t) (at_eof t) = (None, END_STATE)).
    { unfold is_digit in Hdot. open_state. now rewrite Hdot. }
    rewrite (lex_loop_end _ _ _ _ _ _ _ E32). reflexivity.
  - assert (E84 : ts_lex_state 84 (hd 0 chars) (at_eof chars)
                  = (Some sym_number, END_STATE)).
    { unfold is_digit in Hd. open_state. split_ifs; run_case. }
    rewrite (lex_loop_end _ _ _ _ _ _ _ E84). reflexivity.
Qed.

(** After the integer part, a ['.'] and digits: the number ends where
    the digits end. *)
Lemma number_tail_frac (fs rest : list Z) (fuel pos st : nat)
    (mk : option (TSSymbol * nat * list Z)) :
  fs <> [] ->
  Forall (fun c => is_digit c = true) fs ->
  is_digit (hd 0 rest) = false ->
  (length fs + 2 <= fuel)%nat ->
  lex_loop fuel 84 pos (46 :: fs ++ rest) st mk
  = Some (finish st (Some (sym_number, (pos + (1 + length fs))%nat, rest))).
Proof.
  intros Hne Hfs Hr Hf.
  destruct fs as [|f fs]; [congruence|].
  inversion Hfs as [|? ? Hd Hfs']; subst.
  destruct fuel as [|[|fuel]]; try (simpl in Hf; lia).
  erewrite lex_loop_advance; [|reflexivity].
  simpl app. erewrite lex_loop_advance;
    [|unfold is_digit in Hd; open_state; rewrite Hd; reflexivity].
  rewrite (class_run is_digit (fun s => s = 85) sym_number); auto.
  - replace (pos + (1 + length (f :: fs)))%nat
      with (S (S pos) + length fs)%nat by (simpl; lia).
    reflexivity.
  - intros s c -> Hc. exists 85. split; [reflexivity|].
    now rewrite state_85, Hc.
  - intros s c eof -> Hc. now rewrite state_85, Hc.
  - simpl in Hf. lia.
Qed.

(** The sign and the first digit lead to state 84. *)
Lemma number_head (s : Z) (negative : bool) (d : Z) :
  s = 0 \/ s = 3 ->
  is_digit d = true ->
  scan s (sign negative ++ [d]) 0 0 None
  = Some (84, length (sign negative ++ [d]), 0%nat, None).
Proof.
  intros Hs Hd. unfold is_digit in Hd.
  assert (E6 : ts_lex_state 6 d false = (None, ADVANCE 84))
    by (open_state; split_ifs; run_case).
  assert (E31 : ts_lex_state 31 d false = (None, ADVANCE 84))
    by (open_state; split_ifs; run_case).
  assert (E0 : ts_lex_state 0 d false = (None, ADVANCE 84))
    by (open_state; split_ifs; run_case).
  assert (E3 : ts_lex_state 3 d false = (None, ADVANCE 84))
    by (open_state; split_ifs; run_case).
  assert (M0 : ts_lex_state 0 45 false = (None, ADVANCE 6)) by reflexivity.
  assert (M3 : ts_lex_state 3 45 false = (None, ADVANCE 31)) by reflexivity.
  destruct Hs as [->| ->]; destruct negative;
    cbn [sign app scan length].
  - now rewrite M0, E6.
  - now rewrite E0.
  - now rewrite M3, E31.
  - now rewrite E3.
Qed.

(** X15: a number in an expression (lex states 0 and 3) is an optional
    ['-'], digits, and optionally a ['.'] with digits after it.  With a
    fraction the token ends where its digits end; without one it ends
    after the integer digits, and a ['.'] that no digit follows is left
    outside the token. *)
Theorem number_token (s : Z) (negative : bool) (ds fs rest : list Z)
    (pos : nat) :
  s = 0 \/ s = 3 ->
  ds <> [] ->
  Forall (fun c => is_digit c = true) ds ->
  Forall (fun c => is_digit c = true) fs ->
  is_digit (hd 0 rest) = false ->
  (fs <> [] ->
   ts_lex s pos (sign negative ++ ds ++ 46 :: fs ++ rest)
   = Some (Token sym_number pos
             (pos + (length (sign negative) + length ds + 1 + length fs))
             rest))
  /\ ((hd 0 rest = 46 -> is_digit (hd 0 (tl rest)) = false) ->
      ts_lex s pos (sign negative ++ ds ++ rest)
      = Some (Token sym_number pos
                (pos + (length (sign negative) + length ds)) rest)).
Proof.
  intros Hs Hne Hds Hfs Hr.
  destruct ds as [|d ds]; [congruence|].
  inversion Hds as [|? ? Hd Hds']; subst.
  pose proof (number_head s negative d Hs Hd) as Hscan.
  assert (Hl : length (sign negative ++ [d])
               = (length (sign negative) + 1)%nat)
    by (rewrite length_app; reflexivity).
  assert (Hshape : forall tail,
             sign negative ++ (d :: ds) ++ tail
             = (sign negative ++ [d]) ++ ds ++ tail).
  { intros tail. rewrite <- app_assoc. reflexivity. }
  split.
  - intros Hfne. rewrite Hshape.
    set (tail := 46 :: fs ++ rest).
    rewrite (ts_lex_prefix s _ 84 0 None pos _ Hscan).
    rewrite length_app.
    replace (S (S (length ds + length tail)))
      with (length ds + S (S (length tail)))%nat by lia.
    destruct (digits_84 ds tail (S (S (length tail)))
                (length (sign negative ++ [d])) 0
                (extend (ds ++ tail) None) Hds') as [mk' E].
    rewrite E. unfold tail. rewrite number_tail_frac; auto.
    + cbn [option_map finish shift_result].
      rewrite Nat.min_0_l, Nat.add_0_r, Hl.
      do 2 f_equal. simpl length. lia.
    + simpl. rewrite length_app. lia.
  - intros Hdot. rewrite Hshape.
    rewrite (ts_lex_prefix s _ 84 0 None pos _ Hscan).
    rewrite length_app.
    replace (S (S (length ds + length rest)))
      with (length ds + S (S (length rest)))%nat by lia.
    destruct (digits_84 ds rest (S (S (length rest)))
                (length (sign negative ++ [d])) 0
                (extend (ds ++ rest) None) Hds') as [mk' E].
    rewrite E, number_tail_int; auto; [|lia].
    cbn [option_map finish shift_result].
    rewrite Nat.min_0_l, Nat.add_0_r, Hl.
    do 2 f_equal. simpl length. lia.
Qed.

Lemma number_token_witness :
  (3 = 0 \/ 3 = 3) /\ codes "12" <> [] /\ codes "50" <> []
  /\ ts_lex 3 0 (sign true ++ codes "12" ++ 46 :: codes "50" ++ codes ".3")
     = Some (Token sym_number 0 6 (codes ".3"))
  /\ ts_lex 3 0 (sign false ++ codes "12" ++ codes ".}}")
     = Some (Token sym_number 0 2 (codes ".}}")).
Proof.
  assert (H1 : 3 = 0 \/ 3 = 3) by (right; reflexivity).
  assert (H2 : codes "12" <> []) by discriminate.
  assert (H3 : codes "50" <> []) by discriminate.
  assert (H4 : Forall (fun c => is_digit c = true) (codes "12"))
    by (repeat constructor).
  assert (H5 : Forall (fun c => is_digit c = true) (codes "50"))
    by (repeat constructor).
  repeat (split; [assumption|]).
  split.
  - exact (proj1 (number_token 3 true (codes "12") (codes "50") (codes ".3")
                    0 H1 H2 H4 H5 eq_refl) H3).
  - apply (proj2 (number_token 3 false (codes "12") [] (codes ".}}")
                    0 H1 H2 H4 (Forall_nil _) eq_refl)).
    intros _. reflexivity.
Defined.

(** ** The parse tables *)

Ltac each_index i :=
  destruct i as [|i|i];
  [ | do 9 (try destruct i as [i|i|]) | ].

Lemma action_indices_in (index : Z) :
  actions (ts_parse_actions index) <> [] -> In index action_indices.
Proof.
  intros H.
  assert (R : 0 <= index < 291).
  { each_index index; try (now elim H); lia. }
  unfold action_indices. rewrite <- (Z2Nat.id index) by lia.
  apply in_map, in_seq. lia.
Qed.

Lemma In_row_bool (state : TSStateId) (sym : TSSymbol) (v : Z)
    (P : TSSymbol -> Z -> bool) :
  forallb (fun p => P (fst p) (snd p)) (table_row state) = true ->
  In (sym, v) (table_row state) -> P sym v = true.
Proof.
  intros H Hin. rewrite forallb_forall in H. exact (H _ Hin).
Qed.

(** X16: the parse tables stay inside themselves.  In every parse state,
    the entry of a terminal is an action entry that holds as many actions
    as its [count] says, at least one, where every shift leads to a parse
    state other than the error state and every reduction names a
    non-terminal, at most [MAX_ALIAS_SEQUENCE_LENGTH] children and a
    production below [PRODUCTION_ID_COUNT]; the entry of a non-terminal is
    a parse state other than the error state. *)
Theorem parse_table_in_range (state : TSStateId) (sym : TSSymbol) (v : Z) :
  0 <= state < STATE_COUNT ->
  In (sym, v) (table_row state) ->
  symbol_id sym < SYMBOL_COUNT /\ entry_in_range sym v = true.
Proof.
  intros Hstate Hrow.
  assert (Hall :
    forallb (fun st =>
      forallb (fun p =>
        (symbol_id (fst p) <? SYMBOL_COUNT)
        && entry_in_range (fst p) (snd p)) (table_row st))
      parse_states = true)
    by (vm_compute; reflexivity).
  rewrite forallb_forall in Hall.
  specialize (Hall state (parse_states_in state Hstate)).
  rewrite forallb_forall in Hall.
  specialize (Hall _ Hrow). cbn [fst snd] in Hall.
  apply andb_true_iff in Hall. destruct Hall as [H1 H2].
  apply Z.ltb_lt in H1. auto.
Qed.

Lemma parse_table_in_range_witness :
  0 <= 1 < STATE_COUNT
  /\ In (sym_document, 73) (table_row 1)
  /\ symbol_id sym_document < SYMBOL_COUNT
  /\ entry_in_range sym_document 73 = true.
Proof.
  assert (H1 : 0 <= 1 < STATE_COUNT) by (unfold STATE_COUNT; lia).
  assert (H2 : In (sym_document, 73) (table_row 1))
    by (vm_compute; auto 40).
  repeat (split; [assumption|]).
  exact (parse_table_in_range 1 sym_document 73 H1 H2).
Defined.

(** X17: the action table leaves no choice but that of a repetition.
    Every entry of [ts_parse_actions] holds at most one action, or a
    reduction of a repetition symbol from two children together with a
    [SHIFT_REPEAT]; and the actions it holds are as many as its [count]
    says. *)
Theorem parse_actions_no_choice (index : Z) :
  no_choice (actions (ts_parse_actions index)) = true
  /\ count (ts_parse_actions index)
     = length (actions (ts_parse_actions index)).
Proof.
  destruct (actions (ts_parse_actions index)) as [|a l] eqn:E.
  - split; [reflexivity|].
    each_index index; first [reflexivity|discriminate E].
  - rewrite <- E.
    assert (Hall :
      forallb (fun i =>
        no_choice (actions (ts_parse_actions i))
        && (count (ts_parse_actions i)
            =? length (actions (ts_parse_actions i)))%nat)
        action_indices = true)
      by (vm_compute; reflexivity).
    rewrite forallb_forall in Hall.
    assert (Hin : In index action_indices)
      by (apply action_indices_in; rewrite E; discriminate).
    specialize (Hall index Hin).
    apply andb_true_iff in Hall. destruct Hall as [H1 H2].
    apply Nat.eqb_eq in H2. auto.
Qed.

(** X18: what the children of a production are called stays inside the
    production.  For every reduction of [ts_parse_actions], an alias of
    [ts_alias_sequences] and a field of [ts_field_map_entries] that its
    production gives to a child give it to a child the reduction has. *)
Theorem production_children_exist (index : Z) (symbol : TSSymbol)
    (child_count : nat) (dynamic_precedence production_id : Z) :
  In (REDUCE symbol child_count dynamic_precedence production_id)
     (actions (ts_parse_actions index)) ->
  (forall i alias,
      ts_alias_sequences production_id i = Some alias ->
      (i < child_count)%nat)
  /\ (forall f i,
        In (f, i) (production_fields production_id) ->
        (i < child_count)%nat).
Proof.
  intros Hin.
  assert (Hall :
    forallb (fun i => forallb production_in_range
                        (actions (ts_parse_actions i)))
      action_indices = true)
    by (vm_compute; reflexivity).
  rewrite forallb_forall in Hall.
  assert (Hidx : In index action_indices).
  { apply action_indices_in. intros E. rewrite E in Hin. contradiction. }
  specialize (Hall index Hidx). rewrite forallb_forall in Hall.
  specialize (Hall _ Hin). cbn [production_in_range] in Hall.
  apply andb_true_iff in Hall. destruct Hall as [Ha Hf].
  rewrite forallb_forall in Ha, Hf. split.
  - intros i alias Hi.
    assert (Hr : (i < Z.to_nat MAX_ALIAS_SEQUENCE_LENGTH)%nat).
    { unfold ts_alias_sequences in Hi.
      destruct production_id as [|p|p]; try discriminate Hi;
        do 3 (try destruct p as [p|p|]); try discriminate Hi;
        do 3 (try destruct i as [|i]); try discriminate Hi;
        cbv; lia. }
    assert (Hseq : In i (seq 0 (Z.to_nat MAX_ALIAS_SEQUENCE_LENGTH)))
      by (apply in_seq; lia).
    specialize (Ha i Hseq). rewrite Hi in Ha. now apply Nat.ltb_lt.
  - intros f i Hfi. specialize (Hf _ Hfi). now apply Nat.ltb_lt.
Qed.

Lemma production_children_exist_witness :
  In (REDUCE sym_hash_param 3 0 7) (actions (ts_parse_actions 153))
  /\ ts_alias_sequences 7 0 = Some alias_sym_key
  /\ In (field_value, 2%nat) (production_fields 7)
  /\ (0 < 3)%nat /\ (2 < 3)%nat.
Proof.
  assert (H1 : In (REDUCE sym_hash_param 3 0 7)
                 (actions (ts_parse_actions 153)))
    by (left; reflexivity).
  assert (H2 : ts_alias_sequences 7 0 = Some alias_sym_key) by reflexivity.
  assert (H3 : In (field_value, 2%nat) (production_fields 7))
    by (right; left; reflexivity).
  repeat (split; [assumption|]).
  pose proof (production_children_exist 153 sym_hash_param 3 0 7 H1) as H.
  split; [exact (proj1 H 0%nat alias_sym_key H2)
         |exact (proj2 H field_value 2%nat H3)].
Defined.

(** X19: the input is accepted in one place and recovery starts in one
    place.  An action entry that holds [ACCEPT_INPUT] is the entry of the
    end-of-input token in parse state 73 only, and an entry that holds
    [RECOVER] is an entry of the error state 0 only. *)
Theorem accept_in_state_73_only (state : TSStateId) (sym : TSSymbol)
    (v : Z) :
  0 <= state < STATE_COUNT ->
  symbol_id sym < TOKEN_COUNT ->
  In (sym, v) (table_row state) ->
  (In ACCEPT_INPUT (actions (ts_parse_actions v)) ->
   state = 73 /\ sym = ts_builtin_sym_end)
  /\ (In RECOVER (actions (ts_parse_actions v)) -> state = 0).
Proof.
  intros Hstate Hsym Hrow.
  assert (Hall :
    forallb (fun st =>
      forallb (fun p =>
        if symbol_id (fst p) <? TOKEN_COUNT then
          forallb (fun a =>
            match a with
            | ACCEPT_INPUT =>
                (st =? 73) && symbol_eqb (fst p) ts_builtin_sym_end
            | RECOVER => st =? 0
            | _ => true
            end) (actions (ts_parse_actions (snd p)))
        else true) (table_row st)) parse_states = true)
    by (vm_compute; reflexivity).
  rewrite forallb_forall in Hall.
  specialize (Hall state (parse_states_in state Hstate)).
  rewrite forallb_forall in Hall.
  specialize (Hall _ Hrow). cbn [fst snd] in Hall.
  apply Z.ltb_lt in Hsym. rewrite Hsym in Hall.
  rewrite forallb_forall in Hall. split; intros Ha.
  - specialize (Hall _ Ha). cbn in Hall.
    apply andb_true_iff in Hall. destruct Hall as [H1 H2].
    apply Z.eqb_eq in H1. apply symbol_eqb_eq in H2. auto.
  - specialize (Hall _ Ha). cbn in Hall. now apply Z.eqb_eq.
Qed.

Lemma accept_in_state_73_only_witness :
  0 <= 73 < STATE_COUNT
  /\ symbol_id ts_builtin_sym_end < TOKEN_COUNT
  /\ In (ts_builtin_sym_end, 265) (table_row 73)
  /\ In ACCEPT_INPUT (actions (ts_parse_actions 265))
  /\ 73 = 73 /\ ts_builtin_sym_end = ts_builtin_sym_end.
Proof.
  assert (H1 : 0 <= 73 < STATE_COUNT) by (unfold STATE_COUNT; lia).
  assert (H2 : symbol_id ts_builtin_sym_end < TOKEN_COUNT) by reflexivity.
  assert (H3 : In (ts_builtin_sym_end, 265) (table_row 73))
    by (left; reflexivity).
  assert (H4 : In ACCEPT_INPUT (actions (ts_parse_actions 265)))
    by (left; reflexivity).
  repeat (split; [assumption|]).
  exact (proj1 (accept_in_state_73_only 73 ts_builtin_sym_end 265 H1 H2 H3)
           H4).
Defined.

(** ** Whitespace in expressions *)

Lemma skipping_mode_step (m c : Z) :
  In m skipping_modes -> is_space c = true ->
  ts_lex_state m c false = (None, SKIP m).
Proof.
  unfold is_space. cbv [skipping_modes In].
  intros [H|[H|[H|[H|[]]]]] Hc; subst m; open_state; split_ifs;
    first [reflexivity|exfalso; decide_chars].
Qed.

(** X20: whitespace before a token of an expression does not count.  In
    the modes of expressions and names (lex states 0, 3, 16, 29) the
    result of [ts_lex] on a text that starts with whitespace is its result
    on the text after the whitespace: the same token at the same place,
    or none. *)
Theorem expression_skips_whitespace (m : Z) (ws rest : list Z) (pos : nat) :
  In m skipping_modes ->
  Forall (fun c => is_space c = true) ws ->
  ts_lex m pos (ws ++ rest) = ts_lex m (pos + length ws) rest.
Proof.
  intros Hm Hws. revert pos.
  induction Hws as [|c ws Hc Hws IH]; intros pos.
  - simpl. now rewrite Nat.add_0_r.
  - simpl app. simpl length. rewrite <- Nat.add_succ_comm, <- IH.
    unfold ts_lex. simpl length.
    change (lex_loop (S (S (S (length (ws ++ rest))))) m pos
              (c :: ws ++ rest) pos None)
      with (let (accept, next) := ts_lex_state m c false in
            let marked' := mark accept pos (c :: ws ++ rest) None in
            match next with
            | ADVANCE s =>
                lex_loop (S (S (length (ws ++ rest)))) s (S pos) (ws ++ rest)
                  pos marked'
            | SKIP s =>
                lex_loop (S (S (length (ws ++ rest)))) s (S pos) (ws ++ rest)
                  (S pos) marked'
            | END_STATE => Some (finish pos marked')
            end).
    now rewrite (skipping_mode_step m c Hm Hc).
Qed.

Lemma expression_skips_whitespace_witness :
  In 3 skipping_modes
  /\ Forall (fun c => is_space c = true) [32; 10; 9]
  /\ ts_lex 3 2 ([32; 10; 9] ++ codes "name}}")
     = ts_lex 3 (2 + length [32; 10; 9]) (codes "name}}").
Proof.
  assert (H1 : In 3 skipping_modes) by (right; left; reflexivity).
  assert (H2 : Forall (fun c => is_space c = true) [32; 10; 9])
    by (repeat constructor).
  repeat (split; [assumption|]).
  exact (expression_skips_whitespace 3 [32; 10; 9] (codes "name}}") 2 H1 H2).
Defined.

(** ** The openers of template text *)

Lemma opener_literal (m : Z) (lit : list Z) (s' : Z) (sym : TSSymbol)
    (pos : nat) (rest : list Z) :
  (exists mk, scan m lit 0 0 None = Some (s', length lit, 0%nat, mk)) ->
  (forall c eof, ts_lex_state s' c eof = (Some sym, END_STATE)) ->
  ts_lex m pos (lit ++ rest) = Some (Token sym pos (pos + length lit) rest).
Proof.
  intros [mk Hscan] Hend.
  exact (literal_token m lit s' mk sym Hscan Hend pos rest).
Qed.

(** After ["{{"]: the scan is in state 54 inside a block (mode 5) and in
    state 53 elsewhere, with the two braces marked. *)
Lemma two_braces_scan (m : Z) :
  In m text_modes ->
  scan m (codes "{{") 0 0 None
  = Some (if m =? 5 then 54 else 53, 2%nat, 0%nat,
          Some (sym_text, 1%nat, codes "{")).
Proof.
  cbv [text_modes In]. intros [H|[H|[H|[H|[]]]]]; subst m; reflexivity.
Qed.

Lemma bang_scan (m : Z) :
  In m text_modes ->
  scan m (codes "{{!") 0 0 None
  = Some (58, 3%nat, 0%nat, Some (anon_sym_LBRACE_LBRACE, 2%nat, codes "!")).
Proof.
  cbv [text_modes In]. intros [H|[H|[H|[H|[]]]]]; subst m; reflexivity.
Qed.

(** X21: the openers of template text are matched longest first.  In the
    modes of template text, ["{{#"] and ["{{!--"] are tokens whatever
    follows; ["{{!"] is the token when no ["--"] follows, a single ['-']
    being given back; ["{{/"] is a token inside a block (lex state 5)
    only, elsewhere the token is ["{{"] and the ['/'] is left; and ["{{"]
    is the token before any character other than ['!'], ['#'] and
    ['/']. *)
Theorem opener_longest_match (m : Z) (rest : list Z) (pos : nat) :
  In m text_modes ->
  ts_lex m pos (codes "{{#" ++ rest)
  = Some (Token anon_sym_LBRACE_LBRACE_POUND pos (pos + 3) rest)
  /\ ts_lex m pos (codes "{{!--" ++ rest)
     = Some (Token anon_sym_LBRACE_LBRACE_BANG_DASH_DASH pos (pos + 5) rest)
  /\ (~ (hd 0 rest = 45 /\ hd 0 (tl rest) = 45) ->
      ts_lex m pos (codes "{{!" ++ rest)
      = Some (Token anon_sym_LBRACE_LBRACE_BANG pos (pos + 3) rest))
  /\ ts_lex m pos (codes "{{/" ++ rest)
     = Some (if m =? 5
             then Token anon_sym_LBRACE_LBRACE_SLASH pos (pos + 3) rest
             else Token anon_sym_LBRACE_LBRACE pos (pos + 2) (47 :: rest))
  /\ (hd 0 rest <> 33 -> hd 0 rest <> 35 -> hd 0 rest <> 47 ->
      ts_lex m pos (codes "{{" ++ rest)
      = Some (Token anon_sym_LBRACE_LBRACE pos (pos + 2) rest)).
Proof.
  intros Hm.
  pose proof (two_braces_scan m Hm) as H2.
  pose proof (bang_scan m Hm) as H3.
  assert (E53 : forall c eof, c <> 33 -> c <> 35 ->
            ts_lex_state 53 c eof = (Some anon_sym_LBRACE_LBRACE, END_STATE)).
  { intros c eof N1 N2. open_state. split_ifs; run_case. }
  assert (E54 : forall c eof, c <> 33 -> c <> 35 -> c <> 47 ->
            ts_lex_state 54 c eof = (Some anon_sym_LBRACE_LBRACE, END_STATE)).
  { intros c eof N1 N2 N3. open_state. split_ifs; run_case. }
  refine (conj _ (conj _ (conj _ (conj _ _)))).
  - apply (opener_literal m (codes "{{#") 50); [|reflexivity].
    cbv [text_modes In] in Hm.
    destruct Hm as [H|[H|[H|[H|[]]]]]; subst m; eexists; reflexivity.
  - apply (opener_literal m (codes "{{!--") 61); [|reflexivity].
    cbv [text_modes In] in Hm.
    destruct Hm as [H|[H|[H|[H|[]]]]]; subst m; eexists; reflexivity.
  - intros Hdash.
    rewrite (ts_lex_prefix m (codes "{{!") 58 0 _ pos rest H3).
    destruct (Z.eq_dec (hd 0 rest) 45) as [E|E].
    + destruct rest as [|c t]; [discriminate E|]. simpl in E. subst c.
      assert (E9 : ts_lex_state 9 (hd 0 t) (at_eof t) = (None, END_STATE)).
      { open_state. split_ifs; [|reflexivity].
        exfalso. apply Hdash. split; [reflexivity|]. simpl. decide_chars. }
      erewrite lex_loop_advance; [|reflexivity].
      rewrite (lex_loop_end _ _ _ _ _ _ _ E9).
      simpl. now rewrite Nat.add_0_r.
    + assert (E58 : ts_lex_state 58 (hd 0 rest) (at_eof rest)
                    = (Some anon_sym_LBRACE_LBRACE_BANG, END_STATE)).
      { open_state. split_ifs; run_case. }
      rewrite (lex_loop_end _ _ _ _ _ _ _ E58).
      simpl. now rewrite Nat.add_0_r.
  - destruct (Z.eqb_spec m 5) as [->|Hm5].
    + apply (opener_literal 5 (codes "{{/") 52); [|reflexivity].
      eexists; reflexivity.
    + change (codes "{{/" ++ rest) with (codes "{{" ++ 47 :: rest).
      rewrite (ts_lex_prefix m (codes "{{") _ 0 _ pos (47 :: rest) H2).
      assert (E : ts_lex_state 53 (hd 0 (47 :: rest)) (at_eof (47 :: rest))
                  = (Some anon_sym_LBRACE_LBRACE, END_STATE))
        by (apply E53; discriminate).
      rewrite (lex_loop_end _ _ _ _ _ _ _ E).
      simpl. now rewrite Nat.add_0_r.
  - intros N1 N2 N3.
    rewrite (ts_lex_prefix m (codes "{{") _ 0 _ pos rest H2).
    destruct (m =? 5).
    + rewrite (lex_loop_end _ 54 _ _ _ _ _ (E54 _ _ N1 N2 N3)).
      simpl. now rewrite Nat.add_0_r.
    + rewrite (lex_loop_end _ 53 _ _ _ _ _ (E53 _ _ N1 N2)).
      simpl. now rewrite Nat.add_0_r.
Qed.

Lemma opener_longest_match_witness :
  In 39 text_modes
  /\ ts_lex 39 0 (codes "{{!" ++ codes "-x}}")
     = Some (Token anon_sym_LBRACE_LBRACE_BANG 0 3 (codes "-x}}"))
  /\ ts_lex 39 0 (codes "{{/" ++ codes "if}}")
     = Some (Token anon_sym_LBRACE_LBRACE 0 2 (47 :: codes "if}}")).
Proof.
  assert (H1 : In 39 text_modes) by (do 3 right; left; reflexivity).
  pose proof (opener_longest_match 39 (codes "-x}}") 0 H1) as Ha.
  pose proof (opener_longest_match 39 (codes "if}}") 0 H1) as Hb.
  split; [exact H1|]. split.
  - apply (proj1 (proj2 (proj2 Ha))). intros [_ E]. discriminate E.
  - exact (proj1 (proj2 (proj2 (proj2 Hb)))).
Defined.

(** ** Plain text *)

Lemma text_step (s c : Z) :
  s = 102 -> is_text_char c = true ->
  exists s', s' = 102
             /\ ts_lex_state s c false = (Some sym_text, ADVANCE s').
Proof.
  unfold is_text_char. intros -> Hc. open_state. rewrite Hc. eauto.
Qed.

Lemma text_stop (s c : Z) (eof : bool) :
  s = 102 -> is_text_char c = false ->
  ts_lex_state s c eof = (Some sym_text, END_STATE).
Proof.
  unfold is_text_char. intros -> Hc. open_state. now rewrite Hc.
Qed.

(** Whitespace and then a plain character lead to state 102. *)
Lemma space_then_text (m c : Z) (ws : list Z) :
  In m text_modes ->
  is_text_char c = true -> is_space c = false ->
  (m = 37 \/ m = 38 -> c <> 45) ->
  forall s pos st mk,
    s = m \/ s = after_space m ->
    Forall (fun c => is_space c = true) ws ->
    exists mk',
      scan s (ws ++ [c]) pos st mk
      = Some (102, (pos + (length ws + 1))%nat, st, mk').
Proof.
  intros Hm Hc Hsp Hdash.
  induction ws as [|x ws IH]; intros s pos st mk Hs Hws.
  - assert (E : exists acc, ts_lex_state s c false = (acc, ADVANCE 102)).
    { unfold is_text_char, is_space in *. cbv [text_modes In] in Hm.
      destruct Hm as [H|[H|[H|[H|[]]]]]; subst m;
        destruct Hs as [->| ->]; cbv [after_space]; open_state; split_ifs;
          try (eexists; reflexivity); exfalso;
          try (apply Hdash; [auto|]); decide_chars. }
    destruct E as [acc E]. eexists. cbn [scan app]. rewrite E.
    rewrite Nat.add_1_r. reflexivity.
  - inversion Hws as [|? ? Hx Hws']; subst.
    assert (E : exists acc,
               ts_lex_state s x false = (acc, ADVANCE (after_space m))).
    { unfold is_space in Hx. cbv [text_modes In] in Hm.
      destruct Hm as [H|[H|[H|[H|[]]]]]; subst m;
        destruct Hs as [->| ->]; cbv [after_space]; open_state; split_ifs;
          try (eexists; reflexivity); exfalso; decide_chars. }
    destruct E as [acc E].
    destruct (IH (after_space m) (S pos) st
                (mark acc pos ((x :: ws) ++ [c]) mk)
                (or_intror eq_refl) Hws') as [mk' E'].
    exists mk'. cbn [scan app]. rewrite E. cbn [app] in E'. rewrite E'.
    simpl length. do 4 f_equal. lia.
Qed.

(** X22: plain text runs up to the next ['#'], ['<'] or ['{'].  In the
    modes of template text, whitespace, a character that is neither
    whitespace nor one of these three (nor a ['-'] where a frontmatter
    delimiter may start, lex states 37 and 38), and the characters that
    follow up to the first ['#'], ['<'], ['{'] or NUL are one text token,
    whitespace included: text is cut at each of these characters, whether
    or not they open a construct. *)
Theorem plain_text_token (m : Z) (ws : list Z) (c : Z) (body rest : list Z)
    (pos : nat) :
  In m text_modes ->
  Forall (fun c => is_space c = true) ws ->
  is_text_char c = true -> is_space c = false ->
  (m = 37 \/ m = 38 -> c <> 45) ->
  Forall (fun c => is_text_char c = true) body ->
  is_text_char (hd 0 rest) = false ->
  ts_lex m pos (ws ++ c :: body ++ rest)
  = Some (Token sym_text pos (pos + (length ws + 1 + length body)) rest).
Proof.
  intros Hm Hws Hc Hsp Hdash Hb Hr.
  destruct (space_then_text m c ws Hm Hc Hsp Hdash m 0 0 None
              (or_introl eq_refl) Hws) as [mk1 E1].
  change (ws ++ c :: body ++ rest) with (ws ++ [c] ++ body ++ rest).
  rewrite app_assoc.
  assert (Hl : length (ws ++ [c]) = (length ws + 1)%nat)
    by (rewrite length_app; reflexivity).
  rewrite <- Hl in E1 |- *.
  exact (ts_lex_run is_text_char (fun s => s = 102) sym_text
           m (ws ++ [c]) 102 mk1 body rest pos
           text_step text_stop E1 eq_refl Hb Hr).
Qed.

Lemma plain_text_token_witness :
  In 39 text_modes
  /\ Forall (fun c => is_space c = true) [10; 32]
  /\ is_text_char 97 = true /\ is_space 97 = false
  /\ ts_lex 39 0 ([10; 32] ++ 97 :: codes " }} b" ++ codes "<c")
     = Some (Token sym_text 0 8 (codes "<c")).
Proof.
  assert (H1 : In 39 text_modes) by (do 3 right; left; reflexivity).
  assert (H2 : Forall (fun c => is_space c = true) [10; 32])
    by (repeat constructor).
  assert (H3 : is_text_char 97 = true) by reflexivity.
  assert (H4 : is_space 97 = false) by reflexivity.
  assert (H5 : 39 = 37 \/ 39 = 38 -> 97 <> 45) by (intros _; discriminate).
  assert (H6 : Forall (fun c => is_text_char c = true) (codes " }} b"))
    by (repeat constructor).
  repeat (split; [assumption|]).
  exact (plain_text_token 39 [10; 32] 97 (codes " }} b") (codes "<c") 0
           H1 H2 H3 H4 H5 H6 eq_refl).
Defined.

(** ** Line ends in frontmatter *)

Lemma blank_skip (c : Z) :
  is_blank c = true -> ts_lex_state 2 c false = (None, SKIP 2).
Proof.
  unfold is_blank. intros Hc. open_state. split_ifs;
    first [reflexivity|exfalso; decide_chars].
Qed.

(** X23: the line end that must follow a frontmatter delimiter (lex
    state 2).  Blanks before it are skipped, a carriage return before the
    line feed is part of the token, and the token ends after the line
    feed when neither a line feed nor a carriage return follows. *)
Theorem line_end_token (ws : list Z) (cr : bool) (rest : list Z)
    (pos : nat) :
  Forall (fun c => is_blank c = true) ws ->
  hd 0 rest <> 10 -> hd 0 rest <> 13 ->
  ts_lex 2 pos (ws ++ line_end cr ++ rest)
  = Some (Token aux_sym_frontmatter_token1 (pos + length ws)
            (pos + length ws + length (line_end cr)) rest).
Proof.
  intros Hws N1 N2. revert pos.
  induction Hws as [|c ws Hc Hws IH]; intros pos.
  - rewrite ts_lex_shift.
    assert (E43 : ts_lex_state 43 (hd 0 rest) (at_eof rest)
                  = (Some aux_sym_frontmatter_token1, END_STATE)).
    { open_state. split_ifs; run_case. }
    destruct cr; cbn [line_end app]; unfold ts_lex; cbn [length].
    + erewrite lex_loop_advance; [|reflexivity].
      erewrite lex_loop_advance; [|reflexivity].
      rewrite (lex_loop_end _ _ _ _ _ _ _ E43).
      simpl. now rewrite !Nat.add_0_r.
    + erewrite lex_loop_advance; [|reflexivity].
      rewrite (lex_loop_end _ _ _ _ _ _ _ E43).
      simpl. now rewrite !Nat.add_0_r.
  - simpl app. simpl length.
    rewrite <- !Nat.add_succ_comm, <- IH.
    unfold ts_lex. simpl length.
    set (l := ws ++ line_end cr ++ rest).
    change (lex_loop (S (S (S (length l)))) 2 pos (c :: l) pos None)
      with (let (accept, next) := ts_lex_state 2 c false in
            let marked' := mark accept pos (c :: l) None in
            match next with
            | ADVANCE s =>
                lex_loop (S (S (length l))) s (S pos) l pos marked'
            | SKIP s =>
                lex_loop (S (S (length l))) s (S pos) l (S pos) marked'
            | END_STATE => Some (finish pos marked')
            end).
    now rewrite (blank_skip c Hc).
Qed.

Lemma line_end_token_witness :
  Forall (fun c => is_blank c = true) [32; 9]
  /\ hd 0 (codes "key: v") <> 10 /\ hd 0 (codes "key: v") <> 13
  /\ ts_lex 2 3 ([32; 9] ++ line_end true ++ codes "key: v")
     = Some (Token aux_sym_frontmatter_token1 5 7 (codes "key: v")).
Proof.
  assert (H1 : Forall (fun c => is_blank c = true) [32; 9])
    by (repeat constructor).
  assert (H2 : hd 0 (codes "key: v") <> 10) by discriminate.
  assert (H3 : hd 0 (codes "key: v") <> 13) by discriminate.
  repeat (split; [assumption|]).
  exact (line_end_token [32; 9] true (codes "key: v") 3 H1 H2 H3).
Defined.

(** ** Paths *)

(** A state that has read the start of an identifier is entered from
    such a state on a path character, or from a mode that skips on a
    letter or ['_']. *)
Lemma into_word_state (s c : Z) (eof : bool) (s' : Z) :
  snd (ts_lex_state s c eof) = ADVANCE s'
  \/ snd (ts_lex_state s c eof) = SKIP s' ->
  word_state s' = true ->
  (word_state s = true /\ is_path_char c = true)
  \/ (mem s skipping_modes = true /\ is_ident_start c = true).
Proof.
  unfold is_path_char, is_ident_start.
  each_state s; open_state; cbv [snd]; split_ifs;
    (intros [H|H]; try discriminate H; injection H as <-);
    try discriminate; intros _;
    first [ left; split; [reflexivity|decide_chars]
          | right; split; [reflexivity|decide_chars] ].
Qed.

(** An identifier character is not the NUL the lookahead is at the end
    of the text. *)
Lemma word_char_not_ended (chars0 : list Z) (k : nat) :
  is_path_char (look chars0 k) = true
  \/ is_ident_start (look chars0 k) = true ->
  ended chars0 k = false.
Proof.
  intros H. destruct (ended chars0 k) eqn:E; [|reflexivity].
  rewrite (look_ended chars0 k E) in H. destruct H; discriminate.
Qed.

(** The modes that skip are entered by [SKIP] only. *)
Lemma skipping_mode_not_advanced (s c : Z) (eof : bool) (s' : Z) :
  snd (ts_lex_state s c eof) = ADVANCE s' -> mem s' skipping_modes = false.
Proof.
  each_state s; open_state; cbv [snd]; split_ifs; intros H;
    try discriminate H; injection H as <-; reflexivity.
Qed.

Lemma accepts_path (s c : Z) (eof : bool) :
  fst (ts_lex_state s c eof) = Some sym_path -> word_state s = true.
Proof.
  each_state s; open_state; cbv [fst]; split_ifs; intros H;
    try discriminate H; reflexivity.
Qed.

Lemma skipping_accepts_no_path (s c : Z) (eof : bool) :
  skipping_state s = true -> fst (ts_lex_state s c eof) <> Some sym_path.
Proof.
  intros Hs H. apply accepts_path in H. revert Hs H.
  each_state s; cbv; congruence.
Qed.

Lemma word_inv_step (chars0 : list Z) (s : Z) (k st : nat)
    (mk : option (TSSymbol * nat)) (acc : option TSSymbol)
    (act : lex_action) (s' : Z) :
  (k <= length chars0)%nat ->
  word_inv chars0 s k st mk ->
  ts_lex_state s (look chars0 k) (ended chars0 k) = (acc, act) ->
  (act = ADVANCE s' ->
   word_inv chars0 s' (next_pos chars0 k) st (mark_at acc k mk))
  /\ (act = SKIP s' ->
      word_inv chars0 s' (next_pos chars0 k) (next_pos chars0 k)
        (mark_at acc k mk)).
Proof.
  intros Hk (P1 & P2 & P3 & P4) E.
  assert (Hmk : forall e, mark_at acc k mk = Some (sym_path, e) ->
                          is_word chars0 st e).
  { intros e Hm. destruct acc as [x|]; simpl in Hm.
    - injection Hm as -> <-. apply P1.
      eapply accepts_path. rewrite E. reflexivity.
    - now apply P3. }
  assert (Hnp : skipping_state s = true ->
                forall e, mark_at acc k mk <> Some (sym_path, e)).
  { intros Hs e Hm. destruct acc as [x|]; simpl in Hm.
    - injection Hm as -> _.
      eapply (skipping_accepts_no_path s); [exact Hs|].
      rewrite E. reflexivity.
    - exact (P4 Hs e Hm). }
  split; intros ->.
  - refine (conj _ (conj _ (conj Hmk _))).
    + intros Hw.
      destruct (into_word_state s (look chars0 k) (ended chars0 k) s')
        as [[Hs Hc]|[Hs Hc]];
        [rewrite E; left; reflexivity|exact Hw| |].
      * pose proof (word_char_not_ended chars0 k (or_introl Hc)) as He.
        unfold next_pos. rewrite He.
        destruct (P1 Hs) as (W1 & W2 & W3).
        refine (conj _ (conj W2 _)); [lia|].
        intros i Hi. destruct (Nat.eq_dec i k) as [->|];
          [exact Hc|apply W3; lia].
      * pose proof (word_char_not_ended chars0 k (or_intror Hc)) as He.
        unfold next_pos. rewrite He. rewrite (P2 Hs).
        refine (conj _ (conj Hc _)); [lia|]. intros i Hi. lia.
    + intros Hs.
      rewrite (skipping_mode_not_advanced s (look chars0 k)
                 (ended chars0 k) s') in Hs;
        [discriminate|now rewrite E].
    + intros Hs.
      destruct (into_skipping_state s (look chars0 k) (ended chars0 k) s')
        as [Hs0 _]; [rewrite E; left; reflexivity|exact Hs|].
      now apply Hnp.
  - assert (Hs' : skipping_state s' = true)
      by (eapply skip_target; rewrite E; reflexivity).
    destruct (into_skipping_state s (look chars0 k) (ended chars0 k) s')
      as [Hs0 _]; [rewrite E; right; reflexivity|exact Hs'|].
    refine (conj _ (conj (fun _ => eq_refl) (conj _ _))).
    + intros Hw. exfalso. revert Hs' Hw. clear.
      each_state s'; cbv; congruence.
    + intros e Hm. now elim (Hnp Hs0 e).
    + intros _. now apply Hnp.
Qed.

(** X24: a path is an identifier.  Whatever the lexical mode and the
    text, a [sym_path] token is not empty, starts with a letter or ['_']
    and holds after it letters, digits, ['_'] and ['.'] only: no
    whitespace, no brace, no quote. *)
Theorem path_token_chars (m : Z) (pos : nat) (chars : list Z) (a b : nat)
    (rest : list Z) :
  In m lex_modes ->
  ts_lex m pos chars = Some (Token sym_path a b rest) ->
  (a < b)%nat
  /\ is_ident_start (nth (a - pos) chars 0) = true
  /\ (forall i, (a - pos < i < b - pos)%nat ->
                is_path_char (nth i chars 0) = true).
Proof.
  intros Hm H.
  destruct (ts_lex_token_at_0 _ _ _ _ _ _ _ H) as (a0 & b0 & E & -> & ->).
  assert (H0 : word_inv chars m 0 0 None).
  { refine (conj _ (conj (fun _ => eq_refl) (conj _ _)));
      try discriminate.
    intros Hw. exfalso. revert Hw. clear -Hm. cbv [lex_modes In] in Hm.
    repeat (destruct Hm as [Hm|Hm]; [subst m|]); try contradiction;
      discriminate. }
  destruct (ts_lex_invariant chars (word_inv chars)) with (s := m)
    (r := Token sym_path a0 b0 rest)
    as (s' & k' & st' & mk' & acc & Hk & HP & Hend & Hr); auto.
  - intros s0 k st mk acc0 s1 Hk HP E0.
    now apply (proj1 (word_inv_step chars s0 k st mk acc0 (ADVANCE s1) s1
                        Hk HP E0)).
  - intros s0 k st mk acc0 s1 Hk HP E0.
    now apply (proj2 (word_inv_step chars s0 k st mk acc0 (SKIP s1) s1
                        Hk HP E0)).
  - destruct HP as (P1 & P2 & P3 & P4).
    assert (Hw : forall e, mark_at acc k' mk' = Some (sym_path, e) ->
                           is_word chars st' e).
    { intros e Hm'. destruct acc as [x|]; simpl in Hm'.
      - injection Hm' as -> <-. apply P1.
        eapply accepts_path. rewrite Hend. reflexivity.
      - now apply P3. }
    destruct (mark_at acc k' mk') as [[sy e]|]; simpl in Hr; [|discriminate].
    injection Hr as Hsy Ha Hb _. subst sy a0 b0.
    destruct (Hw e eq_refl) as (W1 & W2 & W3).
    rewrite Nat.min_l by lia.
    replace (pos + st' - pos)%nat with st' by lia.
    refine (conj _ (conj W2 _)); [lia|].
    intros i Hi. apply W3. lia.
Qed.

Lemma path_token_chars_witness :
  In 3 lex_modes
  /\ ts_lex 3 2 (codes " user.name }}")
     = Some (Token sym_path 3 12 (codes " }}"))
  /\ is_ident_start (nth (3 - 2) (codes " user.name }}") 0) = true.
Proof.
  assert (H1 : In 3 lex_modes) by (do 3 right; left; reflexivity).
  assert (H2 : ts_lex 3 2 (codes " user.name }}")
               = Some (Token sym_path 3 12 (codes " }}")))
    by (vm_compute; reflexivity).
  repeat (split; [assumption|]).
  exact (proj1 (proj2 (path_token_chars 3 2 (codes " user.name }}") 3 12
                         (codes " }}") H1 H2))).
Defined.

(** ** The names of the symbols *)

(** X25: no two symbols bear the same name: the kind of a node tells its
    symbol. *)
Theorem symbol_names_distinct (a b : TSSymbol) :
  ts_symbol_names a = ts_symbol_names b -> a = b.
Proof.
  intros H.
  assert (E : String.eqb (ts_symbol_names a) (ts_symbol_names b) = true)
    by (now apply String.eqb_eq).
  clear H. apply symbol_eqb_eq. revert E.
  destruct a, b; vm_compute; intros E; first [reflexivity|discriminate E].
Qed.

Lemma symbol_names_distinct_witness :
  ts_symbol_names alias_sym_key = ts_symbol_names alias_sym_key
  /\ alias_sym_key = alias_sym_key.
Proof.
  split; [reflexivity|].
  exact (symbol_names_distinct alias_sym_key alias_sym_key eq_refl).
Defined.
